(** * Ticket-To-Ride-Scorer: the training pipeline of [training.py]

    A shallow embedding of the dataset construction, the train/test split,
    the two convolutional classifiers and the training loop, with the
    properties of the specification stated over it. *)

From Stdlib Require Import ZArith Lia Bool List String Ascii Permutation.
From Stdlib Require Import Floats.SpecFloat.
From stdpp Require Import gmap strings list fin_maps sets.

(** ** Exceptions and fallible computations *)

(** The Python exceptions of the modelled code paths.  The last two are the
    error kinds that only the specification names. *)
Inductive exn : Type :=
| ValueError
| OverflowError
| NotADirectoryError
| CvError
| RuntimeError
| InvalidFractionError
| TrainingDivergenceError.

Inductive result (A : Type) : Type :=
| Ok (a : A)
| Raise (e : exn).
Arguments Ok {A} a.
Arguments Raise {A} e.

#[global] Instance result_bind : MBind result := fun A B k r =>
  match r with
  | Ok a => k a
  | Raise e => Raise e
  end.

#[global] Instance result_ret : MRet result := fun A a => Ok a.

(** ** Python floats: IEEE 754 binary64 *)

Module PyFloat.
Local Open Scope Z_scope.

Definition prec : Z := 53.
Definition emax : Z := 1024.

Abbreviation float := spec_float.

(** Every Python float is a valid binary64 datum. *)
Definition is_float (x : float) : bool := valid_binary prec emax x.

Definition zero : float := S754_zero false.
Definition one : float := SFone prec emax.
Definition nan : float := S754_nan.

Definition mul : float -> float -> float := SFmul prec emax.
Definition add : float -> float -> float := SFadd prec emax.
Definition sub : float -> float -> float := SFsub prec emax.
Definition div : float -> float -> float := SFdiv prec emax.
Definition ltb : float -> float -> bool := SFltb.


(** [float(n)] for a Python int: correctly rounded, [OverflowError] when
    the magnitude is out of range. *)
Definition of_int (n : Z) : result float :=
  match binary_normalize prec emax n 0 false with
  | S754_infinity _ => Raise OverflowError
  | x => Ok x
  end.

(** [int(x)]: truncation toward zero; [ValueError] on NaN and
    [OverflowError] on an infinity. *)
Definition to_int (x : float) : result Z :=
  match x with
  | S754_nan => Raise ValueError
  | S754_infinity _ => Raise OverflowError
  | S754_zero _ => Ok 0
  | S754_finite s m e => Ok (cond_Zopp s (Z.shiftl (Zpos m) e))
  end.

(** [math.floor(x)]: the largest integer not above [x]. *)
Definition floor (x : float) : result Z :=
  match x with
  | S754_nan => Raise ValueError
  | S754_infinity _ => Raise OverflowError
  | S754_zero _ => Ok 0
  | S754_finite s m e => Ok (Z.shiftl (cond_Zopp s (Zpos m)) e)
  end.

(** [x * n] for a float [x] and an int [n]: the int is converted first. *)
Definition mul_int (x : float) (n : Z) : result float :=
  y ← of_int n; Ok (mul x y).

(** The literal [0.7], the default [train_percentage]. *)
Definition lit_0_7 : float := S754_finite false 6305039478318694 (-53).

(** The literals [1.5] and [-0.5]. *)
Definition lit_1_5 : float := S754_finite false 6755399441055744 (-52).
Definition lit_neg_0_5 : float := S754_finite true 4503599627370496 (-53).

End PyFloat.


(** [for x in l: s = f(s, x)], stopping at the first exception. *)
Fixpoint for_each {A S : Type} (f : S -> A -> result S) (l : list A) (s : S)
  : result S :=
  match l with
  | [] => Ok s
  | x :: xs => s' ← f s x; for_each f xs s'
  end.

(** ** Python strings and lists *)

Module Py.

(** [s.split(sep)] for a one-character separator. *)
Fixpoint split (sep : ascii) (s : string) : list string :=
  match s with
  | EmptyString => [EmptyString]
  | String c rest =>
      if Ascii.eqb c sep then EmptyString :: split sep rest
      else match split sep rest with
           | [] => [String c EmptyString]
           | piece :: pieces => String c piece :: pieces
           end
  end.

(** [l[0]] on the result of a split (which is never empty). *)
Definition first (pieces : list string) : string :=
  match pieces with
  | piece :: _ => piece
  | [] => EmptyString
  end.

Definition startswith_sep (s : string) : bool :=
  match s with
  | String c _ => Ascii.eqb c "/"
  | EmptyString => false
  end.

Fixpoint endswith_sep (s : string) : bool :=
  match s with
  | EmptyString => false
  | String c EmptyString => Ascii.eqb c "/"
  | String _ rest => endswith_sep rest
  end.

(** [os.path.join(a, b)] (posix). *)
Definition path_join (a b : string) : string :=
  if startswith_sep b then b
  else if String.eqb a "" || endswith_sep a then a +:+ b
  else a +:+ "/" +:+ b.

(** The bound of a slice, clamped as Python does. *)
Definition clamp (len i : Z) : Z :=
  (if i <? 0 then Z.max (i + len) 0 else Z.min i len)%Z.

(** [l[a:b]] for integer bounds of either sign. *)
Definition slice {A : Type} (l : list A) (a b : Z) : list A :=
  let len := Z.of_nat (length l) in
  let a' := clamp len a in
  let b' := clamp len b in
  take (Z.to_nat (b' - a')) (drop (Z.to_nat a') l).

Definition sum (l : list Z) : Z := fold_right Z.add 0%Z l.

(** [itertools.accumulate(l)]: the running sums. *)
Fixpoint accumulate_from (acc : Z) (l : list Z) : list Z :=
  match l with
  | [] => []
  | x :: xs => (acc + x)%Z :: accumulate_from (acc + x)%Z xs
  end.

Definition accumulate (l : list Z) : list Z := accumulate_from 0%Z l.

End Py.

(** ** The two convolutional classifiers *)

Module Net.
Local Open Scope N_scope.

Inductive layer : Type :=
| Conv2d (in_channels out_channels kernel_size : N)
| ReLU
| MaxPool2d (kernel_size : N)
| Flatten
| Linear (in_features out_features : N).

(** [TrainsCNN.model] *)
Definition TrainsCNN : list layer :=
  [ Conv2d 3 15 3; ReLU; MaxPool2d 2; ReLU; Flatten;
    Linear 21960 512; ReLU; Linear 512 6 ].

(** [StationsCNN.model] *)
Definition StationsCNN : list layer :=
  [ Conv2d 3 15 3; ReLU; MaxPool2d 2; ReLU; Flatten;
    Linear 36015 512; ReLU; Linear 512 6 ].

(** The shape a layer produces from a batched input [(N, C, H, W)], as
    torch computes it (stride 1 and no padding for the convolution, stride
    equal to the kernel for the pooling, flattening from dimension 1);
    [RuntimeError] where torch rejects the input. *)
Definition out_shape (shape : list N) (l : layer) : result (list N) :=
  match l with
  | Conv2d cin cout k =>
      match shape with
      | [n; c; h; w] =>
          if (c =? cin) && (1 <=? k) && (k <=? h) && (k <=? w)
          then Ok [n; cout; h - k + 1; w - k + 1]
          else Raise RuntimeError
      | _ => Raise RuntimeError
      end
  | ReLU => Ok shape
  | MaxPool2d k =>
      match shape with
      | [n; c; h; w] =>
          if (1 <=? k) && (k <=? h) && (k <=? w)
          then Ok [n; c; h / k; w / k]
          else Raise RuntimeError
      | _ => Raise RuntimeError
      end
  | Flatten =>
      match shape with
      | n :: rest => Ok [n; fold_right N.mul 1 rest]
      | [] => Raise RuntimeError
      end
  | Linear fin fout =>
      match reverse shape with
      | f :: rest =>
          if f =? fin then Ok (reverse (fout :: rest)) else Raise RuntimeError
      | [] => Raise RuntimeError
      end
  end.

(** [nn.Sequential.forward], on shapes. *)
Definition forward_shape (model : list layer) (shape : list N)
  : result (list N) :=
  for_each out_shape model shape.

(** The feature extractor: everything before the first dense layer. *)
Definition features (model : list layer) : list layer := take 5%nat model.

(** The width the specification gives for the flattened features of an
    [H x W] input. *)
Definition spec_flattened_width (H W : N) : N :=
  15 * ((H - 2) / 2) * ((W - 2) / 2).

End Net.

(** ** The labelled image dataset *)

Module Dataset.

(** An image array, recorded as the library calls that produced it. *)
Inductive ndarray : Type :=
| Decoded (path : string) (height width : nat)
    (* cv2.imread(path): a BGR image *)
| Resized (src : ndarray) (width height : nat)
    (* cv2.resize(src, (width, height)) *)
| Rotated (src : ndarray) (angle : Z).
    (* scipy.ndimage.rotate(src, angle, reshape=False) *)

(** [a.shape]: rows, columns, channels. *)
Fixpoint shape (a : ndarray) : nat * nat * nat :=
  match a with
  | Decoded _ h w => (h, w, 3)
  | Resized src w h => (h, w, snd (shape src))
  | Rotated src _ => shape src
  end.

(** A directory tree.  A file carries what [cv2.imread] makes of it: the
    height and width of the decoded image, or nothing when it does not
    decode.  A directory lists its entries in [os.listdir] order. *)
#[warnings="-register-all"]
Inductive entry : Type :=
| File (image : option (nat * nat))
| Dir (children : list (string * entry)).

Definition listdir (e : entry) : result (list (string * entry)) :=
  match e with
  | Dir children => Ok children
  | File _ => Raise NotADirectoryError
  end.

(** [cv2.imread] returns [None] for whatever it cannot decode. *)
Definition imread (path : string) (e : entry) : option ndarray :=
  match e with
  | File (Some (h, w)) => Some (Decoded path h w)
  | _ => None
  end.

(** [cv2.resize] fails on [None]. *)
Definition resize (src : option ndarray) (width height : nat) : result ndarray :=
  match src with
  | Some a => Ok (Resized a width height)
  | None => Raise CvError
  end.

Definition rotate (src : ndarray) (angle : Z) : ndarray := Rotated src angle.

Definition color_mapping : gmap string nat :=
  {[ "blue" := 1; "black" := 2; "green" := 3; "red" := 4; "yellow" := 5 ]}.

Record T2RDataset : Type := {
  root_dir : string;
  data : list ndarray;
  targets : list nat
}.

Definition append (self : T2RDataset) (image : ndarray) (target : nat)
  : T2RDataset :=
  {| root_dir := root_dir self;
     data := data self ++ [image];
     targets := targets self ++ [target] |}.

(** [self.color_mapping.get(filename.split('-')[0], 0)] *)
Definition derive_label (filename : string) : nat :=
  let label := Py.first (Py.split "-" filename) in
  default 0 (color_mapping !! label).

Definition load_station_image (self : T2RDataset)
    (original_image : option ndarray) (filename : string) : result T2RDataset :=
  let '(desired_height, desired_width) := (100, 100) in
  resized_image ← resize original_image desired_width desired_height;
  Ok (fold_left
        (fun self rotation_angle =>
           let rotated_image := rotate resized_image rotation_angle in
           append self rotated_image (derive_label filename))
        [0; 90; 180; 270]%Z self).

Definition load_train_image (self : T2RDataset)
    (original_image : option ndarray) (filename : string) : result T2RDataset :=
  let '(desired_height, desired_width) := (50, 125) in
  image ← resize original_image desired_width desired_height;
  Ok (append self image (derive_label filename)).

(** The body of the inner loop of [load_data]. *)
Definition load_file (dtype folder_path : string) (self : T2RDataset)
    (file : string * entry) : result T2RDataset :=
  let '(filename, e) := file in
  if negb (String.eqb filename ".DS_Store") then
    let img_path := Py.path_join folder_path filename in
    let original_image := imread img_path e in
    if String.eqb dtype "station" then
      load_station_image self original_image filename
    else if String.eqb dtype "train" then
      load_train_image self original_image filename
    else Ok self
  else Ok self.

(** The body of the outer loop of [load_data]. *)
Definition load_folder (dtype big_folder : string) (self : T2RDataset)
    (sub : string * entry) : result T2RDataset :=
  let '(folder, e) := sub in
  if negb (String.eqb folder ".DS_Store") then
    let folder_path := Py.path_join big_folder folder in
    files ← listdir e;
    for_each (load_file dtype folder_path) files self
  else Ok self.

(** [load_data], reading the tree [fs] found at [self.root_dir]. *)
Definition load_data (fs : entry) (self : T2RDataset) (dtype : string)
  : result T2RDataset :=
  let big_folder := root_dir self in
  folders ← listdir fs;
  for_each (load_folder dtype big_folder) folders self.

(** [T2RDataset(root_dir, transform, dtype)]; the transform is only stored,
    for [__getitem__]. *)
Definition init (fs : entry) (root : string) (dtype : string)
  : result T2RDataset :=
  load_data fs {| root_dir := root; data := []; targets := [] |} dtype.

(** [__len__] *)
Definition len (self : T2RDataset) : nat := length (data self).

(** [torch.utils.data.random_split(dataset, lengths)] for integer
    lengths, given the outcome [indices] of [randperm(sum(lengths))]:
    lengths that sum to 1 are read as fractions (torch 1.13 and later),
    the lengths must sum to [len(dataset)], and the subsets are the
    consecutive slices of [indices]. *)
Definition random_split (dataset_len : nat) (lengths : list Z)
    (indices : list nat) : result (list (list nat)) :=
  lengths ←
    (if (Py.sum lengths =? 1)%Z then
       if forallb (fun frac => (0 <=? frac)%Z && (frac <=? 1)%Z) lengths then
         let subset_lengths :=
           map (fun frac => (Z.of_nat dataset_len * frac)%Z) lengths in
         let remainder := (Z.of_nat dataset_len - Py.sum subset_lengths)%Z in
         Ok (fold_left
               (fun subset_lengths i =>
                  alter Z.succ (i mod length subset_lengths) subset_lengths)
               (seq 0 (Z.to_nat remainder)) subset_lengths)
       else Raise ValueError
     else Ok lengths);
  if (Py.sum lengths =? Z.of_nat dataset_len)%Z then
    Ok (map (fun '(offset, length) =>
               Py.slice indices (offset - length)%Z offset)
            (zip (Py.accumulate lengths) lengths))
  else Raise ValueError.

(** [split_data]: the train and test index lists. *)
Definition split_data (self : T2RDataset) (train_percentage : PyFloat.float)
    (indices : list nat) : result (list nat * list nat) :=
  let dataset_size := Z.of_nat (length (data self)) in
  product ← PyFloat.mul_int train_percentage dataset_size;
  train_size ← PyFloat.to_int product;
  let test_size := (dataset_size - train_size)%Z in
  subsets ← random_split (len self) [train_size; test_size] indices;
  match subsets with
  | [train_dataset; test_dataset] => Ok (train_dataset, test_dataset)
  | _ => Raise ValueError
  end.

(** The entries that the traversal reads as source images: the files
    not named [.DS_Store] in the subfolders not named [.DS_Store]. *)
Definition kept {A : Type} (l : list (string * A)) : list (string * A) :=
  filter (fun x => fst x ≠ ".DS_Store") l.

Definition folder_files (e : entry) : list (string * entry) :=
  match e with
  | Dir files => kept files
  | File _ => []
  end.

Definition source_files (fs : entry) : list (string * entry) :=
  match fs with
  | Dir folders => flat_map (fun sub => folder_files (snd sub)) (kept folders)
  | File _ => []
  end.

(** The source images: each kept file that decodes, with its name. *)
Definition decode (folder_path : string) (file : string * entry)
  : option (string * ndarray) :=
  img ← imread (Py.path_join folder_path (fst file)) (snd file);
  Some (fst file, img).

Definition folder_images (big_folder : string) (sub : string * entry)
  : list (string * ndarray) :=
  let folder_path := Py.path_join big_folder (fst sub) in
  omap (decode folder_path) (folder_files (snd sub)).

Definition source_images (big_folder : string) (fs : entry)
  : list (string * ndarray) :=
  match fs with
  | Dir folders => flat_map (folder_images big_folder) (kept folders)
  | File _ => []
  end.

(** The samples that one source image contributes. *)
Definition samples (dtype : string) (source : string * ndarray)
  : list (ndarray * nat) :=
  let '(filename, img) := source in
  if String.eqb dtype "station" then
    map (fun angle => (Rotated (Resized img 100 100) angle, derive_label filename))
        [0; 90; 180; 270]%Z
  else if String.eqb dtype "train" then
    [(Resized img 125 50, derive_label filename)]
  else [].

Definition extend (self : T2RDataset) (new : list (ndarray * nat)) : T2RDataset :=
  {| root_dir := root_dir self;
     data := data self ++ map fst new;
     targets := targets self ++ map snd new |}.

(** The trees that [load_data] reads without an exception: the root and
    every kept entry of it are directories, and, when the images are
    resized, every kept file decodes. *)
Definition resizes (dtype : string) : bool :=
  String.eqb dtype "station" || String.eqb dtype "train".

Definition decodes (e : entry) : bool :=
  match e with
  | File (Some _) => true
  | _ => false
  end.

Definition file_ok (dtype : string) (file : string * entry) : bool :=
  String.eqb (fst file) ".DS_Store" || negb (resizes dtype) || decodes (snd file).

Definition folder_ok (dtype : string) (sub : string * entry) : bool :=
  String.eqb (fst sub) ".DS_Store" ||
  match snd sub with
  | Dir files => forallb (file_ok dtype) files
  | File _ => false
  end.

Definition loadable (dtype : string) (fs : entry) : bool :=
  match fs with
  | Dir folders => forallb (folder_ok dtype) folders
  | File _ => false
  end.

(** Scenario A of the specification: five station subfolders with two
    images each, and the hidden entries that macOS leaves behind. *)
Definition two_reds : entry :=
  Dir [ ("red-1.png", File (Some (48, 52)));
        (".DS_Store", File None);
        ("red-2.png", File (Some (61, 47))) ].

Definition scenario_A : entry :=
  Dir [ ("s1", two_reds); ("s2", two_reds); (".DS_Store", File None);
        ("s3", two_reds); ("s4", two_reds); ("s5", two_reds) ].

(** Concrete datasets for the split: ten resized train images, and the
    dataset that an empty root directory yields. *)
Definition ten_items : T2RDataset :=
  {| root_dir := "train_data";
     data := replicate 10 (Resized (Decoded "train_data/a/blue-1.png" 60 150) 125 50);
     targets := replicate 10 1 |}.

Definition hundred_items : T2RDataset :=
  {| root_dir := "train_data";
     data := replicate 100 (Resized (Decoded "train_data/a/blue-1.png" 60 150) 125 50);
     targets := replicate 100 1 |}.


Definition shuffled_ten : list nat := [7; 2; 9; 0; 4; 1; 8; 3; 6; 5].

End Dataset.

(** ** The classifier and its training loop *)

Module Classifier.
Import PyFloat.

(** The torch and numpy operations that the loop drives, kept abstract. *)
Record Backend : Type := {
  params : Type;
    (* the weights and biases of [self.model] *)
  opt_state : Type;
    (* what Adam keeps between steps *)
  batch : Type;
    (* a pair (x, y) as a DataLoader yields it *)
  loss : params -> batch -> float;
    (* self.loss_func(self.model(x), y).item(), in training mode *)
  step : params -> opt_state -> batch -> params * opt_state;
    (* zero_grad(); batch_loss.backward(); self.optimizer.step() *)
  predict_accuracy : params -> batch -> float;
    (* the fraction of argmax(self.model(x)) == y, in evaluation mode *)
  mean : list float -> float
    (* np.mean *)
}.

Section Loop.
Context {B : Backend}.

(** The attributes of a [Classifier] that [train] reads or writes. *)
Record Classifier : Type := {
  num_epochs : nat;
  weights : params B;
  optimizer : opt_state B;
  training : bool  (* self.model.training *)
}.

(** What one call of [train] reads from outside: the batches that the
    shuffling loaders yield in each epoch, and the successive readings
    of [time.time()]. *)
Record Run : Type := {
  train_loader : nat -> list (batch B);
  test_loader : nat -> list (batch B);
  time : nat -> float
}.

(** The tuple [results]. *)
Record Results : Type := {
  train_losses : list float;
  train_accuracies : list float;
  test_losses : list float;
  test_accuracies : list float;
  time_per_epoch : list float
}.

(** [train_batch]: [self.model.train()], the forward pass and the loss, then
    the backward pass and the optimizer step; the loss returned is the one
    computed before the step. *)
Definition train_batch (self : Classifier) (xy : batch B)
  : float * Classifier :=
  let batch_loss := loss B (weights self) xy in
  let '(w, o) := step B (weights self) (optimizer self) xy in
  (batch_loss,
   {| num_epochs := num_epochs self; weights := w; optimizer := o;
      training := true |}).

(** [accuracy]: [self.model.eval()] and a forward pass under [no_grad]. *)
Definition accuracy (self : Classifier) (xy : batch B)
  : float * Classifier :=
  (predict_accuracy B (weights self) xy,
   {| num_epochs := num_epochs self; weights := weights self;
      optimizer := optimizer self; training := false |}).

(** [for batch in self.train_loader: ...] *)
Definition train_pass (self : Classifier) (batches : list (batch B))
  : list float * list float * Classifier :=
  fold_left
    (fun '(epoch_losses, epoch_accuracies, self) xy =>
       let '(batch_loss, self) := train_batch self xy in
       let '(batch_acc, self) := accuracy self xy in
       (epoch_losses ++ [batch_loss], epoch_accuracies ++ [batch_acc], self))
    batches ([], [], self).

(** [for ix, batch in enumerate(iter(self.test_loader)): ...] *)
Definition test_pass (self : Classifier) (batches : list (batch B))
  : list float * list float * Classifier :=
  fold_left
    (fun '(epoch_test_accuracies, epoch_test_losses, self) xy =>
       let '(test_loss, self) := train_batch self xy in
       let '(test_acc, self) := accuracy self xy in
       (epoch_test_accuracies ++ [test_acc], epoch_test_losses ++ [test_loss], self))
    batches ([], [], self).

(** The body of [for epoch in range(self.num_epochs)]. *)
Definition run_epoch (run : Run) (state : Results * Classifier) (epoch : nat)
  : Results * Classifier :=
  let '(results, self) := state in
  let start_time := time run (2 * epoch) in
  let '(epoch_losses, epoch_accuracies, self) :=
    train_pass self (train_loader run epoch) in
  let '(epoch_test_accuracies, epoch_test_losses, self) :=
    test_pass self (test_loader run epoch) in
  let end_time := time run (2 * epoch + 1) in
  ({| train_losses := train_losses results ++ [mean B epoch_losses];
      train_accuracies := train_accuracies results ++ [mean B epoch_accuracies];
      test_losses := test_losses results ++ [mean B epoch_test_losses];
      test_accuracies := test_accuracies results ++ [mean B epoch_test_accuracies];
      time_per_epoch := time_per_epoch results ++ [PyFloat.sub end_time start_time] |},
   self).

Definition no_results : Results :=
  {| train_losses := []; train_accuracies := []; test_losses := [];
     test_accuracies := []; time_per_epoch := [] |}.

Definition train_loop (run : Run) (self : Classifier) : Results * Classifier :=
  fold_left (run_epoch run) (seq 0 (num_epochs self)) (no_results, self).

(** [plot_results]: each curve is plotted against [np.arange(10) + 1],
    which matplotlib rejects with a [ValueError] when the lengths
    differ. *)
Definition plot_results (results : Results) : result unit :=
  if (length (train_losses results) =? 10)
     && (length (test_losses results) =? 10)
     && (length (train_accuracies results) =? 10)
     && (length (test_accuracies results) =? 10)
     && (length (time_per_epoch results) =? 10)
  then Ok tt else Raise ValueError.

(** One record of the training curve, as the specification has it. *)
Record EpochRecord : Type := {
  mean_train_loss : float;
  mean_train_accuracy : float;
  mean_test_loss : float;
  mean_test_accuracy : float;
  wall_clock_seconds : float
}.

(** What a caller of [train] can be handed back. *)
Inductive returned : Type :=
| PyNone
| PyEpochRecords (records : list EpochRecord).

(** [train]: the loop, then the plot; the function has no [return]. *)
Definition train (run : Run) (self : Classifier)
  : result (returned * Classifier) :=
  let '(results, self) := train_loop run self in
  _ ← plot_results results;
  Ok (PyNone, self).

(** The weights and the optimizer state after one optimizer step on
    each of [batches]. *)
Definition steps (batches : list (batch B)) (w : params B) (o : opt_state B)
  : params B * opt_state B :=
  fold_left (fun '(w, o) xy => step B w o xy) batches (w, o).

(** The results and the classifier after the first [n] epochs. *)
Definition after_epochs (run : Run) (self : Classifier) (n : nat)
  : Results * Classifier :=
  fold_left (run_epoch run) (seq 0 n) (no_results, self).

(** The record of epoch [i], computed from the classifier as the
    earlier epochs left it. *)
Definition epoch_record (run : Run) (self : Classifier) (i : nat) : EpochRecord :=
  let self := snd (after_epochs run self i) in
  let '(epoch_losses, epoch_accuracies, self) :=
    train_pass self (train_loader run i) in
  let '(epoch_test_accuracies, epoch_test_losses, self) :=
    test_pass self (test_loader run i) in
  {| mean_train_loss := mean B epoch_losses;
     mean_train_accuracy := mean B epoch_accuracies;
     mean_test_loss := mean B epoch_test_losses;
     mean_test_accuracy := mean B epoch_test_accuracies;
     wall_clock_seconds :=
       PyFloat.sub (time run (2 * i + 1)) (time run (2 * i)) |}.

End Loop.

Arguments Classifier : clear implicits.
Arguments Run : clear implicits.
Arguments Results : clear implicits.
Arguments EpochRecord : clear implicits.
Arguments returned : clear implicits.

(** A one-weight model for concrete runs: a batch carries the loss it
    yields and the amount by which a step moves the weight; the optimizer
    state counts the steps; the mean is the sum divided by the length, and
    NaN on an empty list. *)
Definition scalar : Backend := {|
  params := Z;
  opt_state := nat;
  batch := float * Z;
  loss := fun _ xy => fst xy;
  step := fun w o xy => ((w - snd xy)%Z, S o);
  predict_accuracy := fun _ _ => PyFloat.zero;
  mean := fun l =>
    match l with
    | [] => PyFloat.nan
    | _ =>
        PyFloat.div (fold_left PyFloat.add l PyFloat.zero)
          (binary_normalize PyFloat.prec PyFloat.emax (Z.of_nat (length l)) 0 false)
    end
|}.

Definition scalar_classifier (epochs : nat) : Classifier scalar :=
  @Build_Classifier scalar epochs 0%Z 0 false.


(** A run with finite losses, whose clock does not advance either. *)
Definition steady_run : Run scalar :=
  @Build_Run scalar
    (fun _ => [(PyFloat.one, 2%Z); (PyFloat.one, 3%Z)])
    (fun _ => [(PyFloat.one, 5%Z)])
    (fun _ => PyFloat.one).

End Classifier.

(** ** Item access, batching and the preview of predictions *)

Module Access.
Import Dataset Classifier.

(** The exceptions of indexing and of [next]. *)
Inductive access_exn : Type :=
| IndexError
| StopIteration.

Inductive outcome (A : Type) : Type :=
| Returned (a : A)
| Raised (e : access_exn).
Arguments Returned {A} a.
Arguments Raised {A} e.

(** [l[idx]] for an integer of either sign. *)
Definition py_index {A : Type} (l : list A) (idx : Z) : outcome A :=
  let len := Z.of_nat (length l) in
  let i := (if idx <? 0 then idx + len else idx)%Z in
  if ((0 <=? i) && (i <? len))%Z then
    match l !! Z.to_nat i with
    | Some x => Returned x
    | None => Raised IndexError
    end
  else Raised IndexError.

(** What [__getitem__] hands back for the image: the stored array, or
    what the transform makes of it. *)
Inductive item (T : Type) : Type :=
| Raw (img : ndarray)
| Transformed (t : T).
Arguments Raw {T} img.
Arguments Transformed {T} t.

(** [if self.transform: img = self.transform(img)] *)
Definition apply_transform {T : Type} (transform : option (ndarray -> T))
    (img : ndarray) : item T :=
  match transform with
  | Some f => Transformed (f img)
  | None => Raw img
  end.

(** [__getitem__], with [self.transform] either [None] or a callable. *)
Definition getitem {T : Type} (transform : option (ndarray -> T))
    (self : T2RDataset) (idx : Z) : outcome (item T * nat) :=
  match py_index (data self) idx with
  | Raised e => Raised e
  | Returned img =>
      match py_index (targets self) idx with
      | Raised e => Raised e
      | Returned target => Returned (apply_transform transform img, target)
      end
  end.

(** [Subset.__getitem__]: the item of the dataset at [indices[pos]]. *)
Definition subset_getitem {T : Type} (transform : option (ndarray -> T))
    (self : T2RDataset) (indices : list nat) (pos : Z) : outcome (item T * nat) :=
  match py_index indices pos with
  | Raised e => Raised e
  | Returned idx => getitem transform self (Z.of_nat idx)
  end.

(** [x] is the item at position [pos] of the subset: the image and the
    target stored at [indices[pos]], the image transformed. *)
Definition item_at {T : Type} (transform : option (ndarray -> T))
    (d : T2RDataset) (indices : list nat) (pos : nat) (x : item T * nat) : Prop :=
  exists idx img target,
    indices !! pos = Some idx /\
    data d !! idx = Some img /\ targets d !! idx = Some target /\
    x = (apply_transform transform img, target).

(** The items of the whole dataset, in index order. *)
Definition items {T : Type} (transform : option (ndarray -> T))
    (d : T2RDataset) : list (item T * nat) :=
  zip_with (fun img target => (apply_transform transform img, target))
           (data d) (targets d).

(** The batches of positions that a [DataLoader] with a positive
    [batch_size] and [drop_last=False] draws from the order [sampler] of
    its sampler; [batch] is the batch being filled. *)
Fixpoint batch_sampler {A : Type} (batch_size : nat) (batch : list A)
    (sampler : list A) : list (list A) :=
  match sampler with
  | [] => if 0 <? length batch then [batch] else []
  | idx :: rest =>
      let batch := batch ++ [idx] in
      if length batch =? batch_size
      then batch :: batch_sampler batch_size [] rest
      else batch_sampler batch_size batch rest
  end.

(** The items of one batch, fetched in order; the first exception ends
    the fetch. *)
Fixpoint fetch {T : Type} (transform : option (ndarray -> T))
    (self : T2RDataset) (indices : list nat) (batch : list nat)
  : outcome (list (item T * nat)) :=
  match batch with
  | [] => Returned []
  | pos :: rest =>
      match subset_getitem transform self indices (Z.of_nat pos) with
      | Raised e => Raised e
      | Returned x =>
          match fetch transform self indices rest with
          | Raised e => Raised e
          | Returned xs => Returned (x :: xs)
          end
      end
  end.

(** One pass over [DataLoader(Subset(self, indices), batch_size,
    shuffle=True)], when the shuffle draws the positions in the order
    [sampler]. *)
Fixpoint fetch_all {T : Type} (transform : option (ndarray -> T))
    (self : T2RDataset) (indices : list nat) (batches : list (list nat))
  : outcome (list (list (item T * nat))) :=
  match batches with
  | [] => Returned []
  | batch :: rest =>
      match fetch transform self indices batch with
      | Raised e => Raised e
      | Returned b =>
          match fetch_all transform self indices rest with
          | Raised e => Raised e
          | Returned bs => Returned (b :: bs)
          end
      end
  end.

Definition loader_pass {T : Type} (transform : option (ndarray -> T))
    (self : T2RDataset) (indices : list nat) (batch_size : nat)
    (sampler : list nat) : outcome (list (list (item T * nat))) :=
  fetch_all transform self indices (batch_sampler batch_size [] sampler).

(** The shape of the tensor that [ToTensor] makes of an array of shape
    (rows, columns, channels), in a batch of [n]. *)
Definition batch_shape (n : N) (shape : nat * nat * nat) : list N :=
  let '(h, w, c) := shape in [n; N.of_nat c; N.of_nat h; N.of_nat w].

Section Preview.
Context {B : Backend}.
Variable X : Type.
(* one image of a batch *)
Variable predict : params B -> X -> nat.
(* torch.max(self.model(images), 1) at that image *)

(** The loop [for i in range(num_images)] of [visualize_predictions],
    from index [i] on: the titles shown, and how the loop ends. *)
Fixpoint show_from (w : params B) (samples : list (X * nat)) (i count : nat)
  : list (nat * nat) * outcome unit :=
  match count with
  | 0 => ([], Returned tt)
  | S count =>
      match samples !! i with
      | None => ([], Raised IndexError)
      | Some (image, label) =>
          let '(shown, ending) := show_from w samples (S i) count in
          ((label, predict w image) :: shown, ending)
      end
  end.

(** [visualize_predictions], on the batches that iterating [loader]
    yields: the classifier it leaves, the (actual, predicted) titles it
    shows, and how it ends. *)
Definition visualize_predictions (self : Classifier B)
    (loader : list (list (X * nat))) (num_images : nat)
  : Classifier B * list (nat * nat) * outcome unit :=
  let self :=
    {| num_epochs := num_epochs self; weights := weights self;
       optimizer := optimizer self; training := false |} in
  match loader with
  | [] => (self, [], Raised StopIteration)
  | samples :: _ =>
      let '(shown, ending) := show_from (weights self) samples 0 num_images in
      (self, shown, ending)
  end.

End Preview.

End Access.

(** ** The pixel normalisation of the transform *)

Module Transform.
Local Open Scope Z_scope.

(** float32 *)
Definition prec : Z := 24.
Definition emax : Z := 128.

Definition of_byte (p : Z) : spec_float := binary_normalize prec emax p 0 false.
Definition half : spec_float := S754_finite false 8388608 (-24).

(** [ToTensor] on a byte: the float32 quotient by 255. *)
Definition to_tensor (p : Z) : spec_float :=
  SFdiv prec emax (of_byte p) (of_byte 255).

(** [Normalize((0.5,), (0.5,))]: subtract the mean, divide by the
    deviation. *)
Definition normalize (x : spec_float) : spec_float :=
  SFdiv prec emax (SFsub prec emax x half) half.

(** The transform of [Classifier.load_data] on one byte of an image. *)
Definition transform (p : Z) : spec_float := normalize (to_tensor p).

Definition minus_one : spec_float := S754_finite true 8388608 (-23).
Definition plus_one : spec_float := S754_finite false 8388608 (-23).

End Transform.

(** ** The batches of a whole run *)

Module Epochs.
Import Classifier.

(** The batches on which [train] steps in its first [n] epochs, in the
    order in which it meets them: the train batches of an epoch, then its
    test batches. *)
Definition epoch_batches {B : Backend} (run : Run B) (n : nat) : list (batch B) :=
  flat_map (fun epoch => train_loader run epoch ++ test_loader run epoch) (seq 0 n).

(** The weights after the optimizer steps on the first [i] of [batches]. *)
Definition weights_after {B : Backend} (self : Classifier B)
    (batches : list (batch B)) (i : nat) : params B :=
  fst (steps (take i batches) (weights self) (optimizer self)).

(** The classifier after a pass over [batches]: stepped once per batch,
    and in evaluation mode when there was a batch. *)
Definition stepped {B : Backend} (self : Classifier B) (batches : list (batch B))
  : Classifier B :=
  match batches with
  | [] => self
  | _ =>
      {| num_epochs := num_epochs self;
         weights := fst (steps batches (weights self) (optimizer self));
         optimizer := snd (steps batches (weights self) (optimizer self));
         training := false |}
  end.

End Epochs.

(** ** The train size of the specification *)

Module SplitSpec.
Local Open Scope Z_scope.

(** The train size as the specification writes it,
    [floor(train_fraction * N)], the product taken exactly on the value
    [(-1)^s * m * 2^e] of the float; nothing for a float that is not
    finite. *)
Definition spec_train_size (f : PyFloat.float) (N : Z) : option Z :=
  match f with
  | S754_zero _ => Some 0
  | S754_finite s m e =>
      Some (if 0 <=? e then cond_Zopp s (Zpos m) * N * 2 ^ e
            else (cond_Zopp s (Zpos m) * N) / 2 ^ (- e))
  | _ => None
  end.

(** The literal [0.29]. *)
Definition lit_0_29 : PyFloat.float := S754_finite false 5224175567749775 (-54).

End SplitSpec.

(** ** The entries of the root directory *)

Module Traversal.
Import Dataset.


Definition is_dir (e : entry) : bool :=
  match e with
  | Dir _ => true
  | File _ => false
  end.

(** The root is a directory, and each of its entries not named
    [.DS_Store] is a directory: the two calls of [os.listdir] in
    [load_data] raise nothing. *)
Definition subfolders_only (fs : entry) : bool :=
  match fs with
  | Dir folders =>
      forallb (fun sub => String.eqb (fst sub) ".DS_Store" || is_dir (snd sub))
              folders
  | File _ => false
  end.

End Traversal.

(** ** The two classifiers of [train_models] *)

Module TrainModels.

(** The classifiers that [train_models] builds, in order: the layers of
    the model, the root directory and the dtype handed to [Classifier]. *)
Definition classifiers : list (list Net.layer * string * string) :=
  [ (Net.StationsCNN, "test_train_data/station_data", "station");
    (Net.TrainsCNN, "test_train_data/train_data", "train") ].

End TrainModels.

(** ** The training run with a forward pass that can fail *)

Module Forward.
Import PyFloat Classifier.

(** [Classifier.__init__] picks the device, ['cuda'] when it is available,
    and moves the model there; the loops of [train] hand the batches of
    the loaders to the model as they are, on the CPU.  So the model takes
    a batch only on a host without CUDA, and when the batch fits its
    layers. *)
Definition accepts_on {B : Backend} (cuda_available : bool)
    (fits : batch B -> bool) (xy : batch B) : bool :=
  negb cuda_available && fits xy.

Section Loop.
Context {B : Backend}.
Variable accepts : batch B -> bool.
(* whether [self.model(x)] returns on the batch; torch raises a
   RuntimeError otherwise *)

Definition in_mode (mode : bool) (self : Classifier B) : Classifier B :=
  {| num_epochs := num_epochs self; weights := weights self;
     optimizer := optimizer self; training := mode |}.

(** [train_batch]: what the call returns or raises, and the classifier
    as the call leaves it.  [self.model.train()] comes before the forward
    pass. *)
Definition train_batch (self : Classifier B) (xy : batch B)
  : result float * Classifier B :=
  if accepts xy then
    let '(batch_loss, self) := Classifier.train_batch self xy in
    (Ok batch_loss, self)
  else (Raise RuntimeError, in_mode true self).

(** [accuracy]: [self.model.eval()] comes before the forward pass. *)
Definition accuracy (self : Classifier B) (xy : batch B)
  : result float * Classifier B :=
  if accepts xy then
    let '(batch_acc, self) := Classifier.accuracy self xy in
    (Ok batch_acc, self)
  else (Raise RuntimeError, in_mode false self).

(** The loop over the batches of a loader, the same for the train loader
    and for the test loader: the loss and the accuracy of each batch are
    appended to the two lists, and the first exception ends the loop. *)
Fixpoint pass (batches : list (batch B)) (losses accs : list float)
    (self : Classifier B) : result (list float * list float) * Classifier B :=
  match batches with
  | [] => (Ok (losses, accs), self)
  | xy :: rest =>
      match train_batch self xy with
      | (Raise e, self) => (Raise e, self)
      | (Ok batch_loss, self) =>
          match accuracy self xy with
          | (Raise e, self) => (Raise e, self)
          | (Ok batch_acc, self) =>
              pass rest (losses ++ [batch_loss]) (accs ++ [batch_acc]) self
          end
      end
  end.

(** The body of [for epoch in range(self.num_epochs)]. *)
Definition run_epoch (run : Run B) (results : Results) (epoch : nat)
    (self : Classifier B) : result Results * Classifier B :=
  let start_time := time run (2 * epoch) in
  match pass (train_loader run epoch) [] [] self with
  | (Raise e, self) => (Raise e, self)
  | (Ok (epoch_losses, epoch_accuracies), self) =>
      match pass (test_loader run epoch) [] [] self with
      | (Raise e, self) => (Raise e, self)
      | (Ok (epoch_test_losses, epoch_test_accuracies), self) =>
          let end_time := time run (2 * epoch + 1) in
          (Ok {| train_losses := train_losses results ++ [mean B epoch_losses];
                 train_accuracies :=
                   train_accuracies results ++ [mean B epoch_accuracies];
                 test_losses := test_losses results ++ [mean B epoch_test_losses];
                 test_accuracies :=
                   test_accuracies results ++ [mean B epoch_test_accuracies];
                 time_per_epoch :=
                   time_per_epoch results ++ [PyFloat.sub end_time start_time] |},
           self)
      end
  end.

Fixpoint epochs (run : Run B) (l : list nat) (results : Results)
    (self : Classifier B) : result Results * Classifier B :=
  match l with
  | [] => (Ok results, self)
  | epoch :: l =>
      match run_epoch run results epoch self with
      | (Raise e, self) => (Raise e, self)
      | (Ok results, self) => epochs run l results self
      end
  end.

(** [train]: what the call returns or raises, and the classifier as the
    call leaves it. *)
Definition train (run : Run B) (self : Classifier B)
  : result returned * Classifier B :=
  match epochs run (seq 0 (num_epochs self)) no_results self with
  | (Raise e, self) => (Raise e, self)
  | (Ok results, self) =>
      match plot_results results with
      | Ok _ => (Ok PyNone, self)
      | Raise e => (Raise e, self)
      end
  end.

(** The batches before the first one that the model does not take. *)
Fixpoint accepted (batches : list (batch B)) : list (batch B) :=
  match batches with
  | [] => []
  | xy :: rest => if accepts xy then xy :: accepted rest else []
  end.

End Loop.

End Forward.

(** ** Facts about binary64 arithmetic *)

Module PyFloatFacts.
Import PyFloat.
Local Open Scope Z_scope.

Example of_int_100 : of_int 100 = Ok (S754_finite false 7036874417766400 (-46)).
Proof. reflexivity. Qed.

(** [int(0.7 * 100)] is 70 and [int(0.7 * 10)] is 7: the float products are
    exactly 70.0 and 7.0, although the binary64 value of [0.7] lies below
    7/10, so that the exact products lie below 70 and 7. *)
Example int_0_7_times_100 :
  (product ← mul_int lit_0_7 100; to_int product) = Ok 70.
Proof. reflexivity. Qed.

Example int_0_7_times_10 :
  (product ← mul_int lit_0_7 10; to_int product) = Ok 7.
Proof. reflexivity. Qed.

Example exact_0_7_times_100 : (6305039478318694 * 100) / 2 ^ 53 = 69.
Proof. reflexivity. Qed.

Lemma digits2_pos_size (p : positive) : digits2_pos p = Pos.size p.
Proof. induction p as [p IH|p IH|]; simpl; congruence. Qed.

Lemma digits_upper (p : positive) : Zpos p < 2 ^ Zpos (digits2_pos p).
Proof.
  rewrite digits2_pos_size.
  pose proof (Pos.size_gt p) as H.
  apply Pos2Z.pos_lt_pos in H. now rewrite Pos2Z.inj_pow in H.
Qed.

Lemma digits_lower (p : positive) : 2 ^ (Zpos (digits2_pos p) - 1) <= Zpos p.
Proof.
  rewrite digits2_pos_size.
  pose proof (Pos.size_le p) as H.
  apply Pos2Z.pos_le_pos in H. rewrite Pos2Z.inj_pow in H.
  replace (Zpos (Pos.size p)) with (Z.succ (Zpos (Pos.size p) - 1)) in H by lia.
  rewrite Z.pow_succ_r in H by lia.
  change (Zpos p~0) with (2 * Zpos p) in H. lia.
Qed.

(** A positive number below [2 ^ k] has at most [k] binary digits. *)
Lemma digits_le_of_lt (p : positive) (k : Z) :
  0 <= k -> Zpos p < 2 ^ k -> Zpos (digits2_pos p) <= k.
Proof.
  intros Hk Hlt.
  pose proof (digits_lower p) as Hlo.
  destruct (Z_le_gt_dec (Zpos (digits2_pos p)) k) as [|Hgt]; [assumption|].
  exfalso.
  assert (2 ^ k <= 2 ^ (Zpos (digits2_pos p) - 1)) by (apply Z.pow_le_mono_r; lia).
  lia.
Qed.

Lemma Zdigits2_le_of_lt (z k : Z) :
  0 <= z -> 0 <= k -> z < 2 ^ k -> Zdigits2 z <= k.
Proof.
  intros Hz Hk Hlt. destruct z as [|p|p]; simpl; try lia.
  now apply digits_le_of_lt.
Qed.

(** Shifting a mantissa left by [k] adds [k] digits. *)
Lemma digits_shift (p q : positive) (k : Z) :
  0 <= k -> Zpos q = Zpos p * 2 ^ k ->
  Zpos (digits2_pos q) = Zpos (digits2_pos p) + k.
Proof.
  intros Hk Hq.
  pose proof (digits_upper p) as Hup. pose proof (digits_lower p) as Hlo.
  pose proof (digits_upper q) as Hup'. pose proof (digits_lower q) as Hlo'.
  assert (Hpk : 0 < 2 ^ k) by (apply Z.pow_pos_nonneg; lia).
  set (d := Zpos (digits2_pos p)) in *. set (d' := Zpos (digits2_pos q)) in *.
  assert (Hd : 1 <= d) by (unfold d; lia).
  assert (Hd' : 1 <= d') by (unfold d'; lia).
  assert (H1 : 2 ^ (d - 1 + k) < 2 ^ d').
  { rewrite Z.pow_add_r by lia. nia. }
  assert (H2 : 2 ^ (d' - 1) < 2 ^ (d + k)).
  { rewrite (Z.pow_add_r 2 d k) by lia. nia. }
  apply Z.pow_lt_mono_r_iff in H1; [|lia|lia].
  apply Z.pow_lt_mono_r_iff in H2; [|lia|lia].
  lia.
Qed.

Lemma iter_xO_pow (p : positive) (n : positive) :
  Zpos (Pos.iter xO p n) = Zpos p * 2 ^ Zpos n.
Proof.
  induction n as [|n IH] using Pos.peano_ind.
  - simpl. lia.
  - rewrite Pos.iter_succ, Pos2Z.inj_succ, Z.pow_succ_r by lia.
    change (Zpos (Pos.iter xO p n)~0) with (2 * Zpos (Pos.iter xO p n)).
    rewrite IH. ring.
Qed.

Lemma shr_1_m (mrs : shr_record) :
  0 <= shr_m mrs -> shr_m (shr_1 mrs) = shr_m mrs / 2.
Proof.
  destruct mrs as [m r s]. simpl. intros Hm.
  destruct m as [|[p|p|]|p]; simpl; try lia; try reflexivity.
  - change (Zpos p~1) with (2 * Zpos p + 1).
    apply Z.div_unique with (r := 1); lia.
  - change (Zpos p~0) with (2 * Zpos p).
    apply Z.div_unique with (r := 0); lia.
Qed.

Lemma iter_shr_1_m (p : positive) (mrs : shr_record) :
  0 <= shr_m mrs ->
  shr_m (SpecFloat.iter_pos shr_1 p mrs) = shr_m mrs / 2 ^ Zpos p.
Proof.
  revert mrs. induction p as [p IH|p IH|]; intros mrs Hm; simpl SpecFloat.iter_pos.
  - assert (H1 : 0 <= shr_m (shr_1 mrs)).
    { rewrite shr_1_m by assumption. apply Z.div_pos; lia. }
    assert (Hp : 0 < 2 ^ Zpos p) by (apply Z.pow_pos_nonneg; lia).
    assert (H2 : 0 <= shr_m (SpecFloat.iter_pos shr_1 p (shr_1 mrs))).
    { rewrite IH by assumption. apply Z.div_pos; lia. }
    rewrite IH, IH, shr_1_m by assumption.
    rewrite !Z.div_div by lia.
    f_equal. replace (Zpos p~1) with (1 + (Zpos p + Zpos p)) by lia.
    rewrite !Z.pow_add_r by lia. change (2 ^ 1) with 2. ring.
  - assert (Hp : 0 < 2 ^ Zpos p) by (apply Z.pow_pos_nonneg; lia).
    assert (H2 : 0 <= shr_m (SpecFloat.iter_pos shr_1 p mrs)).
    { rewrite IH by assumption. apply Z.div_pos; lia. }
    rewrite IH, IH by assumption.
    rewrite !Z.div_div by lia.
    f_equal. replace (Zpos p~0) with (Zpos p + Zpos p) by lia.
    rewrite !Z.pow_add_r by lia. ring.
  - rewrite shr_1_m by assumption. reflexivity.
Qed.

Lemma round_nearest_even_bounds (m : Z) (l : location) :
  m <= round_nearest_even m l <= m + 1.
Proof.
  destruct l as [|[| |]]; simpl; try lia.
  destruct (Z.even m); lia.
Qed.

Lemma fexp_unfold (x : Z) : fexp prec emax x = Z.max (x - 53) (-1074).
Proof. reflexivity. Qed.

(** One exact-location shift of [binary_round_aux]: the new exponent and
    the truncated mantissa. *)
Lemma shr_fexp_exact (m e : Z) :
  0 <= m ->
  exists mrs e',
    shr_fexp prec emax m e loc_Exact = (mrs, e') /\
    e' = Z.max e (fexp prec emax (Zdigits2 m + e)) /\
    shr_m mrs = m / 2 ^ (e' - e) /\
    (e' = e -> mrs = Build_shr_record m false false).
Proof.
  intros Hm. unfold shr_fexp, shr. simpl shr_record_of_loc.
  destruct (fexp prec emax (Zdigits2 m + e) - e) as [|p|p] eqn:Hn.
  - eexists _, _. split; [reflexivity|].
    replace (Z.max e _) with e by lia.
    rewrite Z.sub_diag. simpl shr_m. rewrite Z.pow_0_r, Z.div_1_r. auto.
  - eexists _, _. split; [reflexivity|].
    replace (Z.max e _) with (e + Zpos p) by lia.
    rewrite iter_shr_1_m by assumption. simpl shr_m.
    replace (e + Zpos p - e) with (Zpos p) by lia.
    repeat split; try reflexivity. lia.
  - eexists _, _. split; [reflexivity|].
    replace (Z.max e _) with e by lia.
    rewrite Z.sub_diag. simpl shr_m. rewrite Z.pow_0_r, Z.div_1_r. auto.
Qed.

(** Rounding a positive exact product [M * 2^E] that lies below an
    integer [B < 2^53]: the result is a non-negative finite float that
    still does not exceed [B]. *)
Lemma binary_round_aux_bound (M : positive) (E B : Z) :
  E <= 0 -> 0 < B < 2 ^ 53 -> Zpos M <= B * 2 ^ (- E) ->
  (fexp prec emax (Zpos (digits2_pos M) + E) <= E \/ Zpos M < B * 2 ^ (- E)) ->
  binary_round_aux prec emax false (Zpos M) E loc_Exact = S754_zero false \/
  exists m e,
    binary_round_aux prec emax false (Zpos M) E loc_Exact = S754_finite false m e /\
    E <= e <= 0 /\ Zpos m <= B * 2 ^ (- e).
Proof.
  intros HE HB HM Hstrict.
  assert (HpE : 0 < 2 ^ (- E)) by (apply Z.pow_pos_nonneg; lia).
  assert (Hd : Zpos (digits2_pos M) <= 53 - E).
  { apply digits_le_of_lt; [lia|].
    replace (53 - E) with (53 + - E) by lia. rewrite Z.pow_add_r by lia. nia. }
  destruct (shr_fexp_exact (Zpos M) E) as (mrs1 & e1 & H1 & He1 & Hm1 & Hex1); [lia|].
  simpl Zdigits2 in He1. rewrite fexp_unfold in He1, Hstrict.
  set (m1r := round_nearest_even (shr_m mrs1) (loc_of_shr_record mrs1)).
  assert (He1b : E <= e1 <= 0) by lia.
  assert (Hp1 : 0 < 2 ^ (e1 - E)) by (apply Z.pow_pos_nonneg; lia).
  assert (Hpe1 : 0 < 2 ^ (- e1)) by (apply Z.pow_pos_nonneg; lia).
  assert (Hsplit : 2 ^ (- E) = 2 ^ (- e1) * 2 ^ (e1 - E)).
  { rewrite <- Z.pow_add_r by lia. f_equal. lia. }
  assert (Hm1r : 0 <= m1r <= B * 2 ^ (- e1)).
  { pose proof (round_nearest_even_bounds (shr_m mrs1) (loc_of_shr_record mrs1)) as Hr.
    fold m1r in Hr.
    destruct (Z.eq_dec e1 E) as [Heq|Hne].
    - unfold m1r. rewrite (Hex1 Heq). simpl. rewrite Heq. lia.
    - assert (Hlt : Zpos M < B * 2 ^ (- E)) by lia.
      assert (Hq : shr_m mrs1 < B * 2 ^ (- e1)).
      { rewrite Hm1. apply Z.div_lt_upper_bound; [lia|]. rewrite Hsplit in Hlt. lia. }
      assert (0 <= shr_m mrs1) by (rewrite Hm1; apply Z.div_pos; lia).
      lia. }
  destruct (shr_fexp_exact m1r e1) as (mrs2 & e2 & H2 & He2 & Hm2 & _); [lia|].
  assert (Hd2 : Zdigits2 m1r <= 53 - e1).
  { apply Zdigits2_le_of_lt; [lia|lia|].
    replace (53 - e1) with (53 + - e1) by lia. rewrite Z.pow_add_r by lia. nia. }
  rewrite fexp_unfold in He2.
  assert (He2b : e1 <= e2 <= 0) by lia.
  assert (Hp2 : 0 < 2 ^ (e2 - e1)) by (apply Z.pow_pos_nonneg; lia).
  assert (Hpe2 : 0 < 2 ^ (- e2)) by (apply Z.pow_pos_nonneg; lia).
  assert (Hsplit2 : 2 ^ (- e1) = 2 ^ (- e2) * 2 ^ (e2 - e1)).
  { rewrite <- Z.pow_add_r by lia. f_equal. lia. }
  assert (Hm2b : 0 <= shr_m mrs2 <= B * 2 ^ (- e2)).
  { rewrite Hm2. split; [apply Z.div_pos; lia|].
    apply Z.div_le_upper_bound; [lia|]. rewrite Hsplit2 in Hm1r. lia. }
  unfold binary_round_aux. rewrite H1. fold m1r. rewrite H2.
  destruct (shr_m mrs2) as [|m|m]; [now left| |lia].
  right. exists m, e2.
  replace (e2 <=? emax - prec) with true
    by (symmetry; apply Z.leb_le; unfold emax, prec; lia).
  repeat split; lia.
Qed.


Lemma shiftl_nonpos (a e : Z) : e <= 0 -> Z.shiftl a e = a / 2 ^ (- e).
Proof.
  intros He. rewrite <- Z.shiftr_div_pow2 by lia.
  unfold Z.shiftr. now rewrite Z.opp_involutive.
Qed.

(** [float(N)] for a list length [N] below [2^53]: a non-negative finite
    float whose value does not exceed [N]. *)
Lemma of_int_bound (N : Z) :
  0 < N < 2 ^ 53 ->
  of_int N = Ok (S754_zero false) \/
  exists m e, of_int N = Ok (S754_finite false m e) /\
              e <= 0 /\ Zpos m <= N * 2 ^ (- e).
Proof.
  intros HN. destruct N as [|n|n]; try lia.
  unfold of_int, binary_normalize, binary_round.
  pose proof (digits_le_of_lt n 53 ltac:(lia) ltac:(lia)) as Hdn.
  assert (Hfe : fexp prec emax (Zpos (digits2_pos n) + 0) = Zpos (digits2_pos n) - 53).
  { rewrite fexp_unfold. lia. }
  rewrite Hfe. unfold shl_align.
  destruct (Zpos (digits2_pos n) - 53 - 0) as [|d|d] eqn:Hsh.
  - assert (Hle : Zpos n <= Zpos n * 2 ^ (- 0)) by (simpl; lia).
    assert (Hfx : fexp prec emax (Zpos (digits2_pos n) + 0) <= 0)
      by (rewrite fexp_unfold; lia).
    destruct (binary_round_aux_bound n 0 (Zpos n) ltac:(lia) ltac:(lia) Hle
                (or_introl Hfx)) as [H0|(m & e & H1 & He & Hm)].
    + rewrite H0. now left.
    + rewrite H1. right. exists m, e. repeat split; lia.
  - lia.
  - pose proof (iter_xO_pow n d) as Hit.
    pose proof (digits_shift n (Pos.iter xO n d) (Zpos d) ltac:(lia) Hit) as Hdig.
    assert (Heq : Zpos (digits2_pos n) - 53 = - Zpos d) by lia.
    rewrite Heq.
    assert (Hle : Zpos (Pos.iter xO n d) <= Zpos n * 2 ^ (- - Zpos d))
      by (rewrite Z.opp_involutive; lia).
    assert (Hfx : fexp prec emax (Zpos (digits2_pos (Pos.iter xO n d)) + - Zpos d)
                  <= - Zpos d) by (rewrite fexp_unfold; lia).
    destruct (binary_round_aux_bound (Pos.iter xO n d) (- Zpos d) (Zpos n)
                ltac:(lia) ltac:(lia) Hle (or_introl Hfx))
      as [H0|(m & e & H1 & He & Hm)].
    + rewrite H0. now left.
    + rewrite H1. right. exists m, e. repeat split; lia.
Qed.

Lemma one_eq : one = S754_finite false 4503599627370496 (-52).
Proof. vm_compute. reflexivity. Qed.

(** A valid binary64 value strictly between 0 and 1. *)
Lemma unit_interval_inv (f : float) :
  is_float f = true -> ltb zero f = true -> ltb f one = true ->
  exists m e, f = S754_finite false m e /\ e < 0 /\ Zpos m < 2 ^ (- e).
Proof.
  intros Hv H0 H1. rewrite one_eq in H1.
  destruct f as [s|s| |s m e];
    [discriminate H0
    |destruct s; [discriminate H0|discriminate H1]
    |discriminate H0
    |destruct s; [discriminate H0|]].
  exists m, e. split; [reflexivity|].
  unfold is_float, valid_binary, bounded in Hv.
  apply andb_prop in Hv as [Hc _].
  unfold canonical_mantissa in Hc. apply Z.eqb_eq in Hc.
  rewrite fexp_unfold in Hc.
  unfold ltb, SFltb in H1. cbv [SFcompare] in H1.
  destruct (Z.compare_spec e (-52)) as [Heq|Hlt|Hgt]; try discriminate H1.
  - subst e.
    assert (Hm : Zpos m < 4503599627370496).
    { apply Pos2Z.pos_lt_pos. unfold Pos.lt, Pos.compare. revert H1.
      destruct (PosDef.Pos.compare_cont Eq m 4503599627370496); intros H1;
        (reflexivity || discriminate H1). }
    split; [lia|]. exact Hm.
  - split; [lia|].
    pose proof (digits_upper m) as Hup.
    assert (2 ^ Zpos (digits2_pos m) <= 2 ^ (- e)) by (apply Z.pow_le_mono_r; lia).
    lia.
Qed.

(** The product [f * N] computed by Python for [0 < f < 1] and a list
    length [N]: it converts to an integer between 0 and [N], and
    truncation agrees with [math.floor] on it. *)
Lemma mul_int_unit_interval (f : float) (N : Z) :
  is_float f = true -> ltb zero f = true -> ltb f one = true ->
  0 <= N < 2 ^ 53 ->
  exists x k, mul_int f N = Ok x /\ to_int x = Ok k /\ floor x = Ok k /\
              0 <= k <= N.
Proof.
  intros Hv H0 H1 HN.
  destruct (unit_interval_inv f Hv H0 H1) as (m & e & -> & He & Hm).
  unfold mul_int.
  destruct (Z.eq_dec N 0) as [->|Hne].
  { exists (S754_zero false), 0. repeat split; try reflexivity; lia. }
  destruct (of_int_bound N ltac:(lia)) as [HN0|(mN & eN & HNf & HeN & HmN)].
  { rewrite HN0. exists (S754_zero false), 0. repeat split; try reflexivity; lia. }
  rewrite HNf. simpl mbind. unfold mbind, result_bind, mul, SFmul. simpl xorb.
  assert (Hpe : 0 < 2 ^ (- e)) by (apply Z.pow_pos_nonneg; lia).
  assert (HpeN : 0 < 2 ^ (- eN)) by (apply Z.pow_pos_nonneg; lia).
  assert (Hsplit : 2 ^ (- (e + eN)) = 2 ^ (- e) * 2 ^ (- eN)).
  { rewrite <- Z.pow_add_r by lia. f_equal. lia. }
  assert (Hprod : Zpos (m * mN) < N * 2 ^ (- (e + eN))).
  { rewrite Hsplit, Pos2Z.inj_mul.
    apply Z.le_lt_trans with (Zpos m * (N * 2 ^ (- eN))).
    - apply Z.mul_le_mono_nonneg_l; lia.
    - replace (N * (2 ^ (- e) * 2 ^ (- eN))) with (2 ^ (- e) * (N * 2 ^ (- eN))) by ring.
      apply Z.mul_lt_mono_pos_r; [|assumption].
      apply Z.mul_pos_pos; lia. }
  destruct (binary_round_aux_bound (m * mN) (e + eN) N ltac:(lia) ltac:(lia)
              ltac:(lia) (or_intror Hprod))
    as [Hz|(m' & e' & Hr & He' & Hm')].
  - rewrite Hz. exists (S754_zero false), 0. repeat split; try reflexivity; lia.
  - rewrite Hr. exists (S754_finite false m' e'), (Zpos m' / 2 ^ (- e')).
    assert (Hpe' : 0 < 2 ^ (- e')) by (apply Z.pow_pos_nonneg; lia).
    repeat split.
    + simpl. now rewrite shiftl_nonpos by lia.
    + simpl. now rewrite shiftl_nonpos by lia.
    + apply Z.div_pos; lia.
    + apply Z.div_le_upper_bound; lia.
Qed.

End PyFloatFacts.

(** ** The flattened feature width *)

Module NetFacts.
Import Net.
Local Open Scope N_scope.

Example trains_forward : forward_shape TrainsCNN [32; 3; 50; 125] = Ok [32; 6].
Proof. reflexivity. Qed.

Example stations_forward : forward_shape StationsCNN [32; 3; 100; 100] = Ok [32; 6].
Proof. reflexivity. Qed.

(** A station-sized input does not fit the dense layer of [TrainsCNN]. *)
Example trains_on_station_input :
  forward_shape TrainsCNN [32; 3; 100; 100] = Raise RuntimeError.
Proof. reflexivity. Qed.

(** The convolution and the pooling on an input of at least 4 x 4. *)
Lemma features_shape (model : list layer) (n H W : N) :
  features model = [Conv2d 3 15 3; ReLU; MaxPool2d 2; ReLU; Flatten] ->
  4 <= H -> 4 <= W ->
  forward_shape (features model) [n; 3; H; W]
  = Ok [n; 15 * ((H - 2) / 2) * ((W - 2) / 2)].
Proof.
  intros -> HH HW. unfold forward_shape. simpl.
  assert (Hh : (3 <=? H) = true) by (apply N.leb_le; lia).
  assert (Hw : (3 <=? W) = true) by (apply N.leb_le; lia).
  rewrite Hh, Hw. simpl.
  assert (Hh' : (2 <=? H - 3 + 1) = true) by (apply N.leb_le; lia).
  assert (Hw' : (2 <=? W - 3 + 1) = true) by (apply N.leb_le; lia).
  rewrite Hh', Hw'. simpl.
  replace (H - 3 + 1) with (H - 2) by lia.
  replace (W - 3 + 1) with (W - 2) by lia.
  do 2 f_equal. f_equal. lia.
Qed.

(** C7: the width of the flattened features is
    [15 * floor((H-2)/2) * floor((W-2)/2)] for an [H x W] input; it is
    21960 for the 50 x 125 train input and 36015 for the 100 x 100 station
    input, which are the [in_features] of the first dense layer of
    [TrainsCNN] and [StationsCNN], the only layer in which the two models
    differ. *)
Theorem flattened_width_formula (n H W : N) :
  4 <= H -> 4 <= W ->
  forward_shape (features TrainsCNN) [n; 3; H; W]
    = Ok [n; spec_flattened_width H W] /\
  forward_shape (features StationsCNN) [n; 3; H; W]
    = Ok [n; spec_flattened_width H W] /\
  spec_flattened_width 50 125 = 21960 /\
  spec_flattened_width 100 100 = 36015 /\
  TrainsCNN !! 5%nat = Some (Linear 21960 512) /\
  StationsCNN !! 5%nat = Some (Linear 36015 512) /\
  (forall i : nat, i <> 5%nat -> TrainsCNN !! i = StationsCNN !! i) /\
  forward_shape TrainsCNN [n; 3; 50; 125] = Ok [n; 6] /\
  forward_shape StationsCNN [n; 3; 100; 100] = Ok [n; 6].
Proof.
  intros HH HW. unfold spec_flattened_width.
  split; [now apply features_shape|].
  split; [now apply features_shape|].
  repeat split; try reflexivity.
  intros i Hi.
  do 5 (destruct i as [|i]; [reflexivity|]).
  destruct i as [|i]; [congruence|].
  do 3 (destruct i as [|i]; [reflexivity|]). reflexivity.
Qed.

Lemma flattened_width_formula_witness :
  4 <= 50 /\ 4 <= 125 /\
  forward_shape (features TrainsCNN) [32; 3; 50; 125]
    = Ok [32; spec_flattened_width 50 125].
Proof.
  split; [lia|]. split; [lia|].
  apply (flattened_width_formula 32 50 125); lia.
Defined.

End NetFacts.

(** ** Label derivation *)

Module LabelFacts.
Import Dataset.

Lemma split_nonempty (sep : ascii) (s : string) : Py.split sep s <> [].
Proof.
  destruct s as [|c rest]; simpl; [discriminate|].
  destruct (Ascii.eqb c sep); [discriminate|].
  destruct (Py.split sep rest); discriminate.
Qed.

(** [s.split(sep)[0]] is the text of [s] before the first [sep]: it has
    no [sep] in it, and [s] is either that text alone or that text, a
    [sep], and a remainder. *)
Lemma split_first (sep : ascii) (s : string) :
  let piece := Py.first (Py.split sep s) in
  (forall a b, piece <> a +:+ String sep b) /\
  (s = piece \/ exists rest, s = piece +:+ String sep rest).
Proof.
  induction s as [|c rest [IHno IHcut]]; simpl.
  - split; [|now left]. intros [|x a] b; discriminate.
  - destruct (Ascii.eqb_spec c sep) as [->|Hne]; simpl.
    + split; [|right; now exists rest]. intros [|x a] b; discriminate.
    + pose proof (split_nonempty sep rest) as Hnil.
      destruct (Py.split sep rest) as [|piece pieces]; [congruence|].
      simpl in *. split.
      * intros [|x a] b; simpl; intros Heq; injection Heq as Hc Hp.
        -- now apply Hne.
        -- now apply (IHno a b).
      * destruct IHcut as [->|[r ->]]; [now left|right]. now exists r.
Qed.

Example label_red : derive_label "red-1.png" = 4.
Proof. reflexivity. Qed.

Example label_foo : derive_label "foo-1.png" = 0.
Proof. reflexivity. Qed.

(** The colour names are matched exactly. *)
Example label_case : derive_label "Red-1.png" = 0.
Proof. reflexivity. Qed.

Lemma color_mapping_other (label : string) :
  label <> "blue" -> label <> "black" -> label <> "green" ->
  label <> "red" -> label <> "yellow" ->
  color_mapping !! label = None.
Proof.
  intros. unfold color_mapping.
  rewrite !lookup_insert_ne by congruence.
  apply lookup_singleton_ne. congruence.
Qed.

Lemma load_train_image_targets (self : T2RDataset) (img : ndarray) (filename : string) :
  exists d, load_train_image self (Some img) filename = Ok d /\
            data d = data self ++ [Resized img 125 50] /\
            targets d = targets self ++ [derive_label filename].
Proof. eexists. split; [reflexivity|]. split; reflexivity. Qed.

Lemma load_station_image_targets (self : T2RDataset) (img : ndarray) (filename : string) :
  exists d, load_station_image self (Some img) filename = Ok d /\
            data d = data self
                     ++ map (Rotated (Resized img 100 100)) [0; 90; 180; 270]%Z /\
            targets d = targets self ++ replicate 4 (derive_label filename).
Proof.
  eexists. split; [reflexivity|]. simpl. rewrite <- !app_assoc. split; reflexivity.
Qed.

(** C2: the label stored for a loaded image file is the table value of the
    text before the first [-] of its name (blue 1, black 2, green 3, red 4,
    yellow 5), and 0 when that text is none of the five names. *)
Theorem derived_label_table (self : T2RDataset) (img : ndarray) (filename : string) :
  let label := Py.first (Py.split "-" filename) in
  ((forall a b, label <> a +:+ "-" +:+ b) /\
   (filename = label \/ exists rest, filename = label +:+ "-" +:+ rest)) /\
  (exists d, load_train_image self (Some img) filename = Ok d /\
             targets d = targets self ++ [derive_label filename]) /\
  (exists d, load_station_image self (Some img) filename = Ok d /\
             targets d = targets self ++ replicate 4 (derive_label filename)) /\
  (label = "blue" -> derive_label filename = 1) /\
  (label = "black" -> derive_label filename = 2) /\
  (label = "green" -> derive_label filename = 3) /\
  (label = "red" -> derive_label filename = 4) /\
  (label = "yellow" -> derive_label filename = 5) /\
  (label <> "blue" -> label <> "black" -> label <> "green" ->
   label <> "red" -> label <> "yellow" -> derive_label filename = 0).
Proof.
  intros label. split; [exact (split_first "-" filename)|].
  split.
  { destruct (load_train_image_targets self img filename) as (d & Hd & _ & Ht).
    now exists d. }
  split.
  { destruct (load_station_image_targets self img filename) as (d & Hd & _ & Ht).
    now exists d. }
  unfold derive_label. fold label.
  repeat split; try (intros ->; reflexivity).
  intros. now rewrite color_mapping_other.
Qed.

Lemma derived_label_table_witness :
  Py.first (Py.split "-" "green-07.jpg") = "green" /\
  derive_label "green-07.jpg" = 3.
Proof.
  split; [reflexivity|].
  apply (derived_label_table {| root_dir := "d"; data := []; targets := [] |}
           (Decoded "d/a/green-07.jpg" 40 40) "green-07.jpg").
  reflexivity.
Defined.

End LabelFacts.

(** ** Dataset construction *)

Module DatasetFacts.
Import Dataset.

Example path_join_plain : Py.path_join "data" "s1" = "data/s1".
Proof. reflexivity. Qed.

Example path_join_slash : Py.path_join "data/" "s1" = "data/s1".
Proof. reflexivity. Qed.

(** Scenario B of the specification. *)
Example scenario_B :
  targets <$> (match init (Dir [("s1", Dir [("foo-1.png", File (Some (30, 30)))])])
                          "train_data" "train" with
               | Ok d => Some d | Raise _ => None end) = Some [0].
Proof. reflexivity. Qed.

(** Only the name [.DS_Store] is skipped: any other entry is read. *)
Example stray_file_in_root :
  init (Dir [("s1", two_reds); ("Thumbs.db", File None)]) "station_data" "station"
  = Raise NotADirectoryError.
Proof. reflexivity. Qed.

Example undecodable_file :
  init (Dir [("s1", Dir [("red-1.png", File (Some (48, 52))); (".gitkeep", File None)])])
       "station_data" "station"
  = Raise CvError.
Proof. reflexivity. Qed.

Example scenario_A_size :
  len <$> (match init scenario_A "station_data" "station" with
           | Ok d => Some d | Raise _ => None end) = Some 40.
Proof. reflexivity. Qed.

Lemma extend_nil (self : T2RDataset) : extend self [] = self.
Proof. destruct self. unfold extend. simpl. now rewrite !app_nil_r. Qed.

Lemma extend_app (self : T2RDataset) (l1 l2 : list (ndarray * nat)) :
  extend (extend self l1) l2 = extend self (l1 ++ l2).
Proof. unfold extend. simpl. now rewrite !map_app, !app_assoc. Qed.

Lemma samples_not_resized (dtype : string) (source : string * ndarray) :
  resizes dtype = false -> samples dtype source = [].
Proof.
  unfold resizes, samples. destruct source as [filename img].
  destruct (String.eqb dtype "station"), (String.eqb dtype "train");
    simpl; intros H; (discriminate H || reflexivity).
Qed.


Lemma imread_decodes (path : string) (e : entry) :
  decodes e = true ->
  exists h w, imread path e = Some (Decoded path h w).
Proof.
  destruct e as [[[h w]|]|children]; simpl; intros H; try discriminate H.
  now exists h, w.
Qed.

Lemma kept_cons_hidden {A : Type} (e : A) (l : list (string * A)) :
  kept ((".DS_Store", e) :: l) = kept l.
Proof. unfold kept. rewrite filter_cons_False; [reflexivity|]. simpl. tauto. Qed.

Lemma kept_cons_other {A : Type} (name : string) (e : A) (l : list (string * A)) :
  name <> ".DS_Store" -> kept ((name, e) :: l) = (name, e) :: kept l.
Proof. intros H. unfold kept. now rewrite filter_cons_True. Qed.

(** A hidden entry leaves the dataset as it is, whatever it is. *)
Lemma load_file_hidden (dtype folder_path : string) (self : T2RDataset) (e : entry) :
  load_file dtype folder_path self (".DS_Store", e) = Ok self.
Proof. reflexivity. Qed.

Lemma load_folder_hidden (dtype big_folder : string) (self : T2RDataset) (e : entry) :
  load_folder dtype big_folder self (".DS_Store", e) = Ok self.
Proof. reflexivity. Qed.

Lemma load_file_kept (dtype folder_path : string) (self : T2RDataset)
    (filename : string) (e : entry) :
  filename <> ".DS_Store" ->
  file_ok dtype (filename, e) = true ->
  load_file dtype folder_path self (filename, e)
  = Ok (extend self
          (from_option (samples dtype) [] (decode folder_path (filename, e)))).
Proof.
  intros Hname Hok. unfold load_file, file_ok, decode in *. simpl in *.
  apply String.eqb_neq in Hname. rewrite Hname in *. simpl in *.
  destruct (resizes dtype) eqn:Hres; simpl in Hok.
  - destruct (imread_decodes (Py.path_join folder_path filename) e Hok)
      as (h & w & ->). simpl.
    unfold resizes in Hres. unfold samples.
    destruct (String.eqb dtype "station").
    + unfold load_station_image, extend, append. simpl.
      now rewrite <- !app_assoc.
    + simpl in Hres. rewrite Hres. reflexivity.
  - unfold resizes in Hres. apply orb_false_elim in Hres as [Hs Ht].
    destruct (imread _ e); simpl; rewrite ?Hs, ?Ht; simpl; now rewrite extend_nil.
Qed.

Lemma load_files_spec (dtype folder_path : string)
    (files : list (string * entry)) (self : T2RDataset) :
  forallb (file_ok dtype) files = true ->
  for_each (load_file dtype folder_path) files self
  = Ok (extend self
          (flat_map (samples dtype) (omap (decode folder_path) (kept files)))).
Proof.
  revert self. induction files as [|[filename e] files IH]; intros self Hok.
  - simpl. now rewrite extend_nil.
  - simpl in Hok. apply andb_prop in Hok as [Hfile Hfiles].
    cbn [for_each].
    destruct (String.eqb_spec filename ".DS_Store") as [->|Hname].
    + rewrite load_file_hidden, kept_cons_hidden. simpl. now apply IH.
    + rewrite load_file_kept, kept_cons_other by assumption.
      simpl. rewrite IH by assumption. rewrite extend_app. f_equal. f_equal.
      destruct (decode folder_path (filename, e)); reflexivity.
Qed.

Lemma load_folders_spec (dtype big_folder : string)
    (folders : list (string * entry)) (self : T2RDataset) :
  forallb (folder_ok dtype) folders = true ->
  for_each (load_folder dtype big_folder) folders self
  = Ok (extend self
          (flat_map (samples dtype)
             (flat_map (folder_images big_folder) (kept folders)))).
Proof.
  revert self. induction folders as [|[folder e] folders IH]; intros self Hok.
  - simpl. now rewrite extend_nil.
  - simpl in Hok. apply andb_prop in Hok as [Hfolder Hfolders].
    cbn [for_each].
    destruct (String.eqb_spec folder ".DS_Store") as [->|Hname].
    + rewrite load_folder_hidden, kept_cons_hidden. simpl. now apply IH.
    + rewrite kept_cons_other by assumption.
      unfold folder_ok in Hfolder. simpl in Hfolder.
      apply String.eqb_neq in Hname. rewrite Hname in Hfolder. simpl in Hfolder.
      unfold load_folder. rewrite Hname. simpl.
      destruct e as [image|files]; [discriminate Hfolder|]. simpl.
      rewrite load_files_spec by assumption. simpl.
      rewrite IH by assumption. rewrite extend_app. f_equal. f_equal.
      now rewrite flat_map_app.
Qed.

(** What [load_data] appends on a loadable tree. *)
Lemma load_data_spec (fs : entry) (self : T2RDataset) (dtype : string) :
  loadable dtype fs = true ->
  load_data fs self dtype
  = Ok (extend self (flat_map (samples dtype) (source_images (root_dir self) fs))).
Proof.
  intros Hok. destruct fs as [image|folders]; [discriminate Hok|].
  unfold load_data. simpl. now apply load_folders_spec.
Qed.

(** Conversely, [load_data] raises on every other tree. *)
Lemma load_files_ok (dtype folder_path : string)
    (files : list (string * entry)) (self d : T2RDataset) :
  for_each (load_file dtype folder_path) files self = Ok d ->
  forallb (file_ok dtype) files = true.
Proof.
  revert self. induction files as [|[filename e] files IH]; intros self Hrun.
  - reflexivity.
  - cbn [for_each] in Hrun. simpl.
    destruct (load_file dtype folder_path self (filename, e)) as [self'|err] eqn:Hfile;
      [|discriminate Hrun].
    simpl in Hrun. rewrite (IH _ Hrun), andb_true_r.
    unfold file_ok, resizes. unfold load_file in Hfile. simpl in *.
    destruct (String.eqb filename ".DS_Store"); [reflexivity|]. simpl in *.
    destruct e as [[[h w]|]|children]; simpl in *;
      try (now rewrite orb_true_r);
      destruct (String.eqb dtype "station"); try discriminate Hfile;
      destruct (String.eqb dtype "train"); try discriminate Hfile; reflexivity.
Qed.

Lemma load_folders_ok (dtype big_folder : string)
    (folders : list (string * entry)) (self d : T2RDataset) :
  for_each (load_folder dtype big_folder) folders self = Ok d ->
  forallb (folder_ok dtype) folders = true.
Proof.
  revert self. induction folders as [|[folder e] folders IH]; intros self Hrun.
  - reflexivity.
  - cbn [for_each] in Hrun. simpl.
    destruct (load_folder dtype big_folder self (folder, e)) as [self'|err] eqn:Hfolder;
      [|discriminate Hrun].
    simpl in Hrun. rewrite (IH _ Hrun), andb_true_r.
    unfold folder_ok. unfold load_folder in Hfolder. simpl in *.
    destruct (String.eqb folder ".DS_Store"); [reflexivity|]. simpl in *.
    destruct e as [image|files]; [discriminate Hfolder|]. simpl in *.
    now apply load_files_ok in Hfolder.
Qed.

Lemma load_data_ok_iff (fs : entry) (self : T2RDataset) (dtype : string) :
  (exists d, load_data fs self dtype = Ok d) <-> loadable dtype fs = true.
Proof.
  split.
  - intros [d Hrun]. destruct fs as [image|folders]; [discriminate Hrun|].
    unfold load_data in Hrun. simpl in *. now apply load_folders_ok in Hrun.
  - intros Hok. eexists. now apply load_data_spec.
Qed.

Lemma map_flat_map_fun {A B C : Type} (g : B -> C) (f : A -> list B) (l : list A) :
  map g (flat_map f l) = flat_map (fun x => map g (f x)) l.
Proof. induction l as [|x l IH]; simpl; [reflexivity|]. now rewrite map_app, IH. Qed.

Lemma length_flat_map_const {A B : Type} (f : A -> list B) (k : nat) (l : list A) :
  (forall x, length (f x) = k) -> length (flat_map f l) = k * length l.
Proof.
  intros Hk. induction l as [|x l IH]; simpl; [lia|].
  rewrite length_app, Hk, IH. lia.
Qed.

Lemma omap_cons {A B : Type} (f : A -> option B) (x : A) (l : list A) :
  omap f (x :: l)
  = match f x with Some y => y :: omap f l | None => omap f l end.
Proof. reflexivity. Qed.

(** When the images are resized, every kept file is a source image. *)
Lemma decode_kept_names (dtype folder_path : string) (files : list (string * entry)) :
  resizes dtype = true ->
  forallb (file_ok dtype) files = true ->
  map fst (omap (decode folder_path) (kept files)) = map fst (kept files).
Proof.
  intros Hres. induction files as [|[filename e] files IH]; intros Hok.
  - reflexivity.
  - simpl in Hok. apply andb_prop in Hok as [Hfile Hfiles].
    destruct (String.eqb_spec filename ".DS_Store") as [->|Hname].
    + rewrite kept_cons_hidden. now apply IH.
    + rewrite kept_cons_other by assumption.
      unfold file_ok in Hfile. simpl in Hfile. rewrite Hres in Hfile.
      apply String.eqb_neq in Hname. rewrite Hname in Hfile. simpl in Hfile.
      destruct (imread_decodes (Py.path_join folder_path filename) e Hfile)
        as (h & w & Himg).
      rewrite omap_cons. unfold decode at 1. simpl fst. simpl snd.
      rewrite Himg. simpl. f_equal. now apply IH.
Qed.

Lemma source_images_names (dtype big_folder : string) (fs : entry) :
  resizes dtype = true -> loadable dtype fs = true ->
  map fst (source_images big_folder fs) = map fst (source_files fs).
Proof.
  intros Hres Hok. destruct fs as [image|folders]; [reflexivity|].
  simpl in *. induction folders as [|[folder e] folders IH]; [reflexivity|].
  simpl in Hok. apply andb_prop in Hok as [Hfolder Hfolders].
  destruct (String.eqb_spec folder ".DS_Store") as [->|Hname].
  - rewrite kept_cons_hidden. now apply IH.
  - rewrite kept_cons_other by assumption. simpl. rewrite !map_app, IH by assumption.
    f_equal. unfold folder_ok in Hfolder. simpl in Hfolder.
    apply String.eqb_neq in Hname. rewrite Hname in Hfolder. simpl in Hfolder.
    destruct e as [image|files]; [discriminate Hfolder|].
    unfold folder_images. simpl. now apply decode_kept_names with dtype.
Qed.

(** Every source image is an image that [cv2.imread] decoded. *)
Lemma source_images_decoded (big_folder : string) (fs : entry) :
  Forall (fun source => exists path h w, snd source = Decoded path h w)
         (source_images big_folder fs).
Proof.
  destruct fs as [image|folders]; [constructor|]. simpl.
  apply Forall_forall. intros source Hin.
  apply list_elem_of_In, in_flat_map in Hin as (sub & _ & Hin).
  unfold folder_images in Hin.
  apply list_elem_of_In, list_elem_of_omap in Hin as (file & _ & Hdec).
  unfold decode in Hdec.
  destruct (snd file) as [[[h w]|]|children]; simpl in Hdec; try discriminate Hdec.
  injection Hdec as <-. simpl. eauto.
Qed.


Lemma init_spec (fs : entry) (root dtype : string) :
  loadable dtype fs = true ->
  init fs root dtype
  = Ok {| root_dir := root;
          data := flat_map (fun source => map fst (samples dtype source))
                           (source_images root fs);
          targets := flat_map (fun source => map snd (samples dtype source))
                              (source_images root fs) |}.
Proof.
  intros Hok. unfold init. rewrite load_data_spec by assumption.
  unfold extend. simpl. now rewrite !map_flat_map_fun.
Qed.

(** C3: a station dataset holds, for each source image, the four copies
    of the image resized to 100 x 100 that are rotated by 0, 90, 180 and
    270 degrees, each of shape 100 x 100 x 3 and each with the label
    derived from the file name; its size is 4 times the number of source
    images. *)
Theorem station_augmentation (fs : entry) (root : string) :
  loadable "station" fs = true ->
  exists d,
    init fs root "station" = Ok d /\
    let sources := source_images root fs in
    map fst sources = map fst (source_files fs) /\
    data d = flat_map (fun source =>
                         map (Rotated (Resized (snd source) 100 100))
                             [0; 90; 180; 270]%Z) sources /\
    targets d = flat_map (fun source => replicate 4 (derive_label (fst source)))
                         sources /\
    Forall (fun image => shape image = (100, 100, 3)) (data d) /\
    length (data d) = length (targets d) /\
    len d = 4 * length (source_files fs).
Proof.
  intros Hok. eexists. split; [now apply init_spec|]. simpl.
  pose proof (source_images_names "station" root fs eq_refl Hok) as Hnames.
  assert (Hdata : flat_map (fun source => map fst (samples "station" source))
                           (source_images root fs)
                  = flat_map (fun source =>
                                map (Rotated (Resized (snd source) 100 100))
                                    [0; 90; 180; 270]%Z) (source_images root fs)).
  { apply flat_map_ext. now intros [filename img]. }
  assert (Htargets : flat_map (fun source => map snd (samples "station" source))
                              (source_images root fs)
                     = flat_map (fun source => replicate 4 (derive_label (fst source)))
                                (source_images root fs)).
  { apply flat_map_ext. now intros [filename img]. }
  rewrite Hdata, Htargets.
  assert (Hlen : length (source_images root fs) = length (source_files fs)).
  { now rewrite <- (length_map fst), Hnames, length_map. }
  repeat split; try assumption.
  - apply Forall_forall. intros image Hin.
    apply list_elem_of_In, in_flat_map in Hin as (source & Hsrc & Hin).
    pose proof (source_images_decoded root fs) as Hdec.
    rewrite Forall_forall in Hdec.
    destruct (Hdec source) as (path & h & w & Himg);
      [now apply list_elem_of_In|].
    rewrite Himg in Hin. simpl in Hin.
    destruct Hin as [<-|[<-|[<-|[<-|[]]]]]; reflexivity.
  - rewrite (length_flat_map_const _ 4), (length_flat_map_const _ 4); auto.
  - unfold len. simpl. rewrite (length_flat_map_const _ 4); auto. now rewrite Hlen.
Qed.

Lemma station_augmentation_witness :
  loadable "station" scenario_A = true /\
  exists d, init scenario_A "station_data" "station" = Ok d /\
            len d = 4 * length (source_files scenario_A).
Proof.
  split; [reflexivity|].
  destruct (station_augmentation scenario_A "station_data" eq_refl)
    as (d & Hd & _ & _ & _ & _ & _ & Hlen).
  exists d. split; assumption.
Defined.

End DatasetFacts.

(** ** The train/test split *)

Module SplitFacts.
Import Dataset.

Lemma clamp_in_range (len i : Z) : (0 <= i <= len)%Z -> Py.clamp len i = i.
Proof.
  intros Hi. unfold Py.clamp.
  destruct (Z.ltb_spec i 0); lia.
Qed.

Lemma slice_prefix {A : Type} (l : list A) (k : Z) :
  (0 <= k <= Z.of_nat (length l))%Z ->
  Py.slice l 0 k = take (Z.to_nat k) l.
Proof.
  intros Hk. unfold Py.slice. rewrite !clamp_in_range by lia.
  simpl. now rewrite Z.sub_0_r.
Qed.

Lemma slice_suffix {A : Type} (l : list A) (k : Z) :
  (0 <= k <= Z.of_nat (length l))%Z ->
  Py.slice l k (Z.of_nat (length l)) = drop (Z.to_nat k) l.
Proof.
  intros Hk. unfold Py.slice. rewrite !clamp_in_range by lia.
  apply take_ge. rewrite length_drop. lia.
Qed.

(** [random_split] on the two lengths that [split_data] passes. *)
Lemma random_split_two (indices : list nat) (k : Z) :
  (0 <= k <= Z.of_nat (length indices))%Z ->
  random_split (length indices) [k; (Z.of_nat (length indices) - k)%Z] indices
  = Ok [take (Z.to_nat k) indices; drop (Z.to_nat k) indices].
Proof.
  intros Hk. set (n := length indices) in *.
  assert (Hslices :
    (if (Py.sum [k; (Z.of_nat n - k)%Z] =? Z.of_nat n)%Z
     then Ok (map (fun '(offset, length) =>
                     Py.slice indices (offset - length)%Z offset)
                  (zip (Py.accumulate [k; (Z.of_nat n - k)%Z])
                       [k; (Z.of_nat n - k)%Z]))
     else Raise ValueError)
    = Ok [take (Z.to_nat k) indices; drop (Z.to_nat k) indices]).
  { assert (Hsum : (Py.sum [k; (Z.of_nat n - k)%Z] =? Z.of_nat n)%Z = true)
      by (apply Z.eqb_eq; simpl; lia).
    rewrite Hsum. cbn [Py.accumulate Py.accumulate_from zip zip_with map].
    replace (0 + k - k)%Z with 0%Z by lia.
    replace (0 + k + (Z.of_nat n - k))%Z with (Z.of_nat n) by lia.
    replace (Z.of_nat n - (Z.of_nat n - k))%Z with k by lia.
    replace (0 + k)%Z with k by lia.
    unfold n in *. now rewrite slice_prefix, slice_suffix by lia. }
  unfold random_split.
  destruct (Z.eqb_spec (Py.sum [k; (Z.of_nat n - k)%Z]) 1) as [Hone|Hmany].
  - assert (Hn : n = 1) by (simpl in Hone; lia).
    assert (Hfrac : forallb (fun frac => (0 <=? frac)%Z && (frac <=? 1)%Z)
                            [k; (Z.of_nat n - k)%Z] = true).
    { simpl. rewrite !andb_true_r. rewrite Hn.
      repeat (apply andb_true_intro; split); apply Z.leb_le; lia. }
    rewrite Hfrac. rewrite Hn in *.
    cbn [map]. change (Z.of_nat 1) with 1%Z in *. rewrite !Z.mul_1_l.
    replace (Z.to_nat (1 - Py.sum [k; (1 - k)%Z])) with 0 by (simpl; lia).
    cbn [seq fold_left mbind result_bind]. exact Hslices.
  - cbn [mbind result_bind]. exact Hslices.
Qed.

(** The two halves of a permutation of [0, N) partition the range. *)
Lemma take_drop_partition (indices : list nat) (N k : nat) :
  indices ≡ₚ seq 0 N -> k <= N ->
  let train_set : gset nat := list_to_set (take k indices) in
  let test_set : gset nat := list_to_set (drop k indices) in
  train_set ∩ test_set = ∅ /\
  train_set ∪ test_set = set_seq 0 N /\
  size train_set = k /\ size test_set = N - k.
Proof.
  intros Hperm Hk train_set test_set.
  assert (Hlen : length indices = N) by (now rewrite Hperm, length_seq).
  assert (Hnodup : NoDup (take k indices ++ drop k indices)).
  { rewrite take_drop, Hperm. apply NoDup_seq. }
  apply NoDup_app in Hnodup as (Htrain & Hdisj & Htest).
  repeat split.
  - apply disjoint_intersection_L, elem_of_disjoint. intros i Hi Hi'.
    unfold train_set, test_set in *. rewrite elem_of_list_to_set in Hi, Hi'.
    now apply (Hdisj i).
  - unfold train_set, test_set. rewrite <- list_to_set_app_L, take_drop.
    rewrite <- list_to_set_seq. apply set_eq. intros i.
    rewrite !elem_of_list_to_set. now rewrite Hperm.
  - unfold train_set. rewrite size_list_to_set by assumption.
    rewrite length_take. lia.
  - unfold test_set. rewrite size_list_to_set by assumption.
    rewrite length_drop. lia.
Qed.

Example slice_negative : Py.slice [10; 11; 12; 13; 14] (-2)%Z 5%Z = [13; 14].
Proof. reflexivity. Qed.

(** Scenario C of the specification: 70 train and 30 test indices out of
    100. *)
Example scenario_C :
  split_data hundred_items PyFloat.lit_0_7 (seq 0 100)
  = Ok (seq 0 70, seq 70 30).
Proof. vm_compute. reflexivity. Qed.

Example split_default :
  split_data ten_items PyFloat.lit_0_7 shuffled_ten
  = Ok ([7; 2; 9; 0; 4; 1; 8], [3; 6; 5]).
Proof. reflexivity. Qed.

(** A fraction above 1 puts every index in the train subset. *)
Example split_above_one :
  split_data ten_items PyFloat.lit_1_5 shuffled_ten = Ok (shuffled_ten, []).
Proof. reflexivity. Qed.

(** A negative fraction yields negative slice bounds. *)
Example split_negative :
  split_data ten_items PyFloat.lit_neg_0_5 shuffled_ten
  = Ok ([7; 2; 9; 0; 4], [1; 8; 3; 6; 5]).
Proof. reflexivity. Qed.

Example split_nan :
  split_data ten_items PyFloat.nan shuffled_ten = Raise ValueError.
Proof. reflexivity. Qed.







End SplitFacts.

(** ** The training loop *)

Module ClassifierFacts.
Import Classifier.

Section Generic.
Context {B : Backend}.
Implicit Types (self : Classifier B) (run : Run B).

Lemma test_pass_steps_from self (batches : list (batch B))
    (accs losses : list PyFloat.float) :
  let '(_, _, self') :=
    fold_left
      (fun '(epoch_test_accuracies, epoch_test_losses, self) xy =>
         let '(test_loss, self) := train_batch self xy in
         let '(test_acc, self) := accuracy self xy in
         (epoch_test_accuracies ++ [test_acc], epoch_test_losses ++ [test_loss], self))
      batches (accs, losses, self) in
  (weights self', optimizer self') = steps batches (weights self) (optimizer self).
Proof.
  revert self accs losses.
  induction batches as [|xy batches IH]; intros self accs losses.
  - reflexivity.
  - cbn [fold_left]. unfold steps. cbn [fold_left].
    unfold train_batch at 2, accuracy at 2.
    destruct (step B (weights self) (optimizer self) xy) as [w o].
    apply (IH (@Build_Classifier B (num_epochs self) w o false)).
Qed.

(** The test pass applies one optimizer step for each test batch. *)
Lemma test_pass_steps self (batches : list (batch B)) :
  let '(_, _, self') := test_pass self batches in
  (weights self', optimizer self') = steps batches (weights self) (optimizer self).
Proof. apply test_pass_steps_from. Qed.

Lemma after_epochs_S run self (n : nat) :
  after_epochs run self (S n) = run_epoch run (after_epochs run self n) n.
Proof. unfold after_epochs. now rewrite seq_S, fold_left_app. Qed.

Lemma train_loop_after_epochs run self :
  train_loop run self = after_epochs run self (num_epochs self).
Proof. reflexivity. Qed.

Lemma run_epoch_results run self (n : nat) :
  let results := fst (after_epochs run self n) in
  let record := epoch_record run self n in
  fst (run_epoch run (after_epochs run self n) n)
  = {| train_losses := train_losses results ++ [mean_train_loss record];
       train_accuracies := train_accuracies results ++ [mean_train_accuracy record];
       test_losses := test_losses results ++ [mean_test_loss record];
       test_accuracies := test_accuracies results ++ [mean_test_accuracy record];
       time_per_epoch := time_per_epoch results ++ [wall_clock_seconds record] |}.
Proof.
  unfold epoch_record, run_epoch.
  destruct (after_epochs run self n) as [results self']. cbn [fst snd].
  destruct (train_pass self' (train_loader run n)) as [[losses accs] self1].
  destruct (test_pass self1 (test_loader run n)) as [[taccs tlosses] self2].
  reflexivity.
Qed.

(** The five lists after [n] epochs, in epoch order. *)
Lemma after_epochs_results run self (n : nat) :
  let results := fst (after_epochs run self n) in
  let records := map (epoch_record run self) (seq 0 n) in
  train_losses results = map mean_train_loss records /\
  train_accuracies results = map mean_train_accuracy records /\
  test_losses results = map mean_test_loss records /\
  test_accuracies results = map mean_test_accuracy records /\
  time_per_epoch results = map wall_clock_seconds records.
Proof.
  induction n as [|n IH]; [repeat split; reflexivity|].
  cbn zeta in *. destruct IH as (H1 & H2 & H3 & H4 & H5).
  rewrite after_epochs_S, run_epoch_results.
  cbn [train_losses train_accuracies test_losses test_accuracies time_per_epoch].
  rewrite seq_S, !map_app, H1, H2, H3, H4, H5.
  repeat split; reflexivity.
Qed.


Lemma results_lengths run self (n : nat) :
  let results := fst (after_epochs run self n) in
  length (train_losses results) = n /\
  length (train_accuracies results) = n /\
  length (test_losses results) = n /\
  length (test_accuracies results) = n /\
  length (time_per_epoch results) = n.
Proof.
  cbn zeta.
  destruct (after_epochs_results run self n) as (-> & -> & -> & -> & ->).
  rewrite !length_map, length_seq. repeat split; reflexivity.
Qed.

Lemma plot_results_after run self :
  plot_results (fst (train_loop run self))
  = if num_epochs self =? 10 then Ok tt else Raise ValueError.
Proof.
  rewrite train_loop_after_epochs. unfold plot_results.
  destruct (results_lengths run self (num_epochs self))
    as (-> & -> & -> & -> & ->).
  now destruct (num_epochs self =? 10).
Qed.

(** With ten epochs the plot succeeds and [train] returns [None]. *)
Lemma train_completes run self :
  num_epochs self = 10 ->
  exists self', train run self = Ok (PyNone, self').
Proof.
  intros Hn. unfold train.
  pose proof (plot_results_after run self) as Hplot.
  destruct (train_loop run self) as [results self']. simpl in Hplot.
  rewrite Hplot, Hn. now exists self'.
Qed.

(** With any other number of epochs the plot raises. *)
Lemma train_plot_raises run self :
  num_epochs self <> 10 -> train run self = Raise ValueError.
Proof.
  intros Hn. unfold train.
  pose proof (plot_results_after run self) as Hplot.
  destruct (train_loop run self) as [results self']. simpl in Hplot.
  rewrite Hplot. apply Nat.eqb_neq in Hn. now rewrite Hn.
Qed.

End Generic.

Example steady_train :
  exists self', train steady_run (scalar_classifier 10) = Ok (PyNone, self').
Proof. now apply train_completes. Qed.

Example steady_train_3 :
  train steady_run (scalar_classifier 3) = Raise ValueError.
Proof. now apply train_plot_raises. Qed.

Example steady_losses :
  train_losses (fst (train_loop steady_run (scalar_classifier 10)))
  = replicate 10 PyFloat.one.
Proof. vm_compute. reflexivity. Qed.

(** C4 fails on the code: the test pass of an epoch calls [train_batch],
    which applies an optimizer step, on every test batch, so that the
    parameters after the test pass are those after one more step per test
    batch.  In the run below the train pass of the first epoch leaves the
    weight at -5, and the test pass over the single test batch moves it to
    -10. *)
Theorem test_pass_updates_parameters :
  (forall (B : Backend) (self : Classifier B) (batches : list (batch B)),
      let self' := snd (test_pass self batches) in
      (weights self', optimizer self')
      = steps batches (weights self) (optimizer self)) /\
  let self0 := scalar_classifier 10 in
  let self1 := snd (train_pass self0 (train_loader steady_run 0)) in
  let self2 := snd (test_pass self1 (test_loader steady_run 0)) in
  weights self1 = (-5)%Z /\ weights self2 = (-10)%Z /\
  weights self2 <> weights self1.
Proof.
  split.
  - intros B self batches. pose proof (test_pass_steps self batches) as H.
    destruct (test_pass self batches) as [[accs losses] self']. exact H.
  - vm_compute. repeat split; (reflexivity || discriminate).
Qed.






End ClassifierFacts.


(** ** Further facts about binary64 arithmetic *)

Module PyFloatBounds.
Import PyFloat PyFloatFacts.
Local Open Scope Z_scope.

(** A mantissa that is already in canonical position is not rounded. *)
Lemma binary_round_aux_canonical (s : bool) (M : positive) (E : Z) :
  fexp prec emax (Zpos (digits2_pos M) + E) = E -> E <= emax - prec ->
  binary_round_aux prec emax s (Zpos M) E loc_Exact = S754_finite s M E.
Proof.
  intros Hcan Hmax.
  destruct (shr_fexp_exact (Zpos M) E) as (mrs & e' & H1 & He' & _ & Hex);
    [lia|].
  simpl Zdigits2 in He'. rewrite Hcan in He'.
  assert (He : e' = E) by lia.
  rewrite (Hex He) in H1. rewrite He in H1. clear He' Hex.
  unfold binary_round_aux. rewrite H1. cbn [shr_m loc_of_shr_record round_nearest_even].
  rewrite H1. cbn [shr_m].
  apply Z.leb_le in Hmax. now rewrite Hmax.
Qed.

(** [float(N)] is exact for a list length below [2^53]. *)
Lemma of_int_exact (N : Z) :
  0 < N < 2 ^ 53 ->
  exists m e, of_int N = Ok (S754_finite false m e) /\
              -52 <= e <= 0 /\ Zpos m = N * 2 ^ (- e).
Proof.
  intros HN. destruct N as [|n|n]; try lia.
  unfold of_int, binary_normalize, binary_round.
  pose proof (digits_le_of_lt n 53 ltac:(lia) ltac:(lia)) as Hdn.
  assert (Hd1 : 1 <= Zpos (digits2_pos n)) by lia.
  assert (Hfe : fexp prec emax (Zpos (digits2_pos n) + 0) = Zpos (digits2_pos n) - 53).
  { rewrite fexp_unfold. lia. }
  rewrite Hfe. unfold shl_align.
  destruct (Zpos (digits2_pos n) - 53 - 0) as [|d|d] eqn:Hsh.
  - rewrite binary_round_aux_canonical.
    + exists n, 0. split; [reflexivity|]. split; [lia|]. simpl. lia.
    + rewrite fexp_unfold. lia.
    + unfold emax, prec. lia.
  - lia.
  - pose proof (iter_xO_pow n d) as Hit.
    pose proof (digits_shift n (Pos.iter xO n d) (Zpos d) ltac:(lia) Hit) as Hdig.
    assert (Heq : Zpos (digits2_pos n) - 53 = - Zpos d) by lia.
    rewrite Heq, binary_round_aux_canonical.
    + exists (Pos.iter xO n d), (- Zpos d). split; [reflexivity|].
      split; [lia|]. now rewrite Z.opp_involutive.
    + rewrite fexp_unfold. lia.
    + unfold emax, prec. lia.
Qed.

(** Rounding a positive exact product [M * 2^E] that lies between two
    integers [K] and [B < 2^53]: the integer part of the result lies
    between them too. *)
Lemma binary_round_aux_between (M : positive) (E K B : Z) :
  E <= 0 -> 0 <= K -> 0 < B < 2 ^ 53 ->
  K * 2 ^ (- E) <= Zpos M < B * 2 ^ (- E) ->
  exists k, to_int (binary_round_aux prec emax false (Zpos M) E loc_Exact) = Ok k /\
            floor (binary_round_aux prec emax false (Zpos M) E loc_Exact) = Ok k /\
            K <= k <= B.
Proof.
  intros HE HK HB [Hlo Hhi].
  assert (HpE : 0 < 2 ^ (- E)) by (apply Z.pow_pos_nonneg; lia).
  assert (Hd : Zpos (digits2_pos M) <= 53 - E).
  { apply digits_le_of_lt; [lia|].
    replace (53 - E) with (53 + - E) by lia. rewrite Z.pow_add_r by lia. nia. }
  destruct (shr_fexp_exact (Zpos M) E) as (mrs1 & e1 & H1 & He1 & Hm1 & Hex1); [lia|].
  simpl Zdigits2 in He1. rewrite fexp_unfold in He1.
  set (m1r := round_nearest_even (shr_m mrs1) (loc_of_shr_record mrs1)).
  assert (He1b : E <= e1 <= 0) by lia.
  assert (Hp1 : 0 < 2 ^ (e1 - E)) by (apply Z.pow_pos_nonneg; lia).
  assert (Hpe1 : 0 < 2 ^ (- e1)) by (apply Z.pow_pos_nonneg; lia).
  assert (Hsplit : 2 ^ (- E) = 2 ^ (- e1) * 2 ^ (e1 - E)).
  { rewrite <- Z.pow_add_r by lia. f_equal. lia. }
  assert (Hm1b : K * 2 ^ (- e1) <= shr_m mrs1 < B * 2 ^ (- e1)).
  { rewrite Hm1. rewrite Hsplit in Hlo, Hhi. split.
    - apply Z.div_le_lower_bound; lia.
    - apply Z.div_lt_upper_bound; lia. }
  assert (Hm1r : K * 2 ^ (- e1) <= m1r <= B * 2 ^ (- e1)).
  { pose proof (round_nearest_even_bounds (shr_m mrs1) (loc_of_shr_record mrs1)) as Hr.
    fold m1r in Hr. lia. }
  assert (Hm1r0 : 0 <= m1r) by nia.
  destruct (shr_fexp_exact m1r e1) as (mrs2 & e2 & H2 & He2 & Hm2 & _); [lia|].
  assert (Hd2 : Zdigits2 m1r <= 53 - e1).
  { apply Zdigits2_le_of_lt; [lia|lia|].
    replace (53 - e1) with (53 + - e1) by lia. rewrite Z.pow_add_r by lia. nia. }
  rewrite fexp_unfold in He2.
  assert (He2b : e1 <= e2 <= 0) by lia.
  assert (Hp2 : 0 < 2 ^ (e2 - e1)) by (apply Z.pow_pos_nonneg; lia).
  assert (Hpe2 : 0 < 2 ^ (- e2)) by (apply Z.pow_pos_nonneg; lia).
  assert (Hsplit2 : 2 ^ (- e1) = 2 ^ (- e2) * 2 ^ (e2 - e1)).
  { rewrite <- Z.pow_add_r by lia. f_equal. lia. }
  assert (Hm2b : K * 2 ^ (- e2) <= shr_m mrs2 <= B * 2 ^ (- e2)).
  { rewrite Hm2. rewrite Hsplit2 in Hm1r. split.
    - apply Z.div_le_lower_bound; lia.
    - apply Z.div_le_upper_bound; lia. }
  unfold binary_round_aux. rewrite H1. fold m1r. rewrite H2.
  destruct (shr_m mrs2) as [|m|m].
  - exists 0. repeat split; try reflexivity; nia.
  - replace (e2 <=? emax - prec) with true
      by (symmetry; apply Z.leb_le; unfold emax, prec; lia).
    exists (Zpos m / 2 ^ (- e2)). cbn [to_int floor cond_Zopp].
    rewrite shiftl_nonpos by lia. repeat split.
    + apply Z.div_le_lower_bound; lia.
    + apply Z.div_le_upper_bound; lia.
  - exfalso. nia.
Qed.

(** The integer that Python makes of [f * N], against the exact product
    of the value [m * 2^e] of [f] and [N]: at least its floor, at most one
    more. *)
Lemma mul_int_between (m : positive) (e N : Z) :
  let f := S754_finite false m e in
  is_float f = true -> ltb zero f = true -> ltb f one = true ->
  0 < N < 2 ^ 53 ->
  exists x k, mul_int f N = Ok x /\ to_int x = Ok k /\ floor x = Ok k /\
              e < 0 /\
              (Zpos m * N) / 2 ^ (- e) <= k <= (Zpos m * N) / 2 ^ (- e) + 1 /\
              k <= N.
Proof.
  intros f Hv H0 H1 HN.
  destruct (unit_interval_inv f Hv H0 H1) as (m' & e' & Hf & He & Hm).
  injection Hf as <- <-.
  destruct (of_int_exact N HN) as (mN & eN & HNf & HeN & HmN).
  unfold mul_int. rewrite HNf. cbn [mbind result_bind]. unfold mul, f.
  cbn [SFmul xorb].
  assert (Hpe : 0 < 2 ^ (- e)) by (apply Z.pow_pos_nonneg; lia).
  assert (HpeN : 0 < 2 ^ (- eN)) by (apply Z.pow_pos_nonneg; lia).
  assert (Hsplit : 2 ^ (- (e + eN)) = 2 ^ (- e) * 2 ^ (- eN)).
  { rewrite <- Z.pow_add_r by lia. f_equal. lia. }
  set (q := (Zpos m * N) / 2 ^ (- e)).
  assert (Hq0 : 0 <= q) by (apply Z.div_pos; lia).
  assert (HqN : q < N).
  { apply Z.div_lt_upper_bound; [lia|].
    apply Z.mul_lt_mono_pos_r; [lia|assumption]. }
  assert (Hqlo : q * 2 ^ (- e) <= Zpos m * N).
  { replace (q * 2 ^ (- e)) with (2 ^ (- e) * q) by ring.
    apply Z.mul_div_le. lia. }
  assert (Hqhi : Zpos m * N < (q + 1) * 2 ^ (- e)).
  { replace ((q + 1) * 2 ^ (- e)) with (2 ^ (- e) * Z.succ q)
      by (unfold Z.succ; ring).
    apply Z.mul_succ_div_gt. lia. }
  assert (HM : Zpos (m * mN) = (Zpos m * N) * 2 ^ (- eN)).
  { rewrite Pos2Z.inj_mul, HmN. ring. }
  destruct (binary_round_aux_between (m * mN) (e + eN) q (q + 1))
    as (k & Hint & Hfloor & Hk); try lia.
  { rewrite Hsplit, HM. split.
    - replace (q * (2 ^ (- e) * 2 ^ (- eN))) with ((q * 2 ^ (- e)) * 2 ^ (- eN)) by ring.
      apply Z.mul_le_mono_nonneg_r; lia.
    - replace ((q + 1) * (2 ^ (- e) * 2 ^ (- eN)))
        with (((q + 1) * 2 ^ (- e)) * 2 ^ (- eN)) by ring.
      apply Z.mul_lt_mono_pos_r; lia. }
  eexists _, k. split; [reflexivity|].
  repeat split; try assumption; lia.
Qed.

End PyFloatBounds.

(** ** More on the split *)

Module SplitMore.
Import Dataset.
Local Open Scope nat_scope.

(** [split_data] once the train size is known. *)
Lemma split_data_of_size (self : T2RDataset) (f : PyFloat.float)
    (indices : list nat) (x : PyFloat.float) (k : Z) :
  PyFloat.mul_int f (Z.of_nat (length (data self))) = Ok x ->
  PyFloat.to_int x = Ok k ->
  (0 <= k <= Z.of_nat (length (data self)))%Z ->
  length indices = length (data self) ->
  split_data self f indices
  = Ok (take (Z.to_nat k) indices, drop (Z.to_nat k) indices).
Proof.
  intros Hmul Hint Hk Hlen.
  unfold split_data, len. rewrite Hmul. cbn [mbind result_bind].
  rewrite Hint. cbn [mbind result_bind].
  rewrite <- Hlen. rewrite SplitFacts.random_split_two by lia. reflexivity.
Qed.

(** For a fraction strictly between 0 and 1, the train subset is a prefix
    of the shuffled order and the test subset is the rest of it, in the
    same order: concatenated, they give the order back. *)
Theorem split_data_prefix_suffix (self : T2RDataset) (f : PyFloat.float)
    (indices : list nat) :
  (Z.of_nat (length (data self)) < 2 ^ 53)%Z ->
  PyFloat.is_float f = true ->
  PyFloat.ltb PyFloat.zero f = true -> PyFloat.ltb f PyFloat.one = true ->
  length indices = length (data self) ->
  exists k train test,
    split_data self f indices = Ok (train, test) /\
    train = take k indices /\ test = drop k indices /\
    train ++ test = indices /\
    length train + length test = length (data self).
Proof.
  intros Hbig Hv H0 H1 Hlen.
  destruct (PyFloatFacts.mul_int_unit_interval f (Z.of_nat (length (data self)))
              Hv H0 H1 ltac:(lia)) as (x & k & Hmul & Hint & _ & Hk).
  exists (Z.to_nat k), (take (Z.to_nat k) indices), (drop (Z.to_nat k) indices).
  split; [now apply split_data_of_size with x|].
  repeat split; [apply take_drop|].
  rewrite length_take, length_drop. lia.
Qed.

Lemma split_data_prefix_suffix_witness :
  (Z.of_nat (length (data ten_items)) < 2 ^ 53)%Z /\
  PyFloat.is_float PyFloat.lit_0_7 = true /\
  PyFloat.ltb PyFloat.zero PyFloat.lit_0_7 = true /\
  PyFloat.ltb PyFloat.lit_0_7 PyFloat.one = true /\
  length shuffled_ten = length (data ten_items) /\
  exists (k : nat) train test,
    split_data ten_items PyFloat.lit_0_7 shuffled_ten = Ok (train, test) /\
    train = take k shuffled_ten /\
    train ++ test = shuffled_ten.
Proof.
  assert (Hbig : (Z.of_nat (length (data ten_items)) < 2 ^ 53)%Z) by reflexivity.
  do 4 (split; [assumption || reflexivity|]). split; [reflexivity|].
  destruct (split_data_prefix_suffix ten_items PyFloat.lit_0_7 shuffled_ten
              Hbig eq_refl eq_refl eq_refl eq_refl)
    as (k & train & test & Hsplit & Htake & _ & Happ & _).
  exists k, train, test. repeat split; assumption.
Defined.



(** With the default fraction 0.7, neither subset is empty as soon as the
    dataset has two items. *)
Theorem default_split_nonempty (self : T2RDataset) (indices : list nat) :
  2 <= length (data self) ->
  (Z.of_nat (length (data self)) < 2 ^ 53)%Z ->
  length indices = length (data self) ->
  exists train test,
    split_data self PyFloat.lit_0_7 indices = Ok (train, test) /\
    train <> [] /\ test <> [].
Proof.
  intros H2 Hbig Hlen.
  set (N := Z.of_nat (length (data self))) in *.
  destruct (PyFloatBounds.mul_int_between 6305039478318694 (-53) N
              eq_refl eq_refl eq_refl ltac:(lia))
    as (x & k & Hmul & Hint & _ & _ & Hq & HkN).
  change (2 ^ (- -53))%Z with 9007199254740992%Z in Hq.
  assert (Hk : (1 <= k < N)%Z).
  { assert (HN : (N = 2 \/ N = 3 \/ 4 <= N)%Z) by lia.
    destruct HN as [HN|[HN|HN]].
    - rewrite HN in Hmul. vm_compute in Hmul. injection Hmul as <-.
      vm_compute in Hint. injection Hint as <-. lia.
    - rewrite HN in Hmul. vm_compute in Hmul. injection Hmul as <-.
      vm_compute in Hint. injection Hint as <-. lia.
    - assert (1 <= (6305039478318694 * N) / 9007199254740992)%Z
        by (apply Z.div_le_lower_bound; lia).
      assert ((6305039478318694 * N) / 9007199254740992 < N - 1)%Z
        by (apply Z.div_lt_upper_bound; lia).
      lia. }
  exists (take (Z.to_nat k) indices), (drop (Z.to_nat k) indices).
  split; [apply split_data_of_size with x; (assumption || (fold N; lia))|].
  split; intros Hnil; apply (f_equal length) in Hnil;
    rewrite ?length_take, ?length_drop in Hnil; simpl in Hnil; lia.
Qed.

Lemma default_split_nonempty_witness :
  2 <= length (data ten_items) /\
  (Z.of_nat (length (data ten_items)) < 2 ^ 53)%Z /\
  length shuffled_ten = length (data ten_items) /\
  exists train test,
    split_data ten_items PyFloat.lit_0_7 shuffled_ten = Ok (train, test) /\
    train <> [] /\ test <> [].
Proof.
  assert (H2 : 2 <= length (data ten_items)) by (simpl; lia).
  assert (Hbig : (Z.of_nat (length (data ten_items)) < 2 ^ 53)%Z) by reflexivity.
  split; [exact H2|]. split; [exact Hbig|]. split; [reflexivity|].
  exact (default_split_nonempty ten_items shuffled_ten H2 Hbig eq_refl).
Defined.

(** A fraction of [0.0] or [-0.0] leaves the train subset empty and puts
    the whole shuffled order in the test subset. *)
Theorem split_data_zero_fraction (self : T2RDataset) (s : bool)
    (indices : list nat) :
  (Z.of_nat (length (data self)) < 2 ^ 53)%Z ->
  length indices = length (data self) ->
  split_data self (S754_zero s) indices = Ok ([], indices).
Proof.
  intros Hbig Hlen.
  assert (Hmul : exists s', PyFloat.mul_int (S754_zero s) (Z.of_nat (length (data self)))
                            = Ok (S754_zero s')).
  { destruct (length (data self)) as [|n] eqn:Hn.
    - exists (xorb s false). reflexivity.
    - destruct (PyFloatBounds.of_int_exact (Z.of_nat (S n)) ltac:(lia))
        as (mN & eN & HNf & _).
      exists (xorb s false). unfold PyFloat.mul_int. now rewrite HNf. }
  destruct Hmul as [s' Hmul].
  rewrite (split_data_of_size self (S754_zero s) indices (S754_zero s') 0 Hmul
             eq_refl ltac:(lia) Hlen).
  reflexivity.
Qed.

Lemma split_data_zero_fraction_witness :
  (Z.of_nat (length (data ten_items)) < 2 ^ 53)%Z /\
  length shuffled_ten = length (data ten_items) /\
  split_data ten_items (S754_zero true) shuffled_ten = Ok ([], shuffled_ten).
Proof.
  assert (Hbig : (Z.of_nat (length (data ten_items)) < 2 ^ 53)%Z) by reflexivity.
  split; [exact Hbig|]. split; [reflexivity|].
  exact (split_data_zero_fraction ten_items true shuffled_ten Hbig eq_refl).
Defined.

(** A fraction that is not finite makes [split_data] raise from [int()]:
    [ValueError] for NaN, [OverflowError] for an infinity, and
    [ValueError] again for an infinity on an empty dataset, where the
    product is NaN. *)
Theorem split_data_nonfinite_fraction (self : T2RDataset) (indices : list nat) :
  (Z.of_nat (length (data self)) < 2 ^ 53)%Z ->
  split_data self PyFloat.nan indices = Raise ValueError /\
  forall s,
    split_data self (S754_infinity s) indices
    = if length (data self) =? 0 then Raise ValueError else Raise OverflowError.
Proof.
  intros Hbig. unfold split_data, PyFloat.mul_int.
  destruct (length (data self)) as [|n] eqn:Hn.
  - split; [reflexivity|intros s; reflexivity].
  - destruct (PyFloatBounds.of_int_exact (Z.of_nat (S n)) ltac:(lia))
      as (mN & eN & HNf & _).
    rewrite HNf. split; [reflexivity|intros s; reflexivity].
Qed.

Lemma split_data_nonfinite_fraction_witness :
  (Z.of_nat (length (data ten_items)) < 2 ^ 53)%Z /\
  split_data ten_items PyFloat.nan shuffled_ten = Raise ValueError /\
  split_data ten_items (S754_infinity false) shuffled_ten = Raise OverflowError.
Proof.
  assert (Hbig : (Z.of_nat (length (data ten_items)) < 2 ^ 53)%Z) by reflexivity.
  split; [exact Hbig|].
  destruct (split_data_nonfinite_fraction ten_items shuffled_ten Hbig) as [Hnan Hinf].
  split; [exact Hnan|exact (Hinf false)].
Defined.

End SplitMore.

(** ** The split against exact arithmetic *)

Module SplitExact.
Import Dataset SplitSpec.
Local Open Scope nat_scope.

Lemma spec_train_size_unit (m : positive) (e N : Z) :
  (e < 0)%Z ->
  spec_train_size (S754_finite false m e) N = Some ((Zpos m * N) / 2 ^ (- e))%Z.
Proof.
  intros He. unfold spec_train_size.
  destruct (Z.leb_spec 0 e) as [H|_]; [lia|reflexivity].
Qed.

(** C1, as the code has it: for a dataset of size [N > 0] and a fraction
    [f] strictly between 0 and 1, [split_data] returns two index sets that
    are disjoint and whose union is the range [0, N); the train set has
    [int(f * N)] members, the product being the binary64 one, which is
    [floor(f * N)] of the exact product or one more, and the test set has
    the other [N - int(f * N)]. *)
Theorem split_data_partition_rounded (self : T2RDataset) (f : PyFloat.float)
    (indices : list nat) :
  let N := length (data self) in
  0 < N -> (Z.of_nat N < 2 ^ 53)%Z ->
  PyFloat.is_float f = true ->
  PyFloat.ltb PyFloat.zero f = true -> PyFloat.ltb f PyFloat.one = true ->
  indices ≡ₚ seq 0 N ->
  exists train test product k q,
    split_data self f indices = Ok (train, test) /\
    PyFloat.mul_int f (Z.of_nat N) = Ok product /\
    PyFloat.to_int product = Ok k /\
    spec_train_size f (Z.of_nat N) = Some q /\
    (q <= k <= q + 1)%Z /\
    let train_set : gset nat := list_to_set train in
    let test_set : gset nat := list_to_set test in
    train_set ∩ test_set = ∅ /\
    train_set ∪ test_set = set_seq 0 N /\
    size train_set = Z.to_nat k /\
    size test_set = N - Z.to_nat k.
Proof.
  intros N HN Hbig Hfloat Hpos Hlt1 Hperm.
  destruct (PyFloatFacts.unit_interval_inv f Hfloat Hpos Hlt1)
    as (m & e & -> & He & _).
  destruct (PyFloatBounds.mul_int_between m e (Z.of_nat N) Hfloat Hpos Hlt1
              ltac:(lia)) as (product & k & Hmul & Hint & _ & _ & Hq & HkN).
  assert (Hq0 : (0 <= (Zpos m * Z.of_nat N) / 2 ^ (- e))%Z).
  { apply Z.div_pos; [lia|]. apply Z.pow_pos_nonneg; lia. }
  assert (Hlen : length indices = N) by (now rewrite Hperm, length_seq).
  exists (take (Z.to_nat k) indices), (drop (Z.to_nat k) indices), product, k,
    ((Zpos m * Z.of_nat N) / 2 ^ (- e))%Z.
  split; [apply SplitMore.split_data_of_size with product;
          (assumption || (fold N; lia))|].
  do 2 (split; [assumption|]).
  split; [now apply spec_train_size_unit|].
  split; [exact Hq|].
  apply SplitFacts.take_drop_partition; [assumption|lia].
Qed.

Lemma split_data_partition_rounded_witness :
  0 < length (data ten_items) /\
  (Z.of_nat (length (data ten_items)) < 2 ^ 53)%Z /\
  PyFloat.is_float PyFloat.lit_0_7 = true /\
  PyFloat.ltb PyFloat.zero PyFloat.lit_0_7 = true /\
  PyFloat.ltb PyFloat.lit_0_7 PyFloat.one = true /\
  shuffled_ten ≡ₚ seq 0 10 /\
  exists train test k q,
    split_data ten_items PyFloat.lit_0_7 shuffled_ten = Ok (train, test) /\
    spec_train_size PyFloat.lit_0_7 10 = Some q /\
    (q <= k <= q + 1)%Z /\
    size (list_to_set train : gset nat) = Z.to_nat k /\
    size (list_to_set test : gset nat) = 10 - Z.to_nat k.
Proof.
  assert (Hn : 0 < length (data ten_items)) by (simpl; lia).
  assert (Hbig : (Z.of_nat (length (data ten_items)) < 2 ^ 53)%Z) by reflexivity.
  assert (Hperm : shuffled_ten ≡ₚ seq 0 10).
  { apply (bool_decide_unpack _). vm_compute. reflexivity. }
  do 5 (split; [assumption || reflexivity|]). split; [exact Hperm|].
  destruct (split_data_partition_rounded ten_items PyFloat.lit_0_7 shuffled_ten
              Hn Hbig eq_refl eq_refl eq_refl Hperm)
    as (train & test & product & k & q & Hsplit & _ & _ & Hspec & Hq & _ & _
        & Htrain & Htest).
  exists train, test, k, q. repeat split; assumption || apply Hq.
Defined.

(** C1 fails on the code: with the fraction 0.7 on ten items the train
    set has 7 members, while the exact product of the float 0.7 and 10 is
    below 7 and its floor is 6; with the fraction 0.29 on a hundred items
    the train set has 28 members, while 29 hundredths of 100 are 29. *)
Lemma split_size_is_not_the_floor :
  (PyFloat.is_float PyFloat.lit_0_7 = true /\
   PyFloat.ltb PyFloat.zero PyFloat.lit_0_7 = true /\
   PyFloat.ltb PyFloat.lit_0_7 PyFloat.one = true) /\
  (exists train test,
      split_data ten_items PyFloat.lit_0_7 shuffled_ten = Ok (train, test) /\
      size (list_to_set train : gset nat) = 7 /\
      spec_train_size PyFloat.lit_0_7 10 = Some 6%Z) /\
  (exists train test,
      split_data hundred_items lit_0_29 (seq 0 100) = Ok (train, test) /\
      length train = 28 /\
      spec_train_size lit_0_29 100 = Some 28%Z /\
      (29 * 100 / 100 = 29)%Z).
Proof.
  split; [repeat split; reflexivity|]. split.
  - exists [7; 2; 9; 0; 4; 1; 8], [3; 6; 5].
    split; [reflexivity|]. split; [|reflexivity].
    vm_compute. reflexivity.
  - exists (seq 0 28), (seq 28 72). repeat split; reflexivity.
Qed.

End SplitExact.

(** ** More on the two networks *)

Module NetMore.
Import Net.
Local Open Scope N_scope.

(** The forward pass of the common architecture, on shapes. *)
Lemma cnn_forward (width n c H W : N) :
  forward_shape
    [Conv2d 3 15 3; ReLU; MaxPool2d 2; ReLU; Flatten;
     Linear width 512; ReLU; Linear 512 6] [n; c; H; W]
  = if (c =? 3) && (4 <=? H) && (4 <=? W)
       && (15 * ((H - 2) / 2) * ((W - 2) / 2) =? width)
    then Ok [n; 6] else Raise RuntimeError.
Proof.
  unfold forward_shape. cbn [for_each out_shape].
  destruct (N.eqb_spec c 3) as [->|Hc]; cbn [andb]; [|reflexivity].
  change (1 <=? 3) with true. cbn [andb].
  destruct (N.leb_spec 4 H) as [HH|HH]; cbn [andb].
  - destruct (N.leb_spec 4 W) as [HW|HW]; cbn [andb].
    + assert (Hh : (3 <=? H) = true) by (apply N.leb_le; lia).
      assert (Hw : (3 <=? W) = true) by (apply N.leb_le; lia).
      rewrite Hh, Hw. cbn [mbind result_bind for_each out_shape andb].
      assert (Hh' : (2 <=? H - 3 + 1) = true) by (apply N.leb_le; lia).
      assert (Hw' : (2 <=? W - 3 + 1) = true) by (apply N.leb_le; lia).
      change (1 <=? 2) with true. rewrite Hh', Hw'.
      cbn [mbind result_bind for_each out_shape andb fold_right].
      replace (H - 3 + 1) with (H - 2) by lia.
      replace (W - 3 + 1) with (W - 2) by lia.
      replace (15 * ((H - 2) / 2 * ((W - 2) / 2 * 1)))
        with (15 * ((H - 2) / 2) * ((W - 2) / 2)) by lia.
      change (reverse [n; 15 * ((H - 2) / 2) * ((W - 2) / 2)])
        with [15 * ((H - 2) / 2) * ((W - 2) / 2); n].
      cbn iota. destruct (_ =? width); reflexivity.
    + destruct (3 <=? H); cbn [andb]; [|reflexivity].
      destruct (N.leb_spec 3 W) as [HW3|HW3]; cbn [andb]; [|reflexivity].
      assert (HW' : W = 3) by lia. subst W.
      cbn [mbind result_bind for_each out_shape andb].
      change (1 <=? 2) with true. change (2 <=? 3 - 3 + 1) with false.
      rewrite andb_false_r. reflexivity.
  - destruct (N.leb_spec 3 H) as [HH3|HH3]; cbn [andb]; [|reflexivity].
    assert (HH' : H = 3) by lia. subst H.
    destruct (3 <=? W); cbn [andb]; reflexivity.
Qed.

(** [TrainsCNN.forward] and [StationsCNN.forward] accept a batch of shape
    (n, c, H, W) exactly when it has 3 channels, is at least 4 x 4 and
    flattens to the width of the first dense layer; they then return n
    rows of 6 scores, and raise a [RuntimeError] otherwise.  So the train
    model takes every input with
    [floor((H-2)/2) * floor((W-2)/2) = 1464], not only 50 x 125. *)
Theorem forward_accepts (n c H W : N) :
  forward_shape TrainsCNN [n; c; H; W]
  = (if (c =? 3) && (4 <=? H) && (4 <=? W)
        && (15 * ((H - 2) / 2) * ((W - 2) / 2) =? 21960)
     then Ok [n; 6] else Raise RuntimeError) /\
  forward_shape StationsCNN [n; c; H; W]
  = (if (c =? 3) && (4 <=? H) && (4 <=? W)
        && (15 * ((H - 2) / 2) * ((W - 2) / 2) =? 36015)
     then Ok [n; 6] else Raise RuntimeError).
Proof. split; apply cnn_forward. Qed.

Example trains_accepts_51_by_124 :
  forward_shape TrainsCNN [8; 3; 51; 124] = Ok [8; 6].
Proof. reflexivity. Qed.

Example trains_accepts_26_by_246 :
  forward_shape TrainsCNN [8; 3; 26; 246] = Ok [8; 6].
Proof. reflexivity. Qed.

End NetMore.

(** ** More on dataset construction *)

Module DatasetMore.
Import Dataset DatasetFacts.

Lemma derive_label_range (filename : string) : derive_label filename <= 5.
Proof.
  unfold derive_label. set (label := Py.first (Py.split "-" filename)).
  destruct (String.string_dec label "blue") as [->|H1]; [vm_compute; lia|].
  destruct (String.string_dec label "black") as [->|H2]; [vm_compute; lia|].
  destruct (String.string_dec label "green") as [->|H3]; [vm_compute; lia|].
  destruct (String.string_dec label "red") as [->|H4]; [vm_compute; lia|].
  destruct (String.string_dec label "yellow") as [->|H5]; [vm_compute; lia|].
  rewrite LabelFacts.color_mapping_other by assumption. simpl. lia.
Qed.

Lemma samples_targets_range (dtype : string) (source : string * ndarray) :
  Forall (fun sample => snd sample <= 5) (samples dtype source).
Proof.
  destruct source as [filename img]. unfold samples.
  pose proof (derive_label_range filename) as Hr.
  destruct (String.eqb dtype "station"); [|destruct (String.eqb dtype "train")];
    simpl; repeat (apply List.Forall_cons; [exact Hr|]); apply List.Forall_nil.
Qed.

Lemma init_loadable (fs : entry) (root dtype : string) (d : T2RDataset) :
  init fs root dtype = Ok d -> loadable dtype fs = true.
Proof.
  intros Hinit. apply (load_data_ok_iff fs {| root_dir := root; data := []; targets := [] |}).
  now exists d.
Qed.

Lemma init_inv (fs : entry) (root dtype : string) (d : T2RDataset) :
  init fs root dtype = Ok d ->
  d = {| root_dir := root;
         data := flat_map (fun source => map fst (samples dtype source))
                          (source_images root fs);
         targets := flat_map (fun source => map snd (samples dtype source))
                             (source_images root fs) |}.
Proof.
  intros Hinit. pose proof (init_loadable _ _ _ _ Hinit) as Hok.
  rewrite (init_spec fs root dtype Hok) in Hinit. now injection Hinit as <-.
Qed.

(** Every dataset that the constructor returns, whatever the dtype, has as
    many targets as images, and every target is one of the six class ids
    0 to 5 that the networks score. *)
Theorem dataset_invariant (fs : entry) (root dtype : string) (d : T2RDataset) :
  init fs root dtype = Ok d ->
  length (data d) = length (targets d) /\
  Forall (fun target => target <= 5) (targets d) /\
  root_dir d = root.
Proof.
  intros Hinit. rewrite (init_inv _ _ _ _ Hinit). simpl.
  split; [|split; [|reflexivity]].
  - induction (source_images root fs) as [|source l IH]; [reflexivity|].
    simpl. now rewrite !length_app, !length_map, IH.
  - induction (source_images root fs) as [|source l IH]; [constructor|].
    simpl. apply Forall_app. split; [|exact IH].
    apply Forall_fmap. exact (samples_targets_range dtype source).
Qed.

Lemma dataset_invariant_witness :
  exists d, init scenario_A "station_data" "station" = Ok d /\
            length (data d) = length (targets d) /\
            Forall (fun target => target <= 5) (targets d).
Proof.
  destruct (init scenario_A "station_data" "station") as [d|e] eqn:Hinit;
    [|discriminate Hinit].
  exists d. split; [reflexivity|].
  destruct (dataset_invariant scenario_A "station_data" "station" d Hinit)
    as (Hlen & Hrange & _).
  split; assumption.
Defined.

(** A train dataset holds one sample per source image, the image resized
    to 50 rows by 125 columns and not rotated, with the label derived from
    the file name, in traversal order. *)
Theorem train_dataset (fs : entry) (root : string) (d : T2RDataset) :
  init fs root "train" = Ok d ->
  let sources := source_images root fs in
  map fst sources = map fst (source_files fs) /\
  data d = map (fun source => Resized (snd source) 125 50) sources /\
  targets d = map derive_label (map fst (source_files fs)) /\
  Forall (fun image => shape image = (50, 125, 3)) (data d) /\
  len d = length (source_files fs).
Proof.
  intros Hinit sources. pose proof (init_loadable _ _ _ _ Hinit) as Hok.
  pose proof (source_images_names "train" root fs eq_refl Hok) as Hnames.
  fold sources in Hnames.
  rewrite (init_inv _ _ _ _ Hinit). unfold len. simpl. fold sources.
  assert (Hdata : forall l : list (string * ndarray),
             flat_map (fun source => map fst (samples "train" source)) l
             = map (fun source => Resized (snd source) 125 50) l).
  { induction l as [|[filename img] l IH]; [reflexivity|].
    simpl. now rewrite <- IH. }
  assert (Htargets : forall l : list (string * ndarray),
             flat_map (fun source => map snd (samples "train" source)) l
             = map derive_label (map fst l)).
  { induction l as [|[filename img] l IH]; [reflexivity|].
    simpl. now rewrite <- IH. }
  rewrite Hdata, Htargets, Hnames.
  repeat split; try reflexivity.
  - apply Forall_fmap, Forall_forall. intros source Hin.
    pose proof (source_images_decoded root fs) as Hdec.
    rewrite Forall_forall in Hdec.
    destruct (Hdec source Hin) as (path & h & w & Himg).
    simpl. now rewrite Himg.
  - now rewrite length_map, <- (length_map fst sources), Hnames, length_map.
Qed.

Lemma train_dataset_witness :
  exists d, init scenario_A "train_data" "train" = Ok d /\
            targets d = map derive_label (map fst (source_files scenario_A)) /\
            len d = length (source_files scenario_A).
Proof.
  destruct (init scenario_A "train_data" "train") as [d|e] eqn:Hinit;
    [|discriminate Hinit].
  exists d. split; [reflexivity|].
  destruct (train_dataset scenario_A "train_data" d Hinit)
    as (_ & _ & Htargets & _ & Hlen).
  split; assumption.
Defined.

Lemma load_file_raises (dtype folder_path : string) (self : T2RDataset)
    (file : string * entry) (e : exn) :
  load_file dtype folder_path self file = Raise e ->
  e = CvError /\ resizes dtype = true.
Proof.
  destruct file as [filename en]. unfold load_file, resizes.
  destruct (String.eqb filename ".DS_Store"); simpl; [discriminate|].
  destruct (String.eqb dtype "station").
  - unfold load_station_image. destruct (imread _ en); simpl; [discriminate|].
    intros [= <-]. now split.
  - destruct (String.eqb dtype "train"); [|discriminate].
    unfold load_train_image. destruct (imread _ en); simpl; [discriminate|].
    intros [= <-]. now split.
Qed.

Lemma load_files_raises (dtype folder_path : string)
    (files : list (string * entry)) (self : T2RDataset) (e : exn) :
  for_each (load_file dtype folder_path) files self = Raise e ->
  e = CvError /\ resizes dtype = true.
Proof.
  revert self. induction files as [|file files IH]; intros self; [discriminate|].
  cbn [for_each].
  destruct (load_file dtype folder_path self file) as [self'|e'] eqn:Hfile; simpl.
  - apply IH.
  - intros [= <-]. now apply load_file_raises in Hfile.
Qed.

Lemma load_folders_raises (dtype big_folder : string)
    (folders : list (string * entry)) (self : T2RDataset) (e : exn) :
  for_each (load_folder dtype big_folder) folders self = Raise e ->
  e = NotADirectoryError \/ (e = CvError /\ resizes dtype = true).
Proof.
  revert self. induction folders as [|[folder en] folders IH]; intros self;
    [discriminate|].
  cbn [for_each].
  destruct (load_folder dtype big_folder self (folder, en)) as [self'|e'] eqn:Hfolder;
    simpl.
  - apply IH.
  - intros [= <-]. unfold load_folder in Hfolder.
    destruct (String.eqb folder ".DS_Store"); simpl in Hfolder; [discriminate Hfolder|].
    destruct en as [image|files]; simpl in Hfolder.
    + injection Hfolder as <-. now left.
    + right. now apply load_files_raises in Hfolder.
Qed.

(** The constructor returns a dataset exactly on the trees whose root and
    kept entries are directories and, for the dtypes ['station'] and
    ['train'], whose kept files all decode.  On every other tree it raises
    [NotADirectoryError] (an entry that is not a directory) or the error
    of [cv2.resize] (a file that does not decode, only for those two
    dtypes): no file is skipped silently. *)
Theorem construction_outcome (fs : entry) (root dtype : string) :
  ((exists d, init fs root dtype = Ok d) <-> loadable dtype fs = true) /\
  (forall e, init fs root dtype = Raise e ->
     loadable dtype fs = false /\
     (e = NotADirectoryError \/
      (e = CvError /\ (dtype = "station" \/ dtype = "train")))).
Proof.
  split; [apply load_data_ok_iff|].
  intros e Hinit. split.
  - destruct (loadable dtype fs) eqn:Hok; [|reflexivity].
    rewrite (init_spec fs root dtype Hok) in Hinit. discriminate Hinit.
  - unfold init, load_data in Hinit.
    destruct fs as [image|folders]; simpl in Hinit.
    + injection Hinit as <-. now left.
    + apply load_folders_raises in Hinit as [->|[-> Hres]]; [now left|right].
      split; [reflexivity|]. unfold resizes in Hres.
      apply orb_prop in Hres as [H|H]; apply String.eqb_eq in H; auto.
Qed.

Lemma construction_outcome_witness :
  init (Dir [("s1", Dir [("red-1.png", File None)])]) "station_data" "station"
  = Raise CvError /\
  loadable "station" (Dir [("s1", Dir [("red-1.png", File None)])]) = false.
Proof.
  split; [reflexivity|].
  apply (construction_outcome (Dir [("s1", Dir [("red-1.png", File None)])])
           "station_data" "station") with CvError.
  reflexivity.
Defined.

Lemma station_shapes (fs : entry) (root : string) (d : T2RDataset) :
  init fs root "station" = Ok d ->
  Forall (fun image => shape image = (100, 100, 3)) (data d).
Proof.
  intros Hinit. rewrite (init_inv _ _ _ _ Hinit). simpl.
  apply Forall_forall. intros image Hin.
  apply list_elem_of_In, in_flat_map in Hin as (source & Hsrc & Hin).
  pose proof (source_images_decoded root fs) as Hdec.
  rewrite Forall_forall in Hdec.
  destruct (Hdec source) as (path & h & w & Himg); [now apply list_elem_of_In|].
  destruct source as [filename img]. simpl in *. subst img.
  destruct Hin as [<-|[<-|[<-|[<-|[]]]]]; reflexivity.
Qed.

Lemma train_shapes (fs : entry) (root : string) (d : T2RDataset) :
  init fs root "train" = Ok d ->
  Forall (fun image => shape image = (50, 125, 3)) (data d).
Proof.
  intros Hinit. rewrite (init_inv _ _ _ _ Hinit). simpl.
  apply Forall_forall. intros image Hin.
  apply list_elem_of_In, in_flat_map in Hin as (source & Hsrc & Hin).
  pose proof (source_images_decoded root fs) as Hdec.
  rewrite Forall_forall in Hdec.
  destruct (Hdec source) as (path & h & w & Himg); [now apply list_elem_of_In|].
  destruct source as [filename img]. simpl in *. subst img.
  destruct Hin as [<-|[]]. reflexivity.
Qed.

(** The images of a train dataset, batched, are accepted by [TrainsCNN]
    and rejected by [StationsCNN]; those of a station dataset are accepted
    by [StationsCNN] and rejected by [TrainsCNN].  Each classifier that
    [train_models] builds pairs a model with the dtype whose images it
    accepts. *)
Theorem datasets_fit_models (fs : entry) (root dtype : string) (d : T2RDataset)
    (image : ndarray) (n : N) :
  init fs root dtype = Ok d ->
  image ∈ data d ->
  (dtype = "train" ->
   Net.forward_shape Net.TrainsCNN (Access.batch_shape n (shape image)) = Ok [n; 6%N] /\
   Net.forward_shape Net.StationsCNN (Access.batch_shape n (shape image))
   = Raise RuntimeError) /\
  (dtype = "station" ->
   Net.forward_shape Net.StationsCNN (Access.batch_shape n (shape image)) = Ok [n; 6%N] /\
   Net.forward_shape Net.TrainsCNN (Access.batch_shape n (shape image))
   = Raise RuntimeError) /\
  (forall model root_dir,
      (model, root_dir, dtype) ∈ TrainModels.classifiers ->
      Net.forward_shape model (Access.batch_shape n (shape image)) = Ok [n; 6%N]) /\
  (forall model root_dir dtype',
      (model, root_dir, dtype') ∈ TrainModels.classifiers ->
      dtype' = "station" \/ dtype' = "train").
Proof.
  intros Hinit Hin.
  assert (Htrain : dtype = "train" ->
            Net.forward_shape Net.TrainsCNN (Access.batch_shape n (shape image))
            = Ok [n; 6%N] /\
            Net.forward_shape Net.StationsCNN (Access.batch_shape n (shape image))
            = Raise RuntimeError).
  { intros ->. pose proof (train_shapes fs root d Hinit) as Hshape.
    rewrite Forall_forall in Hshape. rewrite (Hshape image Hin).
    split; reflexivity. }
  assert (Hstation : dtype = "station" ->
            Net.forward_shape Net.StationsCNN (Access.batch_shape n (shape image))
            = Ok [n; 6%N] /\
            Net.forward_shape Net.TrainsCNN (Access.batch_shape n (shape image))
            = Raise RuntimeError).
  { intros ->. pose proof (station_shapes fs root d Hinit) as Hshape.
    rewrite Forall_forall in Hshape. rewrite (Hshape image Hin).
    split; reflexivity. }
  split; [exact Htrain|]. split; [exact Hstation|]. split.
  - intros model root_dir Hpair. unfold TrainModels.classifiers in Hpair.
    apply elem_of_cons in Hpair as [Hpair|Hpair].
    + injection Hpair as -> _ Hd. now apply Hstation.
    + apply elem_of_cons in Hpair as [Hpair|Hpair].
      * injection Hpair as -> _ Hd. now apply Htrain.
      * now apply elem_of_nil in Hpair.
  - intros model root_dir dtype' Hpair. unfold TrainModels.classifiers in Hpair.
    apply elem_of_cons in Hpair as [Hpair|Hpair].
    + injection Hpair as _ _ ->. now left.
    + apply elem_of_cons in Hpair as [Hpair|Hpair].
      * injection Hpair as _ _ ->. now right.
      * now apply elem_of_nil in Hpair.
Qed.

Lemma datasets_fit_models_witness :
  exists d image,
    init scenario_A "station_data" "station" = Ok d /\
    image ∈ data d /\
    Net.forward_shape Net.StationsCNN (Access.batch_shape 32 (shape image))
    = Ok [32%N; 6%N].
Proof.
  destruct (init scenario_A "station_data" "station") as [d|e] eqn:Hinit;
    [|discriminate Hinit].
  assert (Hin : Rotated (Resized (Decoded "station_data/s1/red-1.png" 48 52) 100 100) 0
                ∈ data d).
  { vm_compute in Hinit. injection Hinit as <-. simpl. left. }
  eexists d, _. split; [reflexivity|]. split; [exact Hin|].
  apply (datasets_fit_models scenario_A "station_data" "station" d _ 32 Hinit Hin).
  reflexivity.
Defined.

End DatasetMore.

(** ** Which entries the traversal reads *)

Module TraversalFacts.
Import Dataset DatasetFacts Traversal.

Lemma resizes_other (dtype : string) :
  dtype <> "station" -> dtype <> "train" -> resizes dtype = false.
Proof.
  intros Hs Ht. unfold resizes. apply String.eqb_neq in Hs, Ht. now rewrite Hs, Ht.
Qed.

Lemma files_ok_not_resized (dtype : string) (files : list (string * entry)) :
  resizes dtype = false -> forallb (file_ok dtype) files = true.
Proof.
  intros Hres. apply forallb_forall. intros file _.
  unfold file_ok. rewrite Hres. simpl. now rewrite orb_true_r.
Qed.

Lemma loadable_subfolders_only (dtype : string) (fs : entry) :
  resizes dtype = false -> loadable dtype fs = subfolders_only fs.
Proof.
  intros Hres. destruct fs as [image|folders]; [reflexivity|]. simpl.
  induction folders as [|[folder e] folders IH]; [reflexivity|].
  simpl. rewrite IH. f_equal. unfold folder_ok. simpl. f_equal.
  destruct e as [image|files]; [reflexivity|]. simpl.
  now apply files_ok_not_resized.
Qed.

Lemma no_samples_not_resized {X : Type} (dtype : string)
    (g : ndarray * nat -> X) (sources : list (string * ndarray)) :
  resizes dtype = false ->
  flat_map (fun source => map g (samples dtype source)) sources = [].
Proof.
  intros Hres. induction sources as [|source l IH]; [reflexivity|].
  simpl. now rewrite samples_not_resized, IH.
Qed.




(** C10, as the code has it: with a dtype other than ['station'] and
    ['train'] the constructor reads the names of the root and of each
    entry of it not named [.DS_Store], and appends nothing.  It returns
    the empty dataset exactly when the root is a directory whose entries
    not named [.DS_Store] are all directories, whether their files decode
    or not, and raises the [NotADirectoryError] of [os.listdir]
    otherwise. *)
Theorem unknown_dtype_outcome (fs : entry) (root dtype : string) :
  dtype <> "station" -> dtype <> "train" ->
  init fs root dtype
  = (if subfolders_only fs
     then Ok {| root_dir := root; data := []; targets := [] |}
     else Raise NotADirectoryError) /\
  (forall d, init fs root dtype = Ok d -> len d = 0).
Proof.
  intros Hs Ht. pose proof (resizes_other dtype Hs Ht) as Hres.
  assert (Hinit : init fs root dtype
                  = if subfolders_only fs
                    then Ok {| root_dir := root; data := []; targets := [] |}
                    else Raise NotADirectoryError).
  { rewrite <- (loadable_subfolders_only dtype fs Hres).
    destruct (loadable dtype fs) eqn:Hok.
    - rewrite (init_spec fs root dtype Hok).
      now rewrite !no_samples_not_resized.
    - destruct (init fs root dtype) as [d|e] eqn:Hrun.
      + assert (Hyes : loadable dtype fs = true).
        { apply (load_data_ok_iff fs {| root_dir := root; data := []; targets := [] |}).
          now exists d. }
        rewrite Hyes in Hok. discriminate Hok.
      + f_equal. unfold init, load_data in Hrun.
        destruct fs as [image|folders]; simpl in Hrun.
        * now injection Hrun as <-.
        * apply DatasetMore.load_folders_raises in Hrun as [->|[_ Hyes]];
            [reflexivity|]. rewrite Hyes in Hres. discriminate Hres. }
  split; [exact Hinit|].
  intros d Hd. rewrite Hinit in Hd.
  destruct (subfolders_only fs); [|discriminate Hd]. now injection Hd as <-.
Qed.

Lemma unknown_dtype_outcome_witness :
  "stations" <> "station" /\ "stations" <> "train" /\
  init scenario_A "station_data" "stations"
  = Ok {| root_dir := "station_data"; data := []; targets := [] |}.
Proof.
  assert (Hs : "stations" <> "station") by discriminate.
  assert (Ht : "stations" <> "train") by discriminate.
  split; [exact Hs|]. split; [exact Ht|].
  exact (proj1 (unknown_dtype_outcome scenario_A "station_data" "stations" Hs Ht)).
Defined.

(** C10 fails on the code: a root directory that holds a file next to
    its subfolders makes the constructor raise, whatever the dtype. *)
Lemma unknown_dtype_raises_on_stray_file :
  init (Dir [("s1", two_reds); ("labels.csv", File None)]) "station_data" "stations"
  = Raise NotADirectoryError /\
  ~ (exists d,
        init (Dir [("s1", two_reds); ("labels.csv", File None)])
             "station_data" "stations" = Ok d) /\
  "stations" <> "station" /\ "stations" <> "train".
Proof.
  split; [reflexivity|]. split; [|split; discriminate].
  intros [d Hd]. discriminate Hd.
Qed.

End TraversalFacts.

(** ** Item access *)

Module AccessFacts.
Import Dataset DatasetFacts Access.
Local Open Scope nat_scope.

Lemma py_index_nonneg {A : Type} (l : list A) (i : nat) (x : A) :
  l !! i = Some x -> py_index l (Z.of_nat i) = Returned x.
Proof.
  intros Hx. pose proof (lookup_lt_Some _ _ _ Hx) as Hlt.
  unfold py_index.
  destruct (Z.ltb_spec (Z.of_nat i) 0) as [Hneg|_]; [lia|].
  assert (Hr : ((0 <=? Z.of_nat i) && (Z.of_nat i <? Z.of_nat (length l)))%Z = true).
  { apply andb_true_intro. split; [apply Z.leb_le|apply Z.ltb_lt]; lia. }
  now rewrite Hr, Nat2Z.id, Hx.
Qed.

Lemma py_index_negative {A : Type} (l : list A) (idx : Z) :
  (- Z.of_nat (length l) <= idx < 0)%Z ->
  py_index l idx = py_index l (idx + Z.of_nat (length l)).
Proof.
  intros Hidx. unfold py_index.
  destruct (Z.ltb_spec idx 0) as [_|Hge]; [|lia].
  destruct (Z.ltb_spec (idx + Z.of_nat (length l)) 0) as [Hlt|_]; [lia|].
  reflexivity.
Qed.

Lemma py_index_out_of_range {A : Type} (l : list A) (idx : Z) :
  (idx < - Z.of_nat (length l) \/ Z.of_nat (length l) <= idx)%Z ->
  py_index l idx = Raised IndexError.
Proof.
  intros Hidx. unfold py_index.
  destruct (Z.ltb_spec idx 0) as [Hneg|Hpos].
  - assert (Hr : ((0 <=? idx + Z.of_nat (length l))
                  && (idx + Z.of_nat (length l) <? Z.of_nat (length l)))%Z = false).
    { apply andb_false_intro1. apply Z.leb_gt. lia. }
    now rewrite Hr.
  - assert (Hr : ((0 <=? idx) && (idx <? Z.of_nat (length l)))%Z = false).
    { apply andb_false_intro2. apply Z.ltb_ge. lia. }
    now rewrite Hr.
Qed.

Lemma init_lengths (fs : entry) (root dtype : string) (d : T2RDataset) :
  init fs root dtype = Ok d -> length (targets d) = length (data d).
Proof.
  intros Hinit. rewrite (DatasetMore.init_inv _ _ _ _ Hinit). simpl.
  induction (source_images root fs) as [|source l IH]; [reflexivity|].
  simpl. now rewrite !length_app, !length_map, IH.
Qed.

Lemma getitem_nonneg {T : Type} (transform : option (ndarray -> T))
    (d : T2RDataset) (i : nat) (img : ndarray) (target : nat) :
  data d !! i = Some img -> targets d !! i = Some target ->
  getitem transform d (Z.of_nat i)
  = Returned (apply_transform transform img, target).
Proof.
  intros Himg Htarget. unfold getitem.
  now rewrite (py_index_nonneg _ _ _ Himg), (py_index_nonneg _ _ _ Htarget).
Qed.

Lemma getitem_in_range {T : Type} (transform : option (ndarray -> T))
    (d : T2RDataset) (i : nat) :
  length (targets d) = length (data d) ->
  i < len d ->
  exists img target,
    data d !! i = Some img /\ targets d !! i = Some target /\
    getitem transform d (Z.of_nat i)
    = Returned (apply_transform transform img, target).
Proof.
  unfold len. intros Hlen Hi.
  destruct (lookup_lt_is_Some_2 (data d) i Hi) as [img Himg].
  destruct (lookup_lt_is_Some_2 (targets d) i ltac:(lia)) as [target Htarget].
  exists img, target. repeat split; try assumption.
  now apply getitem_nonneg.
Qed.

(** On a dataset that the constructor returned, [__getitem__] returns for
    exactly the indices from [-len] to [len - 1]: a non-negative index
    gives the image at that position, transformed when a transform is
    set, with the target at the same position; a negative index counts
    from the end; any other index raises [IndexError]. *)
Theorem getitem_bounds {T : Type} (transform : option (ndarray -> T))
    (fs : entry) (root dtype : string) (d : T2RDataset) (idx : Z) :
  init fs root dtype = Ok d ->
  let n := Z.of_nat (len d) in
  ((0 <= idx < n)%Z ->
   exists img target,
     data d !! Z.to_nat idx = Some img /\
     targets d !! Z.to_nat idx = Some target /\
     getitem transform d idx = Returned (apply_transform transform img, target)) /\
  ((- n <= idx < 0)%Z ->
   getitem transform d idx = getitem transform d (idx + n)) /\
  ((idx < - n \/ n <= idx)%Z -> getitem transform d idx = Raised IndexError).
Proof.
  intros Hinit n. pose proof (init_lengths _ _ _ _ Hinit) as Hlen.
  subst n. unfold len. split; [|split].
  - intros Hidx.
    destruct (getitem_in_range transform d (Z.to_nat idx) Hlen)
      as (img & target & Himg & Htarget & Hget); [unfold len; lia|].
    exists img, target. rewrite Z2Nat.id in Hget by lia. now repeat split.
  - intros Hidx. unfold getitem.
    rewrite (py_index_negative (data d)) by lia.
    rewrite (py_index_negative (targets d)) by lia.
    now rewrite Hlen.
  - intros Hidx. unfold getitem.
    now rewrite (py_index_out_of_range (data d)) by lia.
Qed.

Lemma getitem_bounds_witness :
  exists d,
    init scenario_A "train_data" "train" = Ok d /\
    (- Z.of_nat (len d) <= -1 < 0)%Z /\
    getitem (T := ndarray) None d (-1)
    = getitem None d (-1 + Z.of_nat (len d)).
Proof.
  destruct (init scenario_A "train_data" "train") as [d|e] eqn:Hinit;
    [|discriminate Hinit].
  assert (Hidx : (- Z.of_nat (len d) <= -1 < 0)%Z).
  { vm_compute in Hinit. injection Hinit as <-. vm_compute. split; [discriminate|reflexivity]. }
  exists d. split; [reflexivity|]. split; [exact Hidx|].
  exact (proj1 (proj2 (getitem_bounds None scenario_A "train_data" "train" d (-1) Hinit))
           Hidx).
Defined.

Lemma lookup_flat_map_block {A C : Type} (f : A -> list C) (k : nat)
    (l : list A) (i j : nat) (a : A) :
  (forall x, length (f x) = k) ->
  l !! i = Some a -> j < k ->
  flat_map f l !! (k * i + j) = f a !! j.
Proof.
  intros Hk. revert i. induction l as [|x l IH]; intros i Hi Hj; [discriminate Hi|].
  simpl. destruct i as [|i].
  - injection Hi as ->. rewrite Nat.mul_0_r. simpl.
    apply lookup_app_l. now rewrite Hk.
  - simpl in Hi. rewrite lookup_app_r by (rewrite Hk; lia).
    rewrite Hk. replace (k * S i + j - k) with (k * i + j) by lia.
    now apply IH.
Qed.

(** In a station dataset the four rotations of a source image are stored
    side by side: item [4 * i + j], for [j] from 0 to 3, is the [i]-th
    source image of the traversal, resized to 100 by 100 and rotated by
    [90 * j] degrees, with the label derived from the name of its file. *)
Theorem station_getitem {T : Type} (transform : option (ndarray -> T))
    (fs : entry) (root : string) (d : T2RDataset) (i j : nat)
    (filename : string) (img : ndarray) :
  init fs root "station" = Ok d ->
  source_images root fs !! i = Some (filename, img) ->
  j < 4 ->
  getitem transform d (Z.of_nat (4 * i + j))
  = Returned (apply_transform transform
                (Rotated (Resized img 100 100) (90 * Z.of_nat j)),
              derive_label filename).
Proof.
  intros Hinit Hsrc Hj. apply getitem_nonneg.
  - rewrite (DatasetMore.init_inv _ _ _ _ Hinit). simpl.
    rewrite (lookup_flat_map_block _ 4 _ i j (filename, img)); try assumption.
    + destruct j as [|[|[|[|j]]]]; [reflexivity..|lia].
    + now intros [name image].
  - rewrite (DatasetMore.init_inv _ _ _ _ Hinit). simpl.
    rewrite (lookup_flat_map_block _ 4 _ i j (filename, img)); try assumption.
    + destruct j as [|[|[|[|j]]]]; [reflexivity..|lia].
    + now intros [name image].
Qed.

Lemma station_getitem_witness :
  exists d,
    init scenario_A "station_data" "station" = Ok d /\
    getitem (T := ndarray) None d 6
    = Returned (Raw (Rotated (Resized (Decoded "station_data/s1/red-2.png" 61 47) 100 100)
                       180),
                4).
Proof.
  destruct (init scenario_A "station_data" "station") as [d|e] eqn:Hinit;
    [|discriminate Hinit].
  exists d. split; [reflexivity|].
  apply (station_getitem None scenario_A "station_data" d 1 2 "red-2.png"
           (Decoded "station_data/s1/red-2.png" 61 47) Hinit);
    [reflexivity|lia].
Defined.

End AccessFacts.

(** ** Batching *)

Module LoaderFacts.
Import Dataset DatasetFacts Access.
Local Open Scope nat_scope.

(** The batches are the consecutive slices of [batch_size] positions of
    what was pending followed by what the sampler still yields. *)
Lemma batch_sampler_slices {A : Type} (batch_size : nat) (sampler batch : list A) :
  length batch < batch_size ->
  let batches := batch_sampler batch_size batch sampler in
  length batches = (length batch + length sampler + batch_size - 1) / batch_size /\
  forall i, i < length batches ->
    batches !! i = Some (take batch_size (drop (i * batch_size) (batch ++ sampler))).
Proof.
  revert batch. induction sampler as [|idx rest IH]; intros batch Hlt; cbn zeta.
  - cbn [batch_sampler]. rewrite app_nil_r, Nat.add_0_r.
    destruct (Nat.ltb_spec 0 (length batch)) as [Hpos|Hzero].
    + split.
      * cbn [length]. apply (Nat.div_unique _ _ 1 (length batch - 1)); lia.
      * intros [|i] Hi; [|simpl in Hi; lia].
        simpl. rewrite drop_0. now rewrite take_ge by lia.
    + split.
      * replace (length batch) with 0 by lia. simpl.
        symmetry. apply Nat.div_small. lia.
      * intros i Hi. simpl in Hi. lia.
  - cbn [batch_sampler]. rewrite length_app. cbn [length].
    destruct (Nat.eqb_spec (length batch + 1) batch_size) as [Hfull|Hpart].
    + destruct (IH [] ltac:(simpl; lia)) as [Hcount Hslice]. cbn zeta in *.
      split.
      * cbn [length]. rewrite Hcount. cbn [length].
        apply (Nat.div_unique _ _ _ ((0 + length rest + batch_size - 1) mod batch_size)).
        -- apply Nat.mod_upper_bound. lia.
        -- pose proof (Nat.div_mod (0 + length rest + batch_size - 1) batch_size
                         ltac:(lia)).
           lia.
      * assert (Hsplit : batch ++ idx :: rest = (batch ++ [idx]) ++ rest)
          by now rewrite <- app_assoc.
        intros [|i] Hi.
        -- simpl. rewrite drop_0, Hsplit, take_app_length'; [reflexivity|].
           rewrite length_app. simpl. lia.
        -- cbn [length] in Hi.
           change (batch_sampler batch_size [] rest !! i
                   = Some (take batch_size
                             (drop (S i * batch_size) (batch ++ idx :: rest)))).
           rewrite (Hslice i) by lia. simpl app.
           rewrite Hsplit. f_equal. f_equal.
           replace (S i * batch_size) with (length (batch ++ [idx]) + i * batch_size)
             by (rewrite length_app; simpl; lia).
           now rewrite drop_app_add.
    + destruct (IH (batch ++ [idx]) ltac:(rewrite length_app; simpl; lia))
        as [Hcount Hslice]. cbn zeta in *.
      rewrite length_app in Hcount. cbn [length] in Hcount.
      split.
      * rewrite Hcount. f_equal. lia.
      * intros i Hi. rewrite (Hslice i Hi). now rewrite <- app_assoc.
Qed.

Lemma batch_sampler_concat {A : Type} (batch_size : nat) (sampler batch : list A) :
  length batch < batch_size ->
  concat (batch_sampler batch_size batch sampler) = batch ++ sampler.
Proof.
  revert batch. induction sampler as [|idx rest IH]; intros batch Hlt.
  - cbn [batch_sampler]. rewrite app_nil_r.
    destruct (Nat.ltb_spec 0 (length batch)) as [Hpos|Hzero].
    + simpl. now rewrite app_nil_r.
    + destruct batch; [reflexivity|simpl in Hzero; lia].
  - cbn [batch_sampler].
    destruct (Nat.eqb_spec (length (batch ++ [idx])) batch_size) as [Hfull|Hpart].
    + cbn [concat]. rewrite (IH [] ltac:(simpl; lia)). now rewrite <- app_assoc.
    + rewrite length_app in Hpart. simpl in Hpart.
      rewrite IH by (rewrite length_app; simpl; lia). now rewrite <- app_assoc.
Qed.

Lemma Forall_concat_inv {A : Type} (P : A -> Prop) (ls : list (list A)) :
  Forall P (concat ls) -> Forall (Forall P) ls.
Proof.
  induction ls as [|l ls IH]; intros H; [constructor|].
  simpl in H. apply Forall_app in H as [H1 H2].
  apply List.Forall_cons; [exact H1|now apply IH].
Qed.

Lemma Forall2_concat_intro {A C : Type} (P : A -> C -> Prop)
    (ls : list (list A)) (ks : list (list C)) :
  Forall2 (Forall2 P) ls ks -> Forall2 P (concat ls) (concat ks).
Proof.
  induction 1 as [|l k ls ks Hlk _ IH]; [constructor|].
  simpl. now apply Forall2_app.
Qed.

Section Fetch.
Context {T : Type}.
Variable transform : option (ndarray -> T).
Variable d : T2RDataset.
Variable indices : list nat.
Hypothesis Hlen : length (targets d) = length (data d).
Hypothesis Hindices : Forall (fun idx => idx < len d) indices.

Lemma subset_getitem_in_range (pos : nat) :
  pos < length indices ->
  exists x, subset_getitem transform d indices (Z.of_nat pos) = Returned x /\
            item_at transform d indices pos x.
Proof.
  intros Hpos.
  destruct (lookup_lt_is_Some_2 indices pos Hpos) as [idx Hidx].
  assert (Hin : idx < len d).
  { rewrite Forall_forall in Hindices. apply Hindices.
    now apply list_elem_of_lookup_2 with pos. }
  destruct (AccessFacts.getitem_in_range transform d idx Hlen Hin)
    as (img & target & Himg & Htarget & Hget).
  exists (apply_transform transform img, target). split.
  - unfold subset_getitem. now rewrite (AccessFacts.py_index_nonneg _ _ _ Hidx).
  - now exists idx, img, target.
Qed.

Lemma fetch_in_range (batch : list nat) :
  Forall (fun pos => pos < length indices) batch ->
  exists xs, fetch transform d indices batch = Returned xs /\
             Forall2 (item_at transform d indices) batch xs.
Proof.
  induction batch as [|pos batch IH]; intros Hb.
  - exists []. split; [reflexivity|constructor].
  - apply Forall_cons in Hb as [Hpos Hb].
    destruct (subset_getitem_in_range pos Hpos) as (x & Hx & Hitem).
    destruct (IH Hb) as (xs & Hxs & Hitems).
    exists (x :: xs). split; [|now constructor].
    cbn [fetch]. now rewrite Hx, Hxs.
Qed.

Lemma fetch_all_in_range (batches : list (list nat)) :
  Forall (Forall (fun pos => pos < length indices)) batches ->
  exists bs, fetch_all transform d indices batches = Returned bs /\
             Forall2 (Forall2 (item_at transform d indices)) batches bs.
Proof.
  induction batches as [|batch batches IH]; intros Hb.
  - exists []. split; [reflexivity|constructor].
  - apply Forall_cons in Hb as [Hbatch Hb].
    destruct (fetch_in_range batch Hbatch) as (xs & Hxs & Hitems).
    destruct (IH Hb) as (bs & Hbs & Hall).
    exists (xs :: bs). split; [|now constructor].
    cbn [fetch_all]. now rewrite Hxs, Hbs.
Qed.

End Fetch.

Lemma sampler_in_range (n : nat) (sampler : list nat) :
  sampler ≡ₚ seq 0 n -> Forall (fun pos => pos < n) sampler.
Proof.
  intros Hperm. rewrite Hperm. apply Forall_forall.
  intros pos Hin. apply list_elem_of_In, in_seq in Hin. lia.
Qed.

Lemma loader_pass_returns {T : Type} (transform : option (ndarray -> T))
    (fs : entry) (root dtype : string) (d : T2RDataset)
    (indices : list nat) (batch_size : nat) (sampler : list nat) :
  init fs root dtype = Ok d ->
  Forall (fun idx => idx < len d) indices ->
  sampler ≡ₚ seq 0 (length indices) ->
  0 < batch_size ->
  exists batches,
    loader_pass transform d indices batch_size sampler = Returned batches /\
    length batches = (length indices + batch_size - 1) / batch_size /\
    (forall i, i < length batches ->
       exists xs, batches !! i = Some xs /\
                  Forall2 (item_at transform d indices)
                    (take batch_size (drop (i * batch_size) sampler)) xs /\
                  length xs = min batch_size (length indices - i * batch_size)) /\
    Forall2 (item_at transform d indices) sampler (concat batches).
Proof.
  intros Hinit Hindices Hperm Hpos.
  pose proof (AccessFacts.init_lengths _ _ _ _ Hinit) as Hlen.
  pose proof (sampler_in_range _ _ Hperm) as Hrange.
  pose proof (Permutation_length Hperm) as Hsize. rewrite length_seq in Hsize.
  pose proof (batch_sampler_concat batch_size sampler [] ltac:(simpl; lia)) as Hcat.
  destruct (batch_sampler_slices batch_size sampler [] ltac:(simpl; lia))
    as [Hcount Hslice]. cbn zeta in *. simpl in Hcat, Hcount, Hslice.
  destruct (fetch_all_in_range transform d indices Hlen Hindices
              (batch_sampler batch_size [] sampler)) as (bs & Hbs & Hall).
  { apply Forall_concat_inv. now rewrite Hcat. }
  exists bs. split; [exact Hbs|].
  pose proof (Forall2_length _ _ _ Hall) as Hsame.
  split; [now rewrite <- Hsame, Hcount, Hsize|].
  split.
  - intros i Hi. rewrite <- Hsame in Hi.
    destruct (lookup_lt_is_Some_2 bs i ltac:(lia)) as [xs Hxs].
    exists xs. split; [exact Hxs|].
    pose proof (Forall2_lookup_lr _ _ _ _ _ _ Hall (Hslice i Hi) Hxs) as Hitems.
    split; [exact Hitems|].
    rewrite <- (Forall2_length _ _ _ Hitems), length_take, length_drop. lia.
  - rewrite <- Hcat at 1. now apply Forall2_concat_intro.
Qed.


(** One pass over a [DataLoader] of a subset of [n] items of a constructed
    dataset, [n] and the batch size positive: every item access succeeds,
    and the pass yields ceil(n / batch_size) batches, at least one.  Batch
    [i] holds the items at the positions that the sampler drew from
    [i * batch_size] on, so every batch but the last is full and the last
    is not empty; laid end to end, the batches are the items of the
    subset in the order of the sampler, each position once. *)
Theorem loader_pass_batches {T : Type} (transform : option (ndarray -> T))
    (fs : entry) (root dtype : string) (d : T2RDataset)
    (indices : list nat) (batch_size : nat) (sampler : list nat) :
  init fs root dtype = Ok d ->
  Forall (fun idx => idx < len d) indices ->
  sampler ≡ₚ seq 0 (length indices) ->
  0 < batch_size -> 0 < length indices ->
  exists batches,
    loader_pass transform d indices batch_size sampler = Returned batches /\
    length batches = (length indices + batch_size - 1) / batch_size /\
    0 < length batches /\
    (forall i, i < length batches ->
       exists xs, batches !! i = Some xs /\
                  Forall2 (item_at transform d indices)
                    (take batch_size (drop (i * batch_size) sampler)) xs /\
                  length xs = min batch_size (length indices - i * batch_size) /\
                  0 < length xs) /\
    Forall2 (item_at transform d indices) sampler (concat batches).
Proof.
  intros Hinit Hindices Hperm Hpos Hn.
  destruct (loader_pass_returns transform fs root dtype d indices batch_size
              sampler Hinit Hindices Hperm Hpos)
    as (batches & Hpass & Hcount & Hbatch & Hcat).
  exists batches. split; [exact Hpass|]. split; [exact Hcount|].
  split; [rewrite Hcount; apply Nat.div_str_pos; lia|].
  split; [|exact Hcat].
  intros i Hi. destruct (Hbatch i Hi) as (xs & Hxs & Hitems & Hsize).
  exists xs. do 3 (split; [assumption|]).
  rewrite Hsize. rewrite Hcount in Hi.
  assert (Hlt : i * batch_size < length indices); [|lia].
  destruct (Nat.lt_ge_cases (i * batch_size) (length indices)) as [Hlt|Hge];
    [exact Hlt|].
  pose proof (Nat.Div0.div_lt_upper_bound (length indices + batch_size - 1)
                batch_size (S i) ltac:(lia)).
  lia.
Qed.

Lemma loader_pass_batches_witness :
  exists d batches,
    init scenario_A "train_data" "train" = Ok d /\
    loader_pass (T := ndarray) None d [3; 1; 4] 2 [2; 0; 1] = Returned batches /\
    length batches = 2.
Proof.
  destruct (init scenario_A "train_data" "train") as [d|e] eqn:Hinit;
    [|discriminate Hinit].
  assert (Hidx : Forall (fun idx => idx < len d) [3; 1; 4]).
  { vm_compute in Hinit. injection Hinit as <-.
    repeat (apply List.Forall_cons; [unfold len; simpl; lia|]). apply List.Forall_nil. }
  assert (Hperm : [2; 0; 1] ≡ₚ seq 0 (length [3; 1; 4])).
  { apply (bool_decide_unpack _). vm_compute. reflexivity. }
  destruct (loader_pass_batches (T := ndarray) None scenario_A "train_data" "train"
              d [3; 1; 4] 2 [2; 0; 1] Hinit Hidx Hperm ltac:(lia) ltac:(simpl; lia))
    as (batches & Hpass & Hcount & _).
  exists d, batches. repeat split; assumption.
Defined.

Lemma omap_lookup_seq {A : Type} (l : list A) :
  omap (fun i => l !! i) (seq 0 (length l)) = l.
Proof.
  induction l as [|x l IH] using rev_ind; [reflexivity|].
  rewrite length_app. simpl. rewrite Nat.add_1_r, seq_S, list.omap_app. simpl.
  rewrite lookup_app_r, Nat.sub_diag by lia. simpl. f_equal.
  rewrite <- IH at 2. apply list_omap_ext.
  apply Forall2_same_length_lookup_2; [reflexivity|].
  intros i a b Ha Hb. rewrite Ha in Hb. injection Hb as <-.
  apply lookup_seq in Ha as [-> Hi]. simpl.
  now rewrite lookup_app_l by lia.
Qed.

Lemma omap_lookup_Forall2 {A : Type} (l : list A) (sampler : list nat) (xs : list A) :
  Forall2 (fun pos x => l !! pos = Some x) sampler xs ->
  omap (fun i => l !! i) sampler = xs.
Proof.
  induction 1 as [|pos x sampler xs Hx _ IH]; [reflexivity|].
  now rewrite omap_cons, Hx, IH.
Qed.

(** Looking a list up at every position once gives the list back, up
    to the order. *)
Lemma lookup_all_Permutation {A : Type} (l : list A) (sampler : list nat)
    (xs : list A) :
  Forall2 (fun pos x => l !! pos = Some x) sampler xs ->
  sampler ≡ₚ seq 0 (length l) ->
  xs ≡ₚ l.
Proof.
  intros Hall Hperm. rewrite <- (omap_lookup_Forall2 _ _ _ Hall).
  rewrite Hperm. now rewrite omap_lookup_seq.
Qed.

Lemma lookup_all_exists {A : Type} (l : list A) (indices : list nat) :
  Forall (fun idx => idx < length l) indices ->
  exists sub, Forall2 (fun idx x => l !! idx = Some x) indices sub.
Proof.
  induction 1 as [|idx indices Hidx _ [sub IH]]; [exists []; constructor|].
  destruct (lookup_lt_is_Some_2 l idx Hidx) as [x Hx].
  exists (x :: sub). now constructor.
Qed.

Lemma items_lookup {T : Type} (transform : option (ndarray -> T))
    (d : T2RDataset) (idx : nat) (img : ndarray) (target : nat) :
  data d !! idx = Some img -> targets d !! idx = Some target ->
  items transform d !! idx = Some (apply_transform transform img, target).
Proof.
  intros Himg Htarget. unfold items.
  rewrite lookup_zip_with, Himg. simpl. now rewrite Htarget.
Qed.

Lemma items_length {T : Type} (transform : option (ndarray -> T)) (d : T2RDataset) :
  length (targets d) = length (data d) ->
  length (items transform d) = len d.
Proof.
  intros Hlen. unfold items, len. rewrite length_zip_with. lia.
Qed.

(** The items that a pass fetched, against the items of the subset. *)
Lemma fetched_Permutation {T : Type} (transform : option (ndarray -> T))
    (d : T2RDataset) (indices sampler : list nat)
    (xs sub : list (item T * nat)) :
  Forall2 (item_at transform d indices) sampler xs ->
  Forall2 (fun idx x => items transform d !! idx = Some x) indices sub ->
  sampler ≡ₚ seq 0 (length indices) ->
  xs ≡ₚ sub.
Proof.
  intros Hfetched Hsub Hperm.
  apply lookup_all_Permutation with sampler;
    [|now rewrite <- (Forall2_length _ _ _ Hsub)].
  eapply Forall2_impl; [exact Hfetched|].
  intros pos x (idx & img & target & Hidx & Himg & Htarget & ->).
  destruct (Forall2_lookup_l _ _ _ _ _ Hsub Hidx) as (x' & Hx' & Hitem).
  rewrite (items_lookup transform d idx img target Himg Htarget) in Hitem.
  now injection Hitem as <-.
Qed.

(** Over one epoch the two loaders of a classifier hand out every item
    of the dataset exactly once between them: the batches of the train
    loader followed by those of the test loader hold, in some order, the
    items of the whole dataset. *)
Theorem epoch_covers_dataset {T : Type} (transform : option (ndarray -> T))
    (fs : entry) (root dtype : string) (d : T2RDataset) (f : PyFloat.float)
    (perm train test : list nat) (batch_size : nat)
    (train_sampler test_sampler : list nat) :
  init fs root dtype = Ok d ->
  (Z.of_nat (len d) < 2 ^ 53)%Z ->
  PyFloat.is_float f = true ->
  PyFloat.ltb PyFloat.zero f = true -> PyFloat.ltb f PyFloat.one = true ->
  perm ≡ₚ seq 0 (len d) ->
  split_data d f perm = Ok (train, test) ->
  train <> [] -> test <> [] ->
  train_sampler ≡ₚ seq 0 (length train) ->
  test_sampler ≡ₚ seq 0 (length test) ->
  0 < batch_size ->
  exists train_batches test_batches,
    loader_pass transform d train batch_size train_sampler = Returned train_batches /\
    loader_pass transform d test batch_size test_sampler = Returned test_batches /\
    concat train_batches ++ concat test_batches ≡ₚ items transform d.
Proof.
  intros Hinit Hbig Hv H0 H1 Hperm Hsplit _ _ Htrain Htest Hpos.
  pose proof (AccessFacts.init_lengths _ _ _ _ Hinit) as Hlen.
  pose proof (Permutation_length Hperm) as Hsize. rewrite length_seq in Hsize.
  unfold len in *.
  destruct (PyFloatFacts.mul_int_unit_interval f (Z.of_nat (length (data d)))
              Hv H0 H1 ltac:(lia)) as (x & k & Hmul & Hint & _ & Hk).
  rewrite (SplitMore.split_data_of_size d f perm x k Hmul Hint Hk Hsize) in Hsplit.
  injection Hsplit as <- <-.
  set (train := take (Z.to_nat k) perm) in *.
  set (test := drop (Z.to_nat k) perm) in *.
  assert (Happ : train ++ test = perm) by apply take_drop.
  pose proof (sampler_in_range _ _ Hperm) as Hrange.
  rewrite <- Happ in Hrange. apply Forall_app in Hrange as [Hr1 Hr2].
  destruct (loader_pass_returns transform fs root dtype d train batch_size
              train_sampler Hinit Hr1 Htrain Hpos)
    as (train_batches & Hpass1 & _ & _ & Hcat1).
  destruct (loader_pass_returns transform fs root dtype d test batch_size
              test_sampler Hinit Hr2 Htest Hpos)
    as (test_batches & Hpass2 & _ & _ & Hcat2).
  exists train_batches, test_batches. do 2 (split; [assumption|]).
  pose proof (items_length transform d Hlen) as Hitems. unfold len in Hitems.
  destruct (lookup_all_exists (items transform d) train) as [sub1 Hsub1];
    [now rewrite Hitems|].
  destruct (lookup_all_exists (items transform d) test) as [sub2 Hsub2];
    [now rewrite Hitems|].
  rewrite (fetched_Permutation transform d train train_sampler _ sub1 Hcat1 Hsub1 Htrain).
  rewrite (fetched_Permutation transform d test test_sampler _ sub2 Hcat2 Hsub2 Htest).
  apply lookup_all_Permutation with perm; [|now rewrite Hitems].
  rewrite <- Happ. now apply Forall2_app.
Qed.

Lemma epoch_covers_dataset_witness :
  exists d train_batches test_batches,
    init scenario_A "train_data" "train" = Ok d /\
    loader_pass (T := ndarray) None d [7; 2; 9; 0; 4; 1; 8] 4 [6; 2; 0; 5; 1; 4; 3]
    = Returned train_batches /\
    loader_pass (T := ndarray) None d [3; 6; 5] 4 [1; 2; 0] = Returned test_batches /\
    concat train_batches ++ concat test_batches ≡ₚ items None d.
Proof.
  destruct (init scenario_A "train_data" "train") as [d|e] eqn:Hinit;
    [|discriminate Hinit].
  assert (Hd : len d = 10 /\
               split_data d PyFloat.lit_0_7 shuffled_ten
               = Ok ([7; 2; 9; 0; 4; 1; 8], [3; 6; 5])).
  { vm_compute in Hinit. injection Hinit as <-. split; vm_compute; reflexivity. }
  destruct Hd as [Hten Hsplit].
  assert (Hbig : (Z.of_nat (len d) < 2 ^ 53)%Z) by (rewrite Hten; reflexivity).
  assert (Hperm : shuffled_ten ≡ₚ seq 0 (len d)).
  { rewrite Hten. apply (bool_decide_unpack _). vm_compute. reflexivity. }
  assert (Htrain : [6; 2; 0; 5; 1; 4; 3] ≡ₚ seq 0 (length [7; 2; 9; 0; 4; 1; 8])).
  { apply (bool_decide_unpack _). vm_compute. reflexivity. }
  assert (Htest : [1; 2; 0] ≡ₚ seq 0 (length [3; 6; 5])).
  { apply (bool_decide_unpack _). vm_compute. reflexivity. }
  destruct (epoch_covers_dataset (T := ndarray) None scenario_A "train_data" "train" d
              PyFloat.lit_0_7 shuffled_ten [7; 2; 9; 0; 4; 1; 8] [3; 6; 5] 4
              [6; 2; 0; 5; 1; 4; 3] [1; 2; 0]
              Hinit Hbig eq_refl eq_refl eq_refl Hperm Hsplit
              ltac:(discriminate) ltac:(discriminate) Htrain Htest ltac:(lia))
    as (train_batches & test_batches & H1 & H2 & H3).
  exists d, train_batches, test_batches. repeat split; assumption.
Defined.

End LoaderFacts.

(** ** The preview of predictions *)

Module PreviewFacts.
Import Dataset Classifier Access.
Local Open Scope nat_scope.

Section Generic.
Context {B : Backend}.
Variable X : Type.
Variable predict : params B -> X -> nat.

Lemma show_from_take (w : params B) (samples : list (X * nat)) (i count : nat) :
  show_from X predict w samples i count
  = (map (fun sample => (snd sample, predict w (fst sample)))
         (take count (drop i samples)),
     if count <=? length samples - i then Returned tt else Raised IndexError).
Proof.
  revert i. induction count as [|count IH]; intros i; [reflexivity|].
  cbn [show_from]. destruct (samples !! i) as [[image label]|] eqn:Hi.
  - rewrite IH. rewrite (drop_S _ _ _ Hi). cbn [take map fst snd].
    pose proof (lookup_lt_Some _ _ _ Hi) as Hlt.
    replace (S count <=? length samples - i) with (count <=? length samples - S i);
      [reflexivity|].
    destruct (Nat.leb_spec count (length samples - S i));
      destruct (Nat.leb_spec (S count) (length samples - i)); (reflexivity || lia).
  - apply lookup_ge_None in Hi. rewrite drop_ge by lia.
    replace (length samples - i) with 0 by lia. reflexivity.
Qed.

End Generic.

(** [visualize_predictions] looks at the first batch of the loader only.
    It shows the first [num_images] samples of that batch with their
    actual and predicted labels and returns, when the batch has that many;
    with a smaller batch it shows every sample of the batch and then
    raises [IndexError]; with a loader that yields no batch it raises
    [StopIteration] before showing anything.  In every case the weights
    and the optimizer are left as they were, with the model in evaluation
    mode. *)
Theorem visualize_predictions_outcome {B : Backend} (X : Type)
    (predict : params B -> X -> nat) (self : Classifier B)
    (loader : list (list (X * nat))) (num_images : nat) :
  visualize_predictions X predict self loader num_images
  = ({| num_epochs := num_epochs self; weights := weights self;
        optimizer := optimizer self; training := false |},
     match loader with
     | [] => []
     | samples :: _ =>
         map (fun sample => (snd sample, predict (weights self) (fst sample)))
             (take num_images samples)
     end,
     match loader with
     | [] => Raised StopIteration
     | samples :: _ =>
         if num_images <=? length samples then Returned tt else Raised IndexError
     end).
Proof.
  unfold visualize_predictions. destruct loader as [|samples loader]; [reflexivity|].
  cbn [weights]. rewrite show_from_take, drop_0, Nat.sub_0_r. reflexivity.
Qed.

(** The preview of the first batch of a loader over a subset that is not
    empty returns when [num_images] is at most the batch size and the
    size of the subset, and raises [IndexError] otherwise: with the batch
    size 32 and the 5 images of [train_models], it raises on a test
    subset of one to four items. *)
Theorem preview_of_loader {B : Backend} {T : Type}
    (transform : option (ndarray -> T)) (predict : params B -> item T -> nat)
    (self : Classifier B) (fs : entry) (root dtype : string) (d : T2RDataset)
    (indices : list nat) (batch_size : nat) (sampler : list nat)
    (num_images : nat) :
  init fs root dtype = Ok d ->
  Forall (fun idx => idx < len d) indices ->
  sampler ≡ₚ seq 0 (length indices) ->
  0 < batch_size -> 0 < length indices ->
  exists batches,
    loader_pass transform d indices batch_size sampler = Returned batches /\
    snd (visualize_predictions (item T) predict self batches num_images)
    = if num_images <=? min batch_size (length indices)
      then Returned tt else Raised IndexError.
Proof.
  intros Hinit Hindices Hperm Hpos Hn.
  destruct (LoaderFacts.loader_pass_returns transform fs root dtype d indices
              batch_size sampler Hinit Hindices Hperm Hpos)
    as (batches & Hpass & Hcount & Hbatch & _).
  exists batches. split; [exact Hpass|].
  assert (Hone : 0 < length batches).
  { rewrite Hcount. apply Nat.div_str_pos. lia. }
  destruct (Hbatch 0 Hone) as (xs & Hxs & _ & Hsize).
  destruct batches as [|samples batches]; [simpl in Hone; lia|].
  injection Hxs as ->.
  unfold visualize_predictions. cbn [weights].
  rewrite show_from_take, drop_0, Nat.sub_0_r. cbn [snd].
  rewrite Hsize. now rewrite Nat.mul_0_l, Nat.sub_0_r.
Qed.

Lemma preview_of_loader_witness :
  exists d batches,
    init scenario_A "train_data" "train" = Ok d /\
    loader_pass (T := ndarray) None d [3; 1; 4] 32 [2; 0; 1] = Returned batches /\
    snd (visualize_predictions (B := scalar) (item ndarray) (fun _ _ => 0)
           (scalar_classifier 10) batches 5)
    = Raised IndexError.
Proof.
  destruct (init scenario_A "train_data" "train") as [d|e] eqn:Hinit;
    [|discriminate Hinit].
  assert (Hidx : Forall (fun idx => idx < len d) [3; 1; 4]).
  { vm_compute in Hinit. injection Hinit as <-.
    repeat (apply List.Forall_cons; [unfold len; simpl; lia|]). apply List.Forall_nil. }
  assert (Hperm : [2; 0; 1] ≡ₚ seq 0 (length [3; 1; 4])).
  { apply (bool_decide_unpack _). vm_compute. reflexivity. }
  destruct (preview_of_loader (B := scalar) (T := ndarray) None (fun _ _ => 0) (scalar_classifier 10)
              scenario_A "train_data" "train" d [3; 1; 4] 32 [2; 0; 1] 5
              Hinit Hidx Hperm ltac:(lia) ltac:(simpl; lia))
    as (batches & Hpass & Hend).
  exists d, batches. repeat split; assumption.
Defined.

End PreviewFacts.

(** ** The whole training run *)

Module TrainFacts.
Import Classifier ClassifierFacts Epochs.
Local Open Scope nat_scope.

Section Generic.
Context {B : Backend}.
Implicit Types (self : Classifier B) (run : Run B).

Lemma steps_cons (xy : batch B) (batches : list (batch B))
    (w : params B) (o : opt_state B) :
  steps (xy :: batches) w o
  = steps batches (fst (step B w o xy)) (snd (step B w o xy)).
Proof. unfold steps. cbn [fold_left]. now destruct (step B w o xy). Qed.

Lemma steps_app (l1 l2 : list (batch B)) (w : params B) (o : opt_state B) :
  steps (l1 ++ l2) w o
  = steps l2 (fst (steps l1 w o)) (snd (steps l1 w o)).
Proof.
  unfold steps. rewrite fold_left_app.
  now destruct (fold_left _ l1 (w, o)).
Qed.

Lemma train_pass_from self (batches : list (batch B))
    (losses accs : list PyFloat.float) :
  fold_left
    (fun '(epoch_losses, epoch_accuracies, self) xy =>
       let '(batch_loss, self) := train_batch self xy in
       let '(batch_acc, self) := accuracy self xy in
       (epoch_losses ++ [batch_loss], epoch_accuracies ++ [batch_acc], self))
    batches (losses, accs, self)
  = (losses ++ imap (fun i xy => loss B (weights_after self batches i) xy) batches,
     accs ++ imap (fun i xy => predict_accuracy B (weights_after self batches (S i)) xy)
               batches,
     stepped self batches).
Proof.
  revert self losses accs.
  induction batches as [|xy batches IH]; intros self losses accs.
  - simpl. now rewrite !app_nil_r.
  - cbn [fold_left]. unfold train_batch at 2, accuracy at 2.
    destruct (step B (weights self) (optimizer self) xy) as [w o] eqn:Hstep.
    rewrite IH. cbn [imap]. rewrite <- !app_assoc. cbn [app].
    assert (Hafter : forall i,
               weights_after (@Build_Classifier B (num_epochs self) w o false) batches i
               = weights_after self (xy :: batches) (S i)).
    { intros i. unfold weights_after. cbn [take weights optimizer].
      now rewrite steps_cons, Hstep. }
    f_equal; [f_equal|].
    + f_equal. f_equal.
      apply imap_ext. intros i x _. simpl. now rewrite Hafter.
    + f_equal. f_equal.
      * unfold weights_after. cbn [take]. rewrite steps_cons, Hstep. reflexivity.
      * apply imap_ext. intros i x _. simpl. now rewrite Hafter.
    + unfold stepped. cbn [weights optimizer num_epochs].
      rewrite steps_cons, Hstep. cbn [fst snd].
      destruct batches as [|xy' batches]; reflexivity.
Qed.

Lemma test_pass_from self (batches : list (batch B))
    (accs losses : list PyFloat.float) :
  fold_left
    (fun '(epoch_test_accuracies, epoch_test_losses, self) xy =>
       let '(test_loss, self) := train_batch self xy in
       let '(test_acc, self) := accuracy self xy in
       (epoch_test_accuracies ++ [test_acc], epoch_test_losses ++ [test_loss], self))
    batches (accs, losses, self)
  = (accs ++ imap (fun i xy => predict_accuracy B (weights_after self batches (S i)) xy)
               batches,
     losses ++ imap (fun i xy => loss B (weights_after self batches i) xy) batches,
     stepped self batches).
Proof.
  revert self losses accs.
  induction batches as [|xy batches IH]; intros self losses accs.
  - simpl. now rewrite !app_nil_r.
  - cbn [fold_left]. unfold train_batch at 2, accuracy at 2.
    destruct (step B (weights self) (optimizer self) xy) as [w o] eqn:Hstep.
    rewrite IH. cbn [imap]. rewrite <- !app_assoc. cbn [app].
    assert (Hafter : forall i,
               weights_after (@Build_Classifier B (num_epochs self) w o false) batches i
               = weights_after self (xy :: batches) (S i)).
    { intros i. unfold weights_after. cbn [take weights optimizer].
      now rewrite steps_cons, Hstep. }
    f_equal; [f_equal|].
    + f_equal. f_equal.
      * unfold weights_after. cbn [take]. rewrite steps_cons, Hstep. reflexivity.
      * apply imap_ext. intros i x _. simpl. now rewrite Hafter.
    + f_equal. f_equal.
      apply imap_ext. intros i x _. simpl. now rewrite Hafter.
    + unfold stepped. cbn [weights optimizer num_epochs].
      rewrite steps_cons, Hstep. cbn [fst snd].
      destruct batches as [|xy' batches]; reflexivity.
Qed.

Lemma stepped_steps self (batches : list (batch B)) :
  (weights (stepped self batches), optimizer (stepped self batches))
  = steps batches (weights self) (optimizer self) /\
  num_epochs (stepped self batches) = num_epochs self.
Proof.
  destruct batches as [|xy batches]; [now split|].
  unfold stepped. cbn [weights optimizer num_epochs].
  now destruct (steps (xy :: batches) (weights self) (optimizer self)).
Qed.

Lemma run_epoch_steps run (state : Results * Classifier B) (epoch : nat) :
  let self := snd state in
  let self' := snd (run_epoch run state epoch) in
  (weights self', optimizer self')
  = steps (train_loader run epoch ++ test_loader run epoch)
          (weights self) (optimizer self) /\
  num_epochs self' = num_epochs self.
Proof.
  destruct state as [results self]. cbn zeta. cbn [snd].
  unfold run_epoch, train_pass, test_pass.
  rewrite train_pass_from. rewrite test_pass_from. cbn [snd].
  destruct (stepped_steps self (train_loader run epoch)) as [H1 N1].
  destruct (stepped_steps (stepped self (train_loader run epoch))
              (test_loader run epoch)) as [H2 N2].
  split; [|congruence].
  rewrite H2, steps_app. now rewrite <- H1.
Qed.

Lemma epoch_batches_S run (n : nat) :
  epoch_batches run (S n)
  = epoch_batches run n ++ (train_loader run n ++ test_loader run n).
Proof.
  unfold epoch_batches. rewrite seq_S, flat_map_app. simpl.
  now rewrite app_nil_r.
Qed.

Lemma after_epochs_steps run self (n : nat) :
  let self' := snd (after_epochs run self n) in
  (weights self', optimizer self')
  = steps (epoch_batches run n) (weights self) (optimizer self) /\
  num_epochs self' = num_epochs self.
Proof.
  cbn zeta. induction n as [|n [IHw IHn]]; [now split|].
  rewrite after_epochs_S.
  destruct (run_epoch_steps run (after_epochs run self n) n) as [Hw Hn].
  cbn zeta in Hw, Hn. split; [|congruence].
  rewrite Hw, epoch_batches_S, (steps_app (epoch_batches run n)). now rewrite <- IHw.
Qed.

End Generic.

Section Fallible.
Context {B : Backend}.
Variable accepts : batch B -> bool.
Implicit Types (self : Classifier B) (run : Run B).

Lemma stepped_app self (l1 l2 : list (batch B)) :
  stepped (stepped self l1) l2 = stepped self (l1 ++ l2).
Proof.
  destruct l1 as [|x1 l1]; [reflexivity|].
  destruct l2 as [|x2 l2]; [now rewrite app_nil_r|].
  change ((x1 :: l1) ++ x2 :: l2) with (x1 :: (l1 ++ x2 :: l2)).
  unfold stepped. cbn [num_epochs weights optimizer].
  change (x1 :: (l1 ++ x2 :: l2)) with ((x1 :: l1) ++ x2 :: l2).
  now rewrite (steps_app (x1 :: l1)).
Qed.

Lemma accepted_app (l1 l2 : list (batch B)) :
  Forward.accepted accepts (l1 ++ l2)
  = if forallb accepts l1 then l1 ++ Forward.accepted accepts l2
    else Forward.accepted accepts l1.
Proof.
  induction l1 as [|xy l1 IH]; [reflexivity|].
  simpl. destruct (accepts xy); [|reflexivity].
  simpl. rewrite IH. now destruct (forallb accepts l1).
Qed.

Lemma pass_fold (batches : list (batch B)) (losses accs : list PyFloat.float) self :
  forallb accepts batches = true ->
  Forward.pass accepts batches losses accs self
  = (let r :=
       fold_left
         (fun '(epoch_losses, epoch_accuracies, self) xy =>
            let '(batch_loss, self) := train_batch self xy in
            let '(batch_acc, self) := accuracy self xy in
            (epoch_losses ++ [batch_loss], epoch_accuracies ++ [batch_acc], self))
         batches (losses, accs, self) in
     (Ok (fst (fst r), snd (fst r)), snd r)).
Proof.
  revert losses accs self.
  induction batches as [|xy batches IH]; intros losses accs self Hall;
    [reflexivity|].
  cbn [forallb] in Hall. apply andb_prop in Hall as [Hxy Hall].
  cbn [Forward.pass fold_left]. unfold Forward.train_batch, Forward.accuracy.
  rewrite Hxy.
  destruct (train_batch self xy) as [batch_loss self1].
  destruct (accuracy self1 xy) as [batch_acc self2].
  now apply IH.
Qed.

(** A pass over batches that the model takes. *)
Lemma pass_accepted (batches : list (batch B)) self :
  forallb accepts batches = true ->
  Forward.pass accepts batches [] [] self
  = (Ok (fst (fst (train_pass self batches)), snd (fst (train_pass self batches))),
     stepped self batches).
Proof.
  intros Hall. rewrite pass_fold by assumption. cbv zeta.
  unfold train_pass. now rewrite train_pass_from.
Qed.

Lemma one_batch self (xy : batch B) :
  snd (accuracy (snd (train_batch self xy)) xy) = stepped self [xy].
Proof.
  unfold train_batch, accuracy, stepped. rewrite steps_cons.
  destruct (step B (weights self) (optimizer self) xy) as [w o]. reflexivity.
Qed.

(** A pass that meets a batch that the model does not take. *)
Lemma pass_rejected (batches : list (batch B)) (losses accs : list PyFloat.float)
    self :
  forallb accepts batches = false ->
  Forward.pass accepts batches losses accs self
  = (Raise RuntimeError,
     Forward.in_mode true (stepped self (Forward.accepted accepts batches))).
Proof.
  revert losses accs self.
  induction batches as [|xy batches IH]; intros losses accs self Hall;
    [discriminate Hall|].
  cbn [forallb] in Hall. cbn [Forward.pass Forward.accepted].
  unfold Forward.train_batch, Forward.accuracy.
  destruct (accepts xy) eqn:Hxy; [|reflexivity].
  simpl in Hall. pose proof (one_batch self xy) as Hone.
  destruct (train_batch self xy) as [batch_loss self1]. cbn [snd] in Hone.
  destruct (accuracy self1 xy) as [batch_acc self2]. cbn [snd] in Hone. subst self2.
  rewrite IH by assumption. f_equal.
  now rewrite stepped_app.
Qed.

Lemma run_epoch_accepted run (results : Results) (epoch : nat) self :
  forallb accepts (train_loader run epoch ++ test_loader run epoch) = true ->
  Forward.run_epoch accepts run results epoch self
  = (Ok (fst (run_epoch run (results, self) epoch)),
     snd (run_epoch run (results, self) epoch)) /\
  snd (run_epoch run (results, self) epoch)
  = stepped self (train_loader run epoch ++ test_loader run epoch).
Proof.
  intros Hall. rewrite forallb_app in Hall. apply andb_prop in Hall as [H1 H2].
  unfold Forward.run_epoch, run_epoch.
  rewrite (pass_accepted _ _ H1), (pass_accepted _ _ H2).
  unfold train_pass, test_pass.
  rewrite !train_pass_from, !test_pass_from. cbn [fst snd app].
  rewrite stepped_app. split; reflexivity.
Qed.

Lemma run_epoch_rejected run (results : Results) (epoch : nat) self :
  forallb accepts (train_loader run epoch ++ test_loader run epoch) = false ->
  Forward.run_epoch accepts run results epoch self
  = (Raise RuntimeError,
     Forward.in_mode true
       (stepped self
          (Forward.accepted accepts
             (train_loader run epoch ++ test_loader run epoch)))).
Proof.
  intros Hall. rewrite forallb_app in Hall. rewrite accepted_app.
  unfold Forward.run_epoch.
  destruct (forallb accepts (train_loader run epoch)) eqn:H1.
  - simpl in Hall. rewrite (pass_accepted _ _ H1).
    rewrite (pass_rejected _ _ _ _ Hall). now rewrite stepped_app.
  - now rewrite (pass_rejected _ _ _ _ H1).
Qed.

Lemma epochs_outcome run (l : list nat) (results : Results) self :
  let batches :=
    flat_map (fun epoch => train_loader run epoch ++ test_loader run epoch) l in
  Forward.epochs accepts run l results self
  = if forallb accepts batches then
      (Ok (fst (fold_left (run_epoch run) l (results, self))),
       snd (fold_left (run_epoch run) l (results, self)))
    else
      (Raise RuntimeError,
       Forward.in_mode true (stepped self (Forward.accepted accepts batches))).
Proof.
  cbv zeta. revert results self.
  induction l as [|epoch l IH]; intros results self; [reflexivity|].
  cbn [Forward.epochs flat_map fold_left].
  rewrite forallb_app, accepted_app.
  destruct (forallb accepts (train_loader run epoch ++ test_loader run epoch))
    eqn:Hepoch.
  - destruct (run_epoch_accepted run results epoch self Hepoch) as [Hrun Hstate].
    rewrite Hrun, IH. cbn [andb].
    destruct (run_epoch run (results, self) epoch) as [results1 self1].
    cbn [fst snd] in *. subst self1.
    destruct (forallb accepts _); [reflexivity|].
    now rewrite stepped_app.
  - now rewrite (run_epoch_rejected run results epoch self Hepoch).
Qed.

End Fallible.

(** [train], with the forward pass that can fail.  When the model takes
    every batch of the run, [train] goes through every epoch, optimizer
    steps included, and then returns [None] if [num_epochs] is 10 and
    raises the [ValueError] of the plot, whose x axis is fixed to ten
    points, if it is not; either way the classifier is left as the loop
    left it.  When the model does not take some batch, [train] raises the
    [RuntimeError] of the forward pass at the first such batch, in training
    mode, with the weights as the steps on the batches before it left
    them.  On a host with CUDA the model takes no batch, so a run with a
    first batch raises at it and leaves the weights as they were. *)
Theorem train_outcome {B : Backend} (accepts : batch B -> bool)
    (run : Run B) (self : Classifier B) :
  let batches := epoch_batches run (num_epochs self) in
  Forward.train accepts run self
  = (if forallb accepts batches then
       (if num_epochs self =? 10 then Ok PyNone else Raise ValueError,
        snd (train_loop run self))
     else
       (Raise RuntimeError,
        Forward.in_mode true (stepped self (Forward.accepted accepts batches)))) /\
  (forall (fits : batch B -> bool) xy rest,
      batches = xy :: rest ->
      Forward.train (Forward.accepts_on true fits) run self
      = (Raise RuntimeError, Forward.in_mode true self)).
Proof.
  cbv zeta.
  assert (Hmain : forall accepts : batch B -> bool,
            Forward.train accepts run self
            = if forallb accepts (epoch_batches run (num_epochs self)) then
                (if num_epochs self =? 10 then Ok PyNone else Raise ValueError,
                 snd (train_loop run self))
              else
                (Raise RuntimeError,
                 Forward.in_mode true
                   (stepped self
                      (Forward.accepted accepts
                         (epoch_batches run (num_epochs self)))))).
  { intros acc. unfold Forward.train. rewrite epochs_outcome. cbv zeta.
    fold (epoch_batches run (num_epochs self)). fold (train_loop run self).
    destruct (forallb acc (epoch_batches run (num_epochs self))); [|reflexivity].
    rewrite plot_results_after. now destruct (num_epochs self =? 10). }
  split; [apply Hmain|].
  intros fits xy rest Hbatches. rewrite Hmain, Hbatches. reflexivity.
Qed.

(** The loop of [train] applies one optimizer step for every batch of
    every epoch, test batches included, in the order in which the loaders
    yield them: the weights and the optimizer state after the loop are
    those after stepping through the train batches and then the test
    batches of epoch 0, then those of epoch 1, and so on; the number of
    epochs is not changed. *)
Theorem train_loop_steps {B : Backend} (run : Run B) (self : Classifier B) :
  let self' := snd (train_loop run self) in
  (weights self', optimizer self')
  = steps (epoch_batches run (num_epochs self)) (weights self) (optimizer self) /\
  num_epochs self' = num_epochs self.
Proof. rewrite train_loop_after_epochs. apply after_epochs_steps. Qed.

(** In a pass over the batches of a loader the loss recorded for batch
    [i] is computed with the weights as the steps on the batches before it
    left them, and the accuracy recorded for it with the weights after the
    step on batch [i] itself.  The test pass records the same numbers as
    the train pass would, and leaves the same weights. *)
Theorem pass_records {B : Backend} (self : Classifier B) (batches : list (batch B)) :
  let losses := imap (fun i xy => loss B (weights_after self batches i) xy) batches in
  let accs :=
    imap (fun i xy => predict_accuracy B (weights_after self batches (S i)) xy)
         batches in
  fst (train_pass self batches) = (losses, accs) /\
  fst (test_pass self batches) = (accs, losses) /\
  snd (test_pass self batches) = snd (train_pass self batches).
Proof.
  cbn zeta. unfold train_pass, test_pass.
  rewrite train_pass_from, test_pass_from. now repeat split.
Qed.

End TrainFacts.

(** ** The range of the normalised pixels *)

Module TransformFacts.
Import Transform.
Local Open Scope Z_scope.

Lemma transform_increasing_bytes :
  forallb (fun p => SFltb (transform p) (transform (p + 1)))
          (map Z.of_nat (seq 0 255)) = true.
Proof. vm_compute. reflexivity. Qed.

(** The transform of [Classifier.load_data] sends the byte 0 to exactly
    -1 and the byte 255 to exactly 1 in float32, and is strictly
    increasing in between: every normalised pixel lies in [-1, 1]. *)
Theorem transform_range (p : Z) :
  0 <= p < 255 ->
  transform 0 = minus_one /\ transform 255 = plus_one /\
  SFltb (transform p) (transform (p + 1)) = true.
Proof.
  intros Hp. split; [vm_compute; reflexivity|]. split; [vm_compute; reflexivity|].
  pose proof transform_increasing_bytes as Hall.
  rewrite forallb_forall in Hall.
  apply (Hall p). apply in_map_iff. exists (Z.to_nat p).
  split; [lia|]. apply in_seq. lia.
Qed.

Lemma transform_range_witness :
  SFltb (transform 127) (transform 128) = true.
Proof.
  exact (proj2 (proj2 (transform_range 127 ltac:(lia)))).
Defined.

End TransformFacts.
